(** * CollegeVault: the step-up authentication and one-time-code flow

    A shallow embedding of the server code that gates secure document
    downloads.  The repository carries two parallel implementations:

    - the in-memory one ([server/routes/auth.ts], [server/routes/documents.ts],
      [server/services/otpService.ts]), embedded in [Module Dev];
    - the SQLite-backed one ([server/database/database.ts], the production
      [routes/auth.ts], [server/services/productionOtpService.ts]), embedded
      in [Module Prod].

    Conventions of the embedding.
    - JavaScript strings are [string]s; a request field that may be absent is
      an [option string], and JavaScript truthiness of such a field is [truthy].
    - [Date.now()] is a natural number of milliseconds since the epoch ([N]);
      a handler reads the clock once.
    - [Math.random()] and the outcome of the external mail and SMS providers
      are inputs of the handler that consumes them.
    - [bcrypt.compare] is a parameter [bcrypt_compare].
    - A handler returns the HTTP status, the JSON body, the new store and,
      where it sends anything, the list of deliveries it performed. *)

From stdpp Require Import base option list gmap strings pretty.
From Stdlib Require Import NArith ZArith Ascii String List Lia Bool.
Import ListNotations.

Local Open Scope string_scope.
Local Open Scope N_scope.

(** ** JavaScript helpers *)

(** [!x] for a value that is either [undefined] or a string. *)
Definition truthy (x : option string) : bool :=
  match x with
  | Some s => negb (String.eqb s "")
  | None => false
  end.

Definition is_digit (c : ascii) : bool :=
  (48 <=? N_of_ascii c) && (N_of_ascii c <=? 57).

Definition is_lower (c : ascii) : bool :=
  (97 <=? N_of_ascii c) && (N_of_ascii c <=? 122).

Fixpoint string_forallb (f : ascii -> bool) (s : string) : bool :=
  match s with
  | EmptyString => true
  | String c rest => f c && string_forallb f rest
  end.

(** Ids of documents and ledger rows are made by
    [Date.now().toString() + Math.random().toString(36).substr(2, 9)]:
    decimal digits followed by up to nine base-36 digits. *)
Definition newId (now : N) (suffix : string) : string := pretty now +:+ suffix.

Definition is_base36 (c : ascii) : bool := is_digit c || is_lower c.

Definition is_ascii (c : ascii) : bool := N_of_ascii c <? 128.

Definition well_formed_id (id : string) : Prop :=
  string_forallb is_base36 id = true.

(** An id that is ASCII text without a colon; every id the generator makes
    is one. *)
Definition is_plain_char (c : ascii) : bool :=
  is_ascii c && negb (Ascii.eqb c ":").

Definition plain_id (id : string) : Prop :=
  string_forallb is_plain_char id = true.

(** The part of a request that identifies the caller: the [Authorization]
    header after [startsWith('Bearer ')], [Buffer.from(_, 'base64')] and
    [JSON.parse].  [Bearer uid exp] stands for a payload carrying a [userId]
    and a numeric [exp]. *)
Inductive AuthHeader : Type :=
| NoBearer
| Undecodable
| Bearer (userId : string) (exp : N).

(** ** Shared API types ([shared/api.ts]) *)

Module User.
Record t : Type := mk
  { id : string; name : string; email : string; phone : string;
    password : string; createdAt : string }.
End User.

Inductive DocType : Type :=
| certificate | fee_receipt | transcript | id_card | other.

Module Metadata.
Record t : Type := mk
  { tags : option (list string); description : option string;
    mimeType : option string; originalName : option string }.
End Metadata.

Module Document.
Record t : Type := mk
  { id : string; name : string; type : DocType; semester : string;
    year : string; uploadDate : string; size : string; isSecure : bool;
    userId : string; fileUrl : option string;
    metadata : option Metadata.t }.
End Document.

Module AuthResponse.
Record t : Type := mk { success : bool; message : string }.
End AuthResponse.

Module DocumentResponse.
Record t : Type := mk
  { success : bool; document : option Document.t; message : string }.
End DocumentResponse.

Module SecurityResponse.
Record t : Type := mk
  { success : bool; downloadUrl : option string; otpSent : option bool;
    expiresAt : option string; message : string }.
End SecurityResponse.

(** [process.env]: each variable is unset or a string. *)
Module Env.
Record t : Type := mk
  { SMTP_HOST : option string; SMTP_PORT : option string;
    SMTP_USER : option string; SMTP_PASS : option string;
    TWILIO_ACCOUNT_SID : option string; TWILIO_AUTH_TOKEN : option string;
    TWILIO_PHONE_NUMBER : option string }.
End Env.

(** What the external provider did with one hand-off: it accepted the
    message, or the SDK call threw. *)
Inductive ProviderOutcome : Type := Accepted | Threw.

Record Providers : Type := mkProviders
  { mail : ProviderOutcome; sms : ProviderOutcome }.

(** What a handler hands out, in order: a message accepted by the mail or
    SMS provider, or a line with the code on the server console. *)
Inductive Delivery : Type :=
| EmailTo (address code purpose : string)
| SmsTo (number code purpose : string)
| ConsoleOtp (code : string).

Definition reaches_account_holder (d : Delivery) : bool :=
  match d with
  | EmailTo _ _ _ | SmsTo _ _ _ => true
  | ConsoleOtp _ => false
  end.

Module SendResult.
Record t : Type := mk { success : bool; message : string }.
End SendResult.

(** [Math.floor(100000 + Math.random() * 900000).toString()], with
    [r = Math.floor(Math.random() * 900000)]. *)
Definition generateOTP (r : N) : string := pretty (100000 + r).

Definition FIVE_MINUTES : N := 5 * 60 * 1000.

(** ** Timestamps as text

    The ledger keeps its timestamps as text: [expires_at] is what
    [new Date(ms).toISOString()] wrote, and SQLite's [datetime('now')] and
    [CURRENT_TIMESTAMP] produce ["YYYY-MM-DD HH:MM:SS"] in UTC. *)

Module Clock.

Record Civil : Type := mkCivil { year : N; month : N; day : N }.

Definition is_leap (y : N) : bool :=
  ((y mod 4 =? 0) && negb (y mod 100 =? 0)) || (y mod 400 =? 0).

Definition days_in_month (y m : N) : N :=
  match m with
  | 2 => if is_leap y then 29 else 28
  | 4 | 6 | 9 | 11 => 30
  | _ => 31
  end.

Definition next_day (c : Civil) : Civil :=
  if day c <? days_in_month (year c) (month c)
  then mkCivil (year c) (month c) (day c + 1)
  else if month c <? 12 then mkCivil (year c) (month c + 1) 1
  else mkCivil (year c + 1) 1 1.

Definition EPOCH : Civil := mkCivil 1970 1 1.

(** The calendar date [d] days after 1 January 1970. *)
Definition civil_of_days (d : N) : Civil := N.iter d next_day EPOCH.

Definition MS_PER_DAY : N := 86400000.

Definition digit (n : N) : ascii := ascii_of_N (48 + n mod 10).

Definition pad2 (n : N) : string :=
  String (digit (n / 10)) (String (digit n) "").

Definition pad3 (n : N) : string := String (digit (n / 100)) (pad2 n).

Definition pad4 (n : N) : string := pad2 (n / 100) +:+ pad2 n.

(** ["YYYY-MM-DD"]. *)
Definition date_text (c : Civil) : string :=
  pad4 (year c) +:+ "-" +:+ pad2 (month c) +:+ "-" +:+ pad2 (day c).

(** ["HH:MM:SS"] of a number of milliseconds since midnight. *)
Definition time_text (ms : N) : string :=
  pad2 (ms / 3600000) +:+ ":" +:+ pad2 (ms / 60000 mod 60) +:+ ":"
    +:+ pad2 (ms / 1000 mod 60).

(** [new Date(t).toISOString()]: ["YYYY-MM-DDTHH:MM:SS.sssZ"]. *)
Definition toISOString (t : N) : string :=
  date_text (civil_of_days (t / MS_PER_DAY)) +:+ "T"
    +:+ time_text (t mod MS_PER_DAY) +:+ "." +:+ pad3 (t mod 1000) +:+ "Z".

(** SQLite's [datetime('now')] read at instant [t]:
    ["YYYY-MM-DD HH:MM:SS"]. *)
Definition datetime (t : N) : string :=
  date_text (civil_of_days (t / MS_PER_DAY)) +:+ " "
    +:+ time_text (t mod MS_PER_DAY).

(** The last millisecond of the year 9999; both formats have four year
    digits up to here. *)
Definition MAX_TIME : N := 253402300799999.

Definition MAX_DAY : N := 2932896.

(** The date read as the number YYYYMMDD. *)
Definition key (c : Civil) : N := year c * 10000 + month c * 100 + day c.

Definition valid_date (c : Civil) : Prop :=
  1 <= month c <= 12 /\ 1 <= day c <= days_in_month (year c) (month c).

End Clock.

(** ** Node's [Buffer]: bytes, UTF-8 and base64

    A [string] is read as the UTF-8 bytes of the JavaScript string it stands
    for, so [Buffer.from(s)] is the list of its bytes. *)

Definition bytes_of_string (s : string) : list N :=
  map N_of_ascii (list_ascii_of_string s).

Definition string_of_bytes (l : list N) : string :=
  string_of_list_ascii (map ascii_of_N l).

(** The prefix of [s] before the first occurrence of [c]: the first element
    of [s.split(c)]. *)
Fixpoint take_until (c : ascii) (s : string) : string :=
  match s with
  | EmptyString => EmptyString
  | String a rest =>
      if Ascii.eqb a c then EmptyString else String a (take_until c rest)
  end.

Module Utf8.

(** [buf.toString()] decodes UTF-8 and puts U+FFFD in place of every
    ill-formed sequence; on the byte reading of strings this keeps each
    well-formed sequence and writes [EF BF BD] for each ill-formed one.
    The decoder is the one of the Encoding Standard. *)

Inductive state : Type :=
| Idle
| Pending (needed lower upper : N) (seen : list N).

Definition REPLACEMENT : list N := [239; 191; 189].

(** A byte met when no sequence is open. *)
Definition start (b : N) : list N * state :=
  if b <? 128 then ([b], Idle)
  else if (194 <=? b) && (b <=? 223) then ([], Pending 1 128 191 [b])
  else if (224 <=? b) && (b <=? 239) then
    ([], Pending 2 (if b =? 224 then 160 else 128)
                   (if b =? 237 then 159 else 191) [b])
  else if (240 <=? b) && (b <=? 244) then
    ([], Pending 3 (if b =? 240 then 144 else 128)
                   (if b =? 244 then 143 else 191) [b])
  else (REPLACEMENT, Idle).

Fixpoint decode (st : state) (l : list N) : list N :=
  match l with
  | [] => match st with Idle => [] | Pending _ _ _ _ => REPLACEMENT end
  | b :: rest =>
      match st with
      | Idle => let '(out, st') := start b in out ++ decode st' rest
      | Pending needed lower upper seen =>
          if (lower <=? b) && (b <=? upper) then
            if needed =? 1 then seen ++ [b] ++ decode Idle rest
            else decode (Pending (needed - 1) 128 191 (seen ++ [b])) rest
          else
            let '(out, st') := start b in
            REPLACEMENT ++ out ++ decode st' rest
      end
  end.

Definition toString (bytes : list N) : string :=
  string_of_bytes (decode Idle bytes).

End Utf8.

(** ** JavaScript strings and numbers

    The functions of [String.prototype] and the number conversions that the
    handlers use, on the UTF-8 reading of strings. *)

Module Js.

(** The code points of [WhiteSpace] and [LineTerminator], which [trim],
    [parseInt] and the class [\s] of regular expressions share, each as
    its UTF-8 bytes: U+0009 to U+000D, U+0020, U+00A0, U+1680, U+2000 to
    U+200A, U+2028, U+2029, U+202F, U+205F, U+3000 and U+FEFF. *)
Definition WHITE_SPACE : list (list N) :=
  [[9]; [10]; [11]; [12]; [13]; [32]; [194; 160]; [225; 154; 128];
   [226; 128; 128]; [226; 128; 129]; [226; 128; 130]; [226; 128; 131];
   [226; 128; 132]; [226; 128; 133]; [226; 128; 134]; [226; 128; 135];
   [226; 128; 136]; [226; 128; 137]; [226; 128; 138]; [226; 128; 168];
   [226; 128; 169]; [226; 128; 175]; [226; 129; 159]; [227; 128; 128];
   [239; 187; 191]].

(** [l] without its prefix [p], when it has that prefix. *)
Fixpoint strip_prefix (p l : list N) : option (list N) :=
  match p, l with
  | [], _ => Some l
  | a :: p', b :: l' => if a =? b then strip_prefix p' l' else None
  | _ :: _, [] => None
  end.

(** [l] without the one white-space code point it starts with. *)
Definition skip_space (patterns : list (list N)) (l : list N)
    : option (list N) :=
  List.fold_right
    (fun p found =>
       match strip_prefix p l with Some rest => Some rest | None => found end)
    None patterns.

Fixpoint skip_spaces (fuel : nat) (patterns : list (list N)) (l : list N)
    : list N :=
  match fuel with
  | O => l
  | S fuel' =>
      match skip_space patterns l with
      | Some rest => skip_spaces fuel' patterns rest
      | None => l
      end
  end.

Definition trimStart (s : string) : string :=
  let l := bytes_of_string s in
  string_of_bytes (skip_spaces (length l) WHITE_SPACE l).

(** White space at the end is white space at the start of the reversed
    bytes, each code point reversed. *)
Definition trimEnd (s : string) : string :=
  let l := List.rev (bytes_of_string s) in
  string_of_bytes
    (List.rev (skip_spaces (length l) (map (@List.rev N) WHITE_SPACE) l)).

Definition trim (s : string) : string := trimEnd (trimStart s).

(** [s.length]: the number of UTF-16 code units, one for each code point
    and one more for each code point written with four bytes. *)
Definition length (s : string) : N :=
  List.fold_right
    (fun b n =>
       (if (b <? 128) || (192 <=? b) then 1 else 0)
       + (if 240 <=? b then 1 else 0) + n)
    0 (bytes_of_string s).

Fixpoint startsWith (s p : string) : bool :=
  match p, s with
  | EmptyString, _ => true
  | String a p', String b s' => Ascii.eqb a b && startsWith s' p'
  | String _ _, EmptyString => false
  end.

(** [s.includes(needle)]. *)
Fixpoint includes (s needle : string) : bool :=
  startsWith s needle
  || match s with
     | String _ rest => includes rest needle
     | EmptyString => false
     end.

(** A number that is an integer or [NaN].  The source computes with
    doubles, which hold the integers up to 2^53 exactly. *)
Inductive Int : Type :=
| NaN
| Num (z : Z).

Definition add (a b : Int) : Int :=
  match a, b with
  | Num x, Num y => Num (x + y)
  | _, _ => NaN
  end.

(** The value of [c] as a digit of the radix, when it is one. *)
Definition digit_of (radix : N) (c : ascii) : option N :=
  let n := N_of_ascii c in
  let value :=
    if (48 <=? n) && (n <=? 57) then Some (n - 48)
    else if (97 <=? n) && (n <=? 122) then Some (n - 97 + 10)
    else if (65 <=? n) && (n <=? 90) then Some (n - 65 + 10)
    else None in
  match value with
  | Some d => if d <? radix then Some d else None
  | None => None
  end.

(** The number written by the longest prefix of digits, [None] when the
    prefix is empty. *)
Fixpoint leading_digits (radix : N) (s : string) (acc : option N)
    : option N :=
  match s with
  | String c rest =>
      match digit_of radix c with
      | Some d => leading_digits radix rest (Some (default 0 acc * radix + d))
      | None => acc
      end
  | EmptyString => acc
  end.

(** [parseInt(s)] with no radix: leading white space, a sign, the prefix
    [0x] or [0X], then the longest run of digits. *)
Definition parseInt (s : string) : Int :=
  let s := trimStart s in
  let '(negative, s) :=
    match s with
    | String "-"%char rest => (true, rest)
    | String "+"%char rest => (false, rest)
    | _ => (false, s)
    end in
  let '(radix, s) :=
    match s with
    | String "0"%char (String "x"%char rest) => (16, rest)
    | String "0"%char (String "X"%char rest) => (16, rest)
    | _ => (10, s)
    end in
  match leading_digits radix s None with
  | None => NaN
  | Some n => Num (if negative then - Z.of_N n else Z.of_N n)
  end.

(** An argument of [slice] made an index of an array of [len] elements:
    [NaN] is 0, a negative number counts from the end, and the result stays
    within the array. *)
Definition relative_index (len : nat) (k : Int) : nat :=
  match k with
  | NaN => O
  | Num z =>
      if (z <? 0)%Z then Z.to_nat (Z.max (Z.of_nat len + z) 0)
      else Nat.min (Z.to_nat z) len
  end.

(** [l.slice(start, end)]. *)
Definition slice {A : Type} (l : list A) (start final : Int) : list A :=
  let k := relative_index (List.length l) start in
  let e := relative_index (List.length l) final in
  firstn (e - k) (skipn k l).

(** The code points of a string.  Strings are the UTF-8 of JavaScript
    strings, so the sequences are well formed; a byte that starts none
    reads as U+FFFD. *)
Fixpoint codePoints (l : list N) : list N :=
  match l with
  | [] => []
  | a :: rest =>
      if a <? 128 then a :: codePoints rest
      else if (192 <=? a) && (a <? 224) then
        match rest with
        | b :: rest' => ((a - 192) * 64 + (b - 128)) :: codePoints rest'
        | [] => [65533]
        end
      else if (224 <=? a) && (a <? 240) then
        match rest with
        | b :: c :: rest' =>
            ((a - 224) * 4096 + (b - 128) * 64 + (c - 128))
              :: codePoints rest'
        | _ => [65533]
        end
      else if (240 <=? a) && (a <? 248) then
        match rest with
        | b :: c :: d :: rest' =>
            ((a - 240) * 262144 + (b - 128) * 4096 + (c - 128) * 64
             + (d - 128)) :: codePoints rest'
        | _ => [65533]
        end
      else 65533 :: codePoints rest
  end.

(** The UTF-16 code units of a string: one for a code point of the basic
    plane, a surrogate pair for any other. *)
Definition codeUnits (s : string) : list N :=
  flat_map
    (fun c =>
       if c <? 65536 then [c]
       else [55296 + (c - 65536) / 1024; 56320 + (c - 65536) mod 1024])
    (codePoints (bytes_of_string s)).

(** The class [\s]: the code points of [WHITE_SPACE]. *)
Definition is_space (c : N) : bool :=
  ((9 <=? c) && (c <=? 13)) || (c =? 32) || (c =? 160) || (c =? 5760)
  || ((8192 <=? c) && (c <=? 8202)) || (c =? 8232) || (c =? 8233)
  || (c =? 8239) || (c =? 8287) || (c =? 12288) || (c =? 65279).

(** The regular expressions of the validators: a sequence of character
    classes, each with a quantifier [{least,}] or [{least,most}], anchored
    at both ends.  [test] tries every split, as backtracking does.  A code
    point outside the basic plane is two code units to the source and one
    element here; no class of the validators tells the two readings
    apart. *)
Module RegExp.

Record Atom : Type := atom
  { class : N -> bool; least : nat; most : option nat }.

Fixpoint repeat (k : list N -> bool) (class : N -> bool) (least : nat)
    (most : option nat) (s : list N) : bool :=
  match least with O => k s | S _ => false end
  || match s with
     | c :: rest =>
         class c
         && match most with Some O => false | _ => true end
         && repeat k class (Nat.pred least) (option_map Nat.pred most) rest
     | [] => false
     end.

Fixpoint exec (pattern : list Atom) (s : list N) : bool :=
  match pattern with
  | [] => match s with [] => true | _ :: _ => false end
  | a :: pattern' => repeat (exec pattern') (class a) (least a) (most a) s
  end.

Definition test (pattern : list Atom) (s : string) : bool :=
  exec pattern (codePoints (bytes_of_string s)).

Definition one (class : N -> bool) : Atom := atom class 1 (Some 1%nat).
Definition plus (class : N -> bool) : Atom := atom class 1 None.
Definition optional (class : N -> bool) : Atom := atom class 0 (Some 1%nat).
Definition at_least (n : nat) (class : N -> bool) : Atom := atom class n None.

End RegExp.

End Js.

(** ** Base64

    [buf.toString('base64')] writes the standard alphabet with padding.
    [Buffer.from(token, 'base64')] reads the token by UTF-16 code units and
    looks at the low byte of each; it also takes the URL-safe alphabet,
    skips what is in neither and stops at the first [=]. *)

Module Base64.

(** The alphabet [A-Z a-z 0-9 + /]. *)
Definition alphabet (n : N) : ascii :=
  ascii_of_N
    (if n <? 26 then 65 + n
     else if n <? 52 then 97 + (n - 26)
     else if n <? 62 then 48 + (n - 52)
     else if n =? 62 then 43 else 47).

(** The decoder also takes the URL-safe [-] and [_]. *)
Definition unbase64 (c : ascii) : option N :=
  let n := N_of_ascii c in
  if (65 <=? n) && (n <=? 90) then Some (n - 65)
  else if (97 <=? n) && (n <=? 122) then Some (n - 97 + 26)
  else if (48 <=? n) && (n <=? 57) then Some (n - 48 + 52)
  else if (n =? 43) || (n =? 45) then Some 62
  else if (n =? 47) || (n =? 95) then Some 63
  else None.

(** Six-bit groups of a byte sequence; the last group of a sequence whose
    length is not a multiple of three is filled with zero bits. *)
Fixpoint sextets (bytes : list N) : list N :=
  match bytes with
  | a :: b :: c :: rest =>
      [a / 4; (a mod 4) * 16 + b / 16; (b mod 16) * 4 + c / 64; c mod 64]
        ++ sextets rest
  | [a; b] => [a / 4; (a mod 4) * 16 + b / 16; (b mod 16) * 4]
  | [a] => [a / 4; (a mod 4) * 16]
  | [] => []
  end.

Definition padding (len : nat) : string :=
  match Nat.modulo len 3 with
  | 1%nat => "=="
  | 2%nat => "="
  | _ => ""
  end.

(** [Buffer.from(s).toString('base64')]. *)
Definition encode (s : string) : string :=
  let bytes := bytes_of_string s in
  string_of_list_ascii (map alphabet (sextets bytes))
    +:+ padding (length bytes).

(** Bytes of a run of six-bit groups: every group after the first of a
    quadruple completes one byte; a lone last group gives nothing. *)
Fixpoint unsextets (l : list N) : list N :=
  match l with
  | a :: b :: c :: d :: rest =>
      [a * 4 + b / 16; (b mod 16) * 16 + c / 4; (c mod 4) * 64 + d]
        ++ unsextets rest
  | [a; b; c] => [a * 4 + b / 16; (b mod 16) * 16 + c / 4]
  | [a; b] => [a * 4 + b / 16]
  | _ => []
  end.

(** What the decoder reads of the token: of each UTF-16 code unit its low
    byte, so a unit above U+00FF counts as the character of its low byte
    (U+014D as the letter M). *)
Definition low_bytes (token : string) : string :=
  string_of_bytes (map (fun u => u mod 256) (Js.codeUnits token)).

(** [Buffer.from(token, 'base64')]: decoding stops at the first [=],
    characters outside the alphabet are skipped, nothing throws. *)
Definition decode (token : string) : list N :=
  unsextets
    (omap unbase64
       (list_ascii_of_string (take_until "="%char (low_bytes token)))).

End Base64.

(** The double quote. *)
Definition QUOTE : string := String (ascii_of_N 34) "".

(** ** The in-memory implementation *)

Module Dev.

(** *** [server/services/otpService.ts] *)

Module OTPResult.
Record t : Type := mk
  { success : bool; message : string; emailSent : bool; smsSent : bool }.
End OTPResult.

Definition sendOTPEmail (env : Env.t) (prov : Providers)
    (email otp purpose : string) : SendResult.t * list Delivery :=
  if negb (truthy (Env.SMTP_USER env)) || negb (truthy (Env.SMTP_PASS env))
  then (SendResult.mk false "Email service not configured", [])
  else match mail prov with
       | Accepted =>
           (SendResult.mk true "Email sent successfully",
            [EmailTo email otp purpose])
       | Threw => (SendResult.mk false "Failed to send email", [])
       end.

(** [twilioClient] is non-null when the account SID and the auth token are
    both set. *)
Definition twilioClient (env : Env.t) : bool :=
  truthy (Env.TWILIO_ACCOUNT_SID env) && truthy (Env.TWILIO_AUTH_TOKEN env).

Definition sendOTPSMS (env : Env.t) (prov : Providers)
    (phone otp purpose : string) : SendResult.t * list Delivery :=
  if negb (twilioClient env) || negb (truthy (Env.TWILIO_PHONE_NUMBER env))
  then (SendResult.mk false "SMS service not configured", [])
  else match sms prov with
       | Accepted =>
           (SendResult.mk true "SMS sent successfully",
            [SmsTo phone otp purpose])
       | Threw => (SendResult.mk false "Failed to send SMS", [])
       end.

(** Both sends are settled ([Promise.allSettled]); neither rejects, since
    each catches its own exception. *)
Definition sendOTPToEmailAndPhone (env : Env.t) (prov : Providers)
    (email phone otp purpose : string) : OTPResult.t * list Delivery :=
  let '(emailResult, sentE) := sendOTPEmail env prov email otp purpose in
  let '(smsResult, sentS) := sendOTPSMS env prov phone otp purpose in
  let emailSent := SendResult.success emailResult in
  let smsSent := SendResult.success smsResult in
  let message :=
    if emailSent && smsSent
    then "OTP sent to both email and phone successfully"
    else if emailSent then "OTP sent to email successfully (SMS failed)"
    else if smsSent then "OTP sent to phone successfully (Email failed)"
    else "Failed to send OTP to both email and phone" in
  (OTPResult.mk (emailSent || smsSent) message emailSent smsSent,
   ConsoleOtp otp :: sentE ++ sentS).

(** The console fallback: the code is printed on the server console. *)
Definition sendOTPDevelopment (email phone otp purpose : string)
    : list Delivery :=
  [ConsoleOtp otp].

(** *** [server/services/configService.ts] *)

Module ServiceConfig.
Record t : Type := mk
  { emailConfigured : bool; smsConfigured : bool; isDevelopment : bool }.
End ServiceConfig.

Definition getServiceConfig (NODE_ENV : option string) (env : Env.t)
    : ServiceConfig.t :=
  ServiceConfig.mk
    (truthy (Env.SMTP_USER env) && truthy (Env.SMTP_PASS env)
     && truthy (Env.SMTP_HOST env))
    (truthy (Env.TWILIO_ACCOUNT_SID env) && truthy (Env.TWILIO_AUTH_TOKEN env)
     && truthy (Env.TWILIO_PHONE_NUMBER env))
    (match NODE_ENV with
     | Some v => negb (String.eqb v "production")
     | None => true
     end).

Definition getOTPServiceStatus (NODE_ENV : option string) (env : Env.t)
    : string :=
  let config := getServiceConfig NODE_ENV env in
  if ServiceConfig.emailConfigured config
     && ServiceConfig.smsConfigured config
  then "Both email and SMS services are configured and working."
  else if ServiceConfig.emailConfigured config
  then "Email service is configured. SMS service needs Twilio configuration."
  else if ServiceConfig.smsConfigured config
  then "SMS service is configured. Email service needs SMTP configuration."
  else "Neither email nor SMS services are configured. Using development mode (console logging).".

(** The line feed, written [\n] in the source. *)
Definition LF : string := String (ascii_of_N 10) "".

Definition getConfigurationInstructions (NODE_ENV : option string)
    (env : Env.t) : string :=
  let config := getServiceConfig NODE_ENV env in
  let instructions := "" in
  let instructions :=
    if negb (ServiceConfig.emailConfigured config) then
      instructions +:+ LF +:+ "📧 Email Configuration:" +:+ LF
        +:+ "   Set these environment variables:" +:+ LF
        +:+ "   - SMTP_HOST (e.g., smtp.gmail.com)" +:+ LF
        +:+ "   - SMTP_PORT (e.g., 587)" +:+ LF
        +:+ "   - SMTP_USER (your email address)" +:+ LF
        +:+ "   - SMTP_PASS (your app password)" +:+ LF
    else instructions in
  let instructions :=
    if negb (ServiceConfig.smsConfigured config) then
      instructions +:+ LF +:+ "📱 SMS Configuration:" +:+ LF
        +:+ "   Set these environment variables:" +:+ LF
        +:+ "   - TWILIO_ACCOUNT_SID" +:+ LF
        +:+ "   - TWILIO_AUTH_TOKEN" +:+ LF
        +:+ "   - TWILIO_PHONE_NUMBER" +:+ LF
    else instructions in
  if negb (String.eqb instructions "") then
    (LF +:+ "🔧 To enable real OTP sending:" +:+ instructions)
      +:+ LF +:+ LF +:+ "Use DevServerControl tool or set in .env file" +:+ LF
  else instructions.

(** *** Module state of [routes/auth.ts] and [routes/documents.ts] *)

Module StoredOTP.
Record t : Type := mk { code : string; expiresAt : N }.
End StoredOTP.

Module DocOTP.
Record t : Type := mk { code : string; expiresAt : N; contact : string }.
End DocOTP.

Module StoredFile.
Record t : Type := mk
  { filePath : string; mimeType : string; originalName : string }.
End StoredFile.

Record Store : Type := mkStore
  { users : list User.t;
    downloadOTPs : gmap string StoredOTP.t;
    documents : list Document.t;
    storedFiles : gmap string StoredFile.t;
    otps : gmap string DocOTP.t }.

Definition set_downloadOTPs (s : Store) (m : gmap string StoredOTP.t) : Store :=
  mkStore (users s) m (documents s) (storedFiles s) (otps s).

Definition set_documents (s : Store) (d : list Document.t) : Store :=
  mkStore (users s) (downloadOTPs s) d (storedFiles s) (otps s).

Definition set_otps (s : Store) (m : gmap string DocOTP.t) : Store :=
  mkStore (users s) (downloadOTPs s) (documents s) (storedFiles s) m.

Definition findUserById (s : Store) (id : string) : option User.t :=
  List.find (fun u => String.eqb (User.id u) id) (users s).

(** *** Requests and replies of the account routes *)

(** A user without the [password] field. *)
Module PublicUser.
Record t : Type := mk
  { id : string; name : string; email : string; phone : string;
    createdAt : string }.
End PublicUser.

Definition withoutPassword (u : User.t) : PublicUser.t :=
  PublicUser.mk (User.id u) (User.name u) (User.email u) (User.phone u)
    (User.createdAt u).

(** [AuthResponse] with its [user] and [token] fields.  A token is given
    as what the server reads back from it when it arrives in an
    [Authorization] header. *)
Module SessionResponse.
Record t : Type := mk
  { success : bool; user : option PublicUser.t; token : option AuthHeader;
    message : string }.
End SessionResponse.

(** *** Requests and replies of the document routes *)

(** [DocumentResponse] carrying the [documents] of a listing. *)
Module DocumentsResponse.
Record t : Type := mk
  { success : bool; documents : option (list Document.t); message : string }.
End DocumentsResponse.

(** What multer leaves in [req.file]. *)
Module UploadedFile.
Record t : Type := mk
  { size : N; path : string; mimetype : string; originalname : string }.
End UploadedFile.

Module StorageInfo.
Record t : Type := mk
  { used : N; total : N; percentage : N; documentsCount : N }.
End StorageInfo.

Module StorageResponse.
Record t : Type := mk
  { success : bool; storage : option StorageInfo.t; message : string }.
End StorageResponse.

Section Handlers.

(** [bcrypt.compare(password, hash)]. *)
Variable bcrypt_compare : string -> string -> bool.
Variable env : Env.t.

(** *** [routes/auth.ts] *)

Definition handleVerifyPasswordForDownload (s : Store)
    (password : option string) (auth : AuthHeader) (now r : N)
    (prov : Providers)
    : N * AuthResponse.t * Store * list Delivery :=
  if negb (truthy password) then
    (400, AuthResponse.mk false "Password is required", s, [])
  else
  let pw := default "" password in
  match auth with
  | NoBearer =>
      (401, AuthResponse.mk false "No valid token provided", s, [])
  | Undecodable => (401, AuthResponse.mk false "Invalid token", s, [])
  | Bearer uid exp =>
    if exp <? now then
      (401, AuthResponse.mk false "Token expired", s, [])
    else
    match findUserById s uid with
    | None => (404, AuthResponse.mk false "User not found", s, [])
    | Some user =>
      if negb (bcrypt_compare pw (User.password user)) then
        (401, AuthResponse.mk false "Invalid password", s, [])
      else
        let otp := generateOTP r in
        let expiresAt := now + FIVE_MINUTES in
        let s' :=
          set_downloadOTPs s
            (<[User.id user := StoredOTP.mk otp expiresAt]>
               (downloadOTPs s)) in
        let '(otpResult, sent) :=
          sendOTPToEmailAndPhone env prov (User.email user)
            (User.phone user) otp "document download" in
        let fallback :=
          if OTPResult.success otpResult then []
          else sendOTPDevelopment (User.email user) (User.phone user)
                 otp "document download" in
        (200,
         AuthResponse.mk true
           (if OTPResult.success otpResult
            then OTPResult.message otpResult
            else "Password verified. OTP sent for document download. Check console for development OTP (configure SMTP/Twilio for real sending)."),
         s',
         (ConsoleOtp otp :: sent ++ fallback)%list)
    end
  end.

Definition handleVerifyDownloadOTP (s : Store) (otp : option string)
    (auth : AuthHeader) (now : N) : N * AuthResponse.t * Store :=
  if negb (truthy otp) then
    (400, AuthResponse.mk false "OTP is required", s)
  else
  let code := default "" otp in
  match auth with
  | NoBearer => (401, AuthResponse.mk false "No valid token provided", s)
  | Undecodable => (401, AuthResponse.mk false "Invalid token", s)
  | Bearer uid exp =>
    if exp <? now then (401, AuthResponse.mk false "Token expired", s)
    else
    match findUserById s uid with
    | None => (404, AuthResponse.mk false "User not found", s)
    | Some user =>
      match downloadOTPs s !! User.id user with
      | None =>
          (400,
           AuthResponse.mk false
             "No OTP found. Please verify your password first.", s)
      | Some storedOTP =>
        if StoredOTP.expiresAt storedOTP <? now then
          (400,
           AuthResponse.mk false
             "OTP expired. Please verify your password again.",
           set_downloadOTPs s (delete (User.id user) (downloadOTPs s)))
        else if negb (String.eqb (StoredOTP.code storedOTP) code) then
          (401, AuthResponse.mk false "Invalid OTP", s)
        else
          (200, AuthResponse.mk true "OTP verified successfully",
           set_downloadOTPs s (delete (User.id user) (downloadOTPs s)))
      end
    end
  end.

(** *** [routes/documents.ts] *)

(** [null] for a missing, undecodable or expired bearer token. *)
Definition getUserFromToken (auth : AuthHeader) (now : N) : option string :=
  match auth with
  | Bearer uid exp => if exp <? now then None else Some uid
  | _ => None
  end.

(** [documents.findIndex(doc => doc.id === id && doc.userId === userId)]
    followed by [documents.splice(index, 1)]: the first match and the
    list without it. *)
Fixpoint splice_first (id userId : string) (docs : list Document.t)
    : option (Document.t * list Document.t) :=
  match docs with
  | [] => None
  | d :: rest =>
      if String.eqb (Document.id d) id
         && String.eqb (Document.userId d) userId
      then Some (d, rest)
      else match splice_first id userId rest with
           | Some (x, rest') => Some (x, d :: rest')
           | None => None
           end
  end.

Definition findDocument (s : Store) (id userId : string)
    : option Document.t :=
  List.find
    (fun doc => String.eqb (Document.id doc) id
                && String.eqb (Document.userId doc) userId)
    (documents s).

Definition handleDeleteDocument (s : Store) (auth : AuthHeader)
    (id : string) (now : N) : N * DocumentResponse.t * Store :=
  if negb (truthy (getUserFromToken auth now)) then
    (401, DocumentResponse.mk false None "Authentication required", s)
  else
  let userId := default "" (getUserFromToken auth now) in
  match splice_first id userId (documents s) with
  | None => (404, DocumentResponse.mk false None "Document not found", s)
  | Some (deletedDocument, rest) =>
      (200,
       DocumentResponse.mk true (Some deletedDocument)
         "Document deleted successfully",
       set_otps (set_documents s rest) (delete id (otps s)))
  end.

Definition handleSendOTP (s : Store) (auth : AuthHeader)
    (documentId : option string) (now r : N) (prov : Providers)
    : N * SecurityResponse.t * Store * list Delivery :=
  let fail status msg :=
    (status, SecurityResponse.mk false None None None msg, s, []) in
  if negb (truthy (getUserFromToken auth now)) then
    fail 401 "Authentication required"
  else
  let userId := default "" (getUserFromToken auth now) in
  if negb (truthy documentId) then fail 400 "Document ID is required"
  else
  let documentId := default "" documentId in
  match findDocument s documentId userId with
  | None => fail 404 "Document not found"
  | Some document =>
    if negb (Document.isSecure document) then
      fail 400 "This document does not require OTP verification"
    else
    match findUserById s userId with
    | None => fail 404 "User not found"
    | Some user =>
      let otp := generateOTP r in
      let expiresAt := now + FIVE_MINUTES in
      let s' :=
        set_otps s
          (<[documentId := DocOTP.mk otp expiresAt (User.email user)]>
             (otps s)) in
      let purpose :=
        "document access (" +:+ Document.name document +:+ ")" in
      let '(otpResult, sent) :=
        sendOTPToEmailAndPhone env prov (User.email user)
          (User.phone user) otp purpose in
      let fallback :=
        if OTPResult.success otpResult then []
        else sendOTPDevelopment (User.email user) (User.phone user) otp
               "document access" in
      (200,
       SecurityResponse.mk true None (Some true) None
         (if OTPResult.success otpResult
          then OTPResult.message otpResult +:+ " for document access."
          else "OTP generated for document access. Check console for development OTP (configure SMTP/Twilio for real sending)."),
       s', (sent ++ fallback)%list)
    end
  end.

(** The download capability:
    [Buffer.from(`${documentId}:${Date.now()}`).toString('base64')]. *)
Definition downloadToken (documentId : string) (now : N) : string :=
  Base64.encode (documentId +:+ ":" +:+ pretty now).

Definition handleVerifyOTP (s : Store) (auth : AuthHeader)
    (documentId otp : string) (now : N)
    : N * SecurityResponse.t * Store :=
  let fail status msg s' :=
    (status, SecurityResponse.mk false None None None msg, s') in
  if negb (truthy (getUserFromToken auth now)) then
    fail 401 "Authentication required" s
  else
  let userId := default "" (getUserFromToken auth now) in
  match findDocument s documentId userId with
  | None => fail 404 "Document not found" s
  | Some document =>
    match otps s !! documentId with
    | None => fail 400 "No OTP found. Please request a new one." s
    | Some storedOtp =>
      if DocOTP.expiresAt storedOtp <? now then
        fail 400 "OTP expired. Please request a new one."
          (set_otps s (delete documentId (otps s)))
      else if negb (String.eqb (DocOTP.code storedOtp) otp) then
        fail 401 "Invalid OTP" s
      else
        let expiresAt := Clock.toISOString (now + 10 * 60 * 1000) in
        let downloadUrl :=
          default "undefined" (Document.fileUrl document)
            +:+ "?token=" +:+ downloadToken documentId now in
        (200,
         SecurityResponse.mk true (Some downloadUrl) None
           (Some expiresAt) "OTP verified successfully",
         set_otps s (delete documentId (otps s)))
    end
  end.

(** The token check of the file endpoint:
    [Buffer.from(token, 'base64').toString().split(':')[0] === id].
    Neither the decoding nor the split throws. *)
Definition accessTokenOk (token id : string) : bool :=
  let decoded := Utf8.toString (Base64.decode token) in
  String.eqb (take_until ":"%char decoded) id.

Inductive FileReply : Type :=
| Refused (status : N) (message : string)
| Streamed (doc : Document.t).

(** [handleGetFile] up to the decision to serve; which bytes are streamed
    depends on the file system and is left out. *)
Definition handleGetFile (s : Store) (id : string) (token : option string)
    : FileReply :=
  match List.find (fun d => String.eqb (Document.id d) id) (documents s) with
  | None => Refused 404 "Document not found"
  | Some doc =>
      if Document.isSecure doc then
        if negb (truthy token) then
          Refused 403 "Access token required for secure downloads"
        else if negb (accessTokenOk (default "" token) id) then
          Refused 403 "Invalid access token"
        else Streamed doc
      else Streamed doc
  end.

(** A run of verification requests of one caller, each with its own
    submitted code, token expiry and clock reading. *)
Fixpoint replayVerifyDownloadOTP (s : Store) (uid : string)
    (calls : list (string * N * N)) : list (N * AuthResponse.t) * Store :=
  match calls with
  | [] => ([], s)
  | (code, exp, now) :: rest =>
      let '(status, body, s') :=
        handleVerifyDownloadOTP s (Some code) (Bearer uid exp) now in
      let '(replies, s'') := replayVerifyDownloadOTP s' uid rest in
      ((status, body) :: replies, s'')
  end.

(** A run of verification requests for one document, each with its own
    caller, submitted code and clock reading. *)
Fixpoint replayVerifyOTP (s : Store) (documentId : string)
    (calls : list (AuthHeader * string * N))
    : list (N * SecurityResponse.t) * Store :=
  match calls with
  | [] => ([], s)
  | (auth, code, now) :: rest =>
      let '(status, body, s1) :=
        handleVerifyOTP s auth documentId code now in
      let '(replies, s2) := replayVerifyOTP s1 documentId rest in
      ((status, body) :: replies, s2)
  end.

(** The requests of [routes/documents.ts] that read or write the pending
    codes, and the store after serving one. *)
Inductive DocRequest : Type :=
| SendOTP (auth : AuthHeader) (documentId : option string) (now r : N)
    (prov : Providers)
| VerifyOTP (auth : AuthHeader) (documentId otp : string) (now : N)
| DeleteDocument (auth : AuthHeader) (id : string) (now : N).

Definition serve (s : Store) (req : DocRequest) : Store :=
  match req with
  | SendOTP auth documentId now r prov =>
      (handleSendOTP s auth documentId now r prov).1.2
  | VerifyOTP auth documentId otp now =>
      (handleVerifyOTP s auth documentId otp now).2
  | DeleteDocument auth id now => (handleDeleteDocument s auth id now).2
  end.

(** *** [routes/documents.ts]: listing, upload and storage *)

(** [String.prototype.toLowerCase], the case mapping of Unicode. *)
Variable toLowerCase : string -> string.

Definition deleteUserDocuments (s : Store) (userId : string) : Store :=
  set_documents s
    (List.filter (fun doc => negb (String.eqb (Document.userId doc) userId))
       (documents s)).

(** The number of hundredths of the unit that [getFileSizeString] prints,
    and the index of the unit: the loop divides by 1024 while the size is at
    least 1024 and a larger unit exists, and [Math.round(size * 100)] rounds
    halves up.  The size is [n / den] with [den] a power of 1024. *)
Fixpoint size_in_units (steps : nat) (n den : N) (unitIndex : nat)
    : N * nat :=
  match steps with
  | S steps' =>
      if 1024 * den <=? n
      then size_in_units steps' n (1024 * den) (S unitIndex)
      else ((200 * n + den) / (2 * den), unitIndex)
  | O => ((200 * n + den) / (2 * den), unitIndex)
  end.

(** A number of hundredths written the way a number is turned into a
    string: the integer part, then the decimals that are not trailing
    zeros. *)
Definition hundredths_text (h : N) : string :=
  pretty (h / 100)
    +:+ (if h mod 100 =? 0 then ""
         else "." +:+ String (Clock.digit (h mod 100 / 10)) ""
                +:+ (if h mod 10 =? 0 then ""
                     else String (Clock.digit h) "")).

(** [getFileSizeString(fileSizeBytes)] for a whole number of bytes.  The
    source computes in doubles; every step is exact as long as a hundred
    times the size is below 2^53. *)
Definition getFileSizeString (fileSizeBytes : N) : string :=
  let '(h, unitIndex) := size_in_units 3 fileSizeBytes 1 0 in
  hundredths_text h +:+ " "
    +:+ nth unitIndex ["B"; "KB"; "MB"; "GB"] "undefined".

Definition DocType_name (t : DocType) : string :=
  match t with
  | certificate => "certificate"
  | fee_receipt => "fee-receipt"
  | transcript => "transcript"
  | id_card => "id-card"
  | other => "other"
  end.

(** The test of the [search] filter on one document. *)
Definition matchesSearch (search : string) (doc : Document.t) : bool :=
  Js.includes (toLowerCase (Document.name doc)) (toLowerCase search)
  || match Document.metadata doc with
     | Some m =>
         match Metadata.description m with
         | Some d => Js.includes (toLowerCase d) (toLowerCase search)
         | None => false
         end
         || match Metadata.tags m with
            | Some tags =>
                existsb
                  (fun tag =>
                     Js.includes (toLowerCase tag) (toLowerCase search))
                  tags
            | None => false
            end
     | None => false
     end.

(** A filter of the listing that is applied when its query parameter is
    set and is not ["all"]. *)
Definition filterBy (param : option string) (field : Document.t -> string)
    (docs : list Document.t) : list Document.t :=
  if truthy param && negb (String.eqb (default "" param) "all")
  then List.filter (fun doc => String.eqb (field doc) (default "" param)) docs
  else docs.

(** The query parameters are strings or absent; [limit] and [offset]
    default to 50 and 0. *)
Definition handleGetDocuments (s : Store) (auth : AuthHeader)
    (type semester year search limit offset : option string) (now : N)
    : N * DocumentsResponse.t :=
  if negb (truthy (getUserFromToken auth now)) then
    (401, DocumentsResponse.mk false None "Authentication required")
  else
  let userId := default "" (getUserFromToken auth now) in
  let filteredDocuments :=
    List.filter (fun doc => String.eqb (Document.userId doc) userId)
      (documents s) in
  let filteredDocuments :=
    filterBy type (fun doc => DocType_name (Document.type doc))
      filteredDocuments in
  let filteredDocuments :=
    filterBy semester Document.semester filteredDocuments in
  let filteredDocuments := filterBy year Document.year filteredDocuments in
  let filteredDocuments :=
    if truthy search
    then List.filter (matchesSearch (default "" search)) filteredDocuments
    else filteredDocuments in
  let start := Js.parseInt (default "0" offset) in
  let paginatedDocuments :=
    Js.slice filteredDocuments start
      (Js.add start (Js.parseInt (default "50" limit))) in
  (200,
   DocumentsResponse.mk true (Some paginatedDocuments)
     ("Found " +:+ pretty (N.of_nat (length filteredDocuments))
        +:+ " documents")).

(** The [isSecure] field of an upload: absent, a string (a form field) or
    a boolean (a JSON body). *)
Inductive Flag : Type :=
| Absent
| Text (s : string)
| Boolean (b : bool).

Definition flag_truthy (f : Flag) : bool :=
  match f with
  | Absent => false
  | Text s => negb (String.eqb s "")
  | Boolean b => b
  end.

(** [a || b] on strings. *)
Definition or_else (a b : string) : string :=
  if String.eqb a "" then b else a.

(** The [type] of the request is absent or one of the five values of the
    API (the handler itself stores any string it is given); [metadata] is
    what [JSON.parse] made of the field, absent when there was none or the
    parse threw; [suffix] is the random part of the new id. *)
Definition handleUploadDocument (s : Store) (auth : AuthHeader)
    (name : option string) (type : option DocType)
    (semester year : option string) (isSecure : Flag)
    (metadata : option Metadata.t) (uploadedFile : option UploadedFile.t)
    (now : N) (suffix : string) : N * DocumentResponse.t * Store :=
  if negb (truthy (getUserFromToken auth now)) then
    (401, DocumentResponse.mk false None "Authentication required", s)
  else
  let userId := default "" (getUserFromToken auth now) in
  match type with
  | None =>
      (400,
       DocumentResponse.mk false None
         "Missing required fields: name, type, semester, and year are required",
       s)
  | Some type =>
  if negb (truthy name) || negb (truthy semester) || negb (truthy year) then
    (400,
     DocumentResponse.mk false None
       "Missing required fields: name, type, semester, and year are required",
     s)
  else
  let name := default "" name in
  if Js.length (Js.trim name) <? 3 then
    (400,
     DocumentResponse.mk false None
       "Document name must be at least 3 characters long", s)
  else
  match
    List.find
      (fun doc =>
         String.eqb (Document.userId doc) userId
         && String.eqb (toLowerCase (Document.name doc))
              (toLowerCase (Js.trim name)))
      (documents s)
  with
  | Some _ =>
      (409,
       DocumentResponse.mk false None
         "A document with this name already exists. Please choose a different name.",
       s)
  | None =>
    let documentId := newId now suffix in
    let sizeString :=
      match uploadedFile with
      | Some file => getFileSizeString (UploadedFile.size file)
      | None => "0 B"
      end in
    let storedFiles' :=
      match uploadedFile with
      | Some file =>
          <[documentId :=
              StoredFile.mk (UploadedFile.path file)
                (or_else (UploadedFile.mimetype file)
                   "application/octet-stream")
                (or_else (UploadedFile.originalname file)
                   (or_else name "download"))]> (storedFiles s)
      | None => storedFiles s
      end in
    let parsedMetadata :=
      match uploadedFile with
      | Some file =>
          Some
            (Metadata.mk
               (match metadata with Some m => Metadata.tags m | None => None end)
               (match metadata with
                | Some m => Metadata.description m
                | None => None
                end)
               (Some (UploadedFile.mimetype file))
               (Some (UploadedFile.originalname file)))
      | None => metadata
      end in
    let newDocument :=
      Document.mk documentId (Js.trim name) type (default "" semester)
        (default "" year) (take_until "T"%char (Clock.toISOString now))
        sizeString
        (match isSecure with
         | Text t => String.eqb t "true"
         | Boolean b => b
         | Absent => false
         end)
        userId
        (Some
           (match uploadedFile with
            | Some file =>
                or_else (UploadedFile.path file) ("/api/files/" +:+ documentId)
            | None => "/api/files/" +:+ documentId
            end))
        parsedMetadata in
    (201,
     DocumentResponse.mk true (Some newDocument)
       ("Document " +:+ QUOTE +:+ name +:+ QUOTE +:+ " uploaded successfully"
          +:+ (if flag_truthy isSecure then ". Password protection enabled."
               else "")),
     mkStore (users s) (downloadOTPs s) (documents s ++ [newDocument])%list
       storedFiles' (otps s))
  end
  end.

(** The mock account of storage: 2.5 MB for each document against a limit
    of 5 GB.  [Math.round] of the percentage rounds halves up; the numbers
    involved are whole multiples of 1/2048, on which doubles are exact. *)
Definition handleGetStorageInfo (s : Store) (auth : AuthHeader) (now : N)
    : N * StorageResponse.t :=
  if negb (truthy (getUserFromToken auth now)) then
    (401, StorageResponse.mk false None "Authentication required")
  else
  let userId := default "" (getUserFromToken auth now) in
  let userDocuments :=
    List.filter (fun doc => String.eqb (Document.userId doc) userId)
      (documents s) in
  let count := N.of_nat (length userDocuments) in
  let totalSize := count * 2621440 in
  let maxSize := 5 * 1024 * 1024 * 1024 in
  let percentage := (200 * totalSize + maxSize) / (2 * maxSize) in
  (200,
   StorageResponse.mk true
     (Some (StorageInfo.mk totalSize maxSize (N.min percentage 100) count))
     "Storage info retrieved successfully").

(** The name of the generated placeholder file of [handleGetFile]:
    [doc.name.replace(/[^a-zA-Z0-9-_\. ]/g, '').trim() || 'document'],
    then [.txt]. *)
Definition is_safe_char (c : ascii) : bool :=
  let n := N_of_ascii c in
  ((97 <=? n) && (n <=? 122)) || ((65 <=? n) && (n <=? 90))
  || ((48 <=? n) && (n <=? 57))
  || (n =? 45) || (n =? 95) || (n =? 46) || (n =? 32).

Fixpoint keep_chars (f : ascii -> bool) (s : string) : string :=
  match s with
  | EmptyString => EmptyString
  | String c rest =>
      if f c then String c (keep_chars f rest) else keep_chars f rest
  end.

Definition safeName (doc : Document.t) : string :=
  or_else (Js.trim (keep_chars is_safe_char (Document.name doc))) "document".

Definition placeholderFilename (doc : Document.t) : string :=
  safeName doc +:+ ".txt".

(** *** [routes/auth.ts]: accounts *)

Definition set_users (s : Store) (l : list User.t) : Store :=
  mkStore l (downloadOTPs s) (documents s) (storedFiles s) (otps s).

Definition findUserByEmail (s : Store) (email : string) : option User.t :=
  List.find
    (fun user => String.eqb (toLowerCase (User.email user)) (toLowerCase email))
    (users s).

(** The class [[^\s@]]. *)
Definition is_plain (c : N) : bool := negb (Js.is_space c || (c =? 64)).

(** [/^[^\s@]+@[^\s@]+\.[^\s@]+$/]. *)
Definition isValidEmail (email : string) : bool :=
  Js.RegExp.test
    [Js.RegExp.plus is_plain; Js.RegExp.one (N.eqb 64);
     Js.RegExp.plus is_plain; Js.RegExp.one (N.eqb 46);
     Js.RegExp.plus is_plain]
    email.

(** The class [[\d\s\-\(\)]]. *)
Definition is_dial (c : N) : bool :=
  ((48 <=? c) && (c <=? 57)) || Js.is_space c || (c =? 45) || (c =? 40)
  || (c =? 41).

(** [/^\+?[\d\s\-\(\)]{10,}$/]. *)
Definition isValidPhone (phone : string) : bool :=
  Js.RegExp.test
    [Js.RegExp.optional (N.eqb 43); Js.RegExp.at_least 10 is_dial] phone.

Definition isValidPassword (password : string) : bool :=
  6 <=? Js.length password.

Definition ONE_DAY : N := 24 * 60 * 60 * 1000.

(** [generateToken(user)]: the base64 of the JSON of the user id, e-mail,
    name and an expiry a day ahead, of which the server reads back the id
    and the expiry. *)
Definition generateToken (user : User.t) (now : N) : AuthHeader :=
  Bearer (User.id user) (now + ONE_DAY).

Definition handleLogin (s : Store) (email password : option string) (now : N)
    : N * SessionResponse.t :=
  let fail status msg := (status, SessionResponse.mk false None None msg) in
  if negb (truthy email) || negb (truthy password) then
    fail 400 "Email and password are required"
  else
  let email := default "" email in
  let password := default "" password in
  if negb (isValidEmail email) then
    fail 400 "Please enter a valid email address"
  else
  match findUserByEmail s email with
  | None => fail 401 "Invalid email or password"
  | Some user =>
      if negb (bcrypt_compare password (User.password user)) then
        fail 401 "Invalid email or password"
      else
        (200,
         SessionResponse.mk true (Some (withoutPassword user))
           (Some (generateToken user now)) "Login successful")
  end.

(** [hashedPassword] is what [bcrypt.hash] returned for the password;
    [suffix] is the random part of the new id.  The handler also writes
    the accounts to [users.json], which is read only when the server
    starts. *)
Definition handleRegister (s : Store)
    (name email phone password : option string) (now : N)
    (suffix hashedPassword : string) : N * SessionResponse.t * Store :=
  let fail status msg :=
    (status, SessionResponse.mk false None None msg, s) in
  if negb (truthy name) || negb (truthy email) || negb (truthy phone)
     || negb (truthy password)
  then fail 400 "Name, email, phone number, and password are required"
  else
  let name := default "" name in
  let email := default "" email in
  let phone := default "" phone in
  let password := default "" password in
  if Js.length (Js.trim name) <? 2 then
    fail 400 "Name must be at least 2 characters long"
  else if negb (isValidEmail email) then
    fail 400 "Please enter a valid email address"
  else if negb (isValidPhone phone) then
    fail 400 "Please enter a valid phone number"
  else if negb (isValidPassword password) then
    fail 400 "Password must be at least 6 characters long"
  else
  match
    List.find
      (fun u =>
         String.eqb (toLowerCase (User.email u)) (toLowerCase email)
         || String.eqb (User.phone u) (keep_chars is_digit phone))
      (users s)
  with
  | Some existingUser =>
      if String.eqb (toLowerCase (User.email existingUser))
           (toLowerCase email)
      then fail 409 "An account already exists with this email address"
      else fail 409 "An account already exists with this phone number"
  | None =>
      let newUser :=
        User.mk (newId now suffix) (Js.trim name)
          (Js.trim (toLowerCase email)) (Js.trim phone) hashedPassword
          (Clock.toISOString now) in
      (201,
       SessionResponse.mk true (Some (withoutPassword newUser))
         (Some (generateToken newUser now)) "Account created successfully",
       set_users s (users s ++ [newUser])%list)
  end.

Definition handleVerifyToken (s : Store) (auth : AuthHeader) (now : N)
    : N * SessionResponse.t :=
  let fail status msg := (status, SessionResponse.mk false None None msg) in
  match auth with
  | NoBearer => fail 401 "No valid token provided"
  | Undecodable => fail 401 "Invalid token"
  | Bearer uid exp =>
      if exp <? now then fail 401 "Token expired"
      else
        match findUserById s uid with
        | None => fail 404 "User not found"
        | Some user =>
            (200,
             SessionResponse.mk true (Some (withoutPassword user)) None
               "Token valid")
        end
  end.

(** The first account with the id, changed in place. *)
Fixpoint update_first (id : string) (f : User.t -> User.t)
    (l : list User.t) : list User.t :=
  match l with
  | [] => []
  | u :: rest =>
      if String.eqb (User.id u) id then f u :: rest
      else u :: update_first id f rest
  end.

(** The three handlers below parse the token outside any inner [try]: a
    token that does not parse lands in the outer [catch].  They do not
    look at its expiry. *)
Definition handleUpdateProfile (s : Store) (auth : AuthHeader)
    (name email phone : option string)
    : N * SessionResponse.t * Store :=
  let fail status msg :=
    (status, SessionResponse.mk false None None msg, s) in
  match auth with
  | NoBearer => fail 401 "No valid token provided"
  | Undecodable => fail 500 "Internal server error"
  | Bearer uid _ =>
    match findUserById s uid with
    | None => fail 401 "Invalid token"
    | Some user =>
      if truthy email && negb (isValidEmail (default "" email)) then
        fail 400 "Please enter a valid email address"
      else if truthy phone && negb (isValidPhone (default "" phone)) then
        fail 400 "Please enter a valid phone number"
      else if truthy email
              && existsb
                   (fun u =>
                      String.eqb (toLowerCase (User.email u))
                        (toLowerCase (default "" email))
                      && negb (String.eqb (User.id u) (User.id user)))
                   (users s)
      then fail 409 "An account already exists with this email address"
      else if truthy phone
              && existsb
                   (fun u =>
                      String.eqb (User.phone u) (default "" phone)
                      && negb (String.eqb (User.id u) (User.id user)))
                   (users s)
      then fail 409 "An account already exists with this phone number"
      else
        let updated :=
          User.mk (User.id user)
            (if truthy name then Js.trim (default "" name)
             else User.name user)
            (if truthy email then Js.trim (toLowerCase (default "" email))
             else User.email user)
            (if truthy phone then Js.trim (default "" phone)
             else User.phone user)
            (User.password user) (User.createdAt user) in
        (200,
         SessionResponse.mk true (Some (withoutPassword updated)) None
           "Profile updated successfully",
         set_users s (update_first uid (fun _ => updated) (users s)))
    end
  end.

Definition handleChangePassword (s : Store) (auth : AuthHeader)
    (currentPassword newPassword : option string) (hashedPassword : string)
    : N * AuthResponse.t * Store :=
  match auth with
  | NoBearer => (401, AuthResponse.mk false "No valid token provided", s)
  | Undecodable => (500, AuthResponse.mk false "Internal server error", s)
  | Bearer uid _ =>
    match findUserById s uid with
    | None => (401, AuthResponse.mk false "Invalid token", s)
    | Some user =>
      if negb (truthy currentPassword) || negb (truthy newPassword) then
        (400,
         AuthResponse.mk false "Current and new password are required", s)
      else if negb (isValidPassword (default "" newPassword)) then
        (400,
         AuthResponse.mk false
           "New password must be at least 6 characters long", s)
      else if negb (bcrypt_compare (default "" currentPassword)
                      (User.password user))
      then (401, AuthResponse.mk false "Current password is incorrect", s)
      else
        (200, AuthResponse.mk true "Password changed successfully",
         set_users s
           (update_first uid
              (fun u =>
                 User.mk (User.id u) (User.name u) (User.email u)
                   (User.phone u) hashedPassword (User.createdAt u))
              (users s)))
    end
  end.

(** [users.findIndex(u => u.id === id)] followed by [users.splice(index,
    1)]: the first match and the list without it. *)
Fixpoint remove_first (id : string) (l : list User.t)
    : option (User.t * list User.t) :=
  match l with
  | [] => None
  | u :: rest =>
      if String.eqb (User.id u) id then Some (u, rest)
      else match remove_first id rest with
           | Some (x, rest') => Some (x, u :: rest')
           | None => None
           end
  end.

Definition handleDeleteAccount (s : Store) (auth : AuthHeader)
    : N * AuthResponse.t * Store :=
  match auth with
  | NoBearer => (401, AuthResponse.mk false "No valid token provided", s)
  | Undecodable => (500, AuthResponse.mk false "Internal server error", s)
  | Bearer uid _ =>
    match remove_first uid (users s) with
    | None => (404, AuthResponse.mk false "User not found", s)
    | Some (user, rest) =>
        (200, AuthResponse.mk true "Account deleted successfully",
         deleteUserDocuments (set_users s rest) (User.id user))
    end
  end.

(** *** A run of the in-memory server

    Every request that writes the module state, with what the handler
    reads besides the state. *)
Inductive Event : Type :=
| Register (name email phone password : option string) (now : N)
    (suffix hashedPassword : string)
| UpdateProfile (auth : AuthHeader) (name email phone : option string)
| ChangePassword (auth : AuthHeader)
    (currentPassword newPassword : option string) (hashedPassword : string)
| DeleteAccount (auth : AuthHeader)
| VerifyPasswordForDownload (password : option string) (auth : AuthHeader)
    (now r : N) (prov : Providers)
| VerifyDownloadOTP (otp : option string) (auth : AuthHeader) (now : N)
| UploadDocument (auth : AuthHeader) (name : option string)
    (type : option DocType) (semester year : option string)
    (isSecure : Flag) (metadata : option Metadata.t)
    (uploadedFile : option UploadedFile.t) (now : N) (suffix : string)
| DocumentRequest (req : DocRequest).

Definition step (s : Store) (ev : Event) : Store :=
  match ev with
  | Register name email phone password now suffix hashedPassword =>
      (handleRegister s name email phone password now suffix
         hashedPassword).2
  | UpdateProfile auth name email phone =>
      (handleUpdateProfile s auth name email phone).2
  | ChangePassword auth currentPassword newPassword hashedPassword =>
      (handleChangePassword s auth currentPassword newPassword
         hashedPassword).2
  | DeleteAccount auth => (handleDeleteAccount s auth).2
  | VerifyPasswordForDownload password auth now r prov =>
      (handleVerifyPasswordForDownload s password auth now r prov).1.2
  | VerifyDownloadOTP otp auth now =>
      (handleVerifyDownloadOTP s otp auth now).2
  | UploadDocument auth name type semester year isSecure metadata
      uploadedFile now suffix =>
      (handleUploadDocument s auth name type semester year isSecure metadata
         uploadedFile now suffix).2
  | DocumentRequest req => serve s req
  end.

Definition run (s : Store) (events : list Event) : Store :=
  fold_left step events s.

End Handlers.

End Dev.

(** ** The SQLite-backed implementation *)

Module Prod.

(** *** [server/database/database.ts] *)

Module OTPSession.
Record t : Type := mk
  { id : string; user_id : string; otp_code : string; purpose : string;
    expires_at : string; used : bool; created_at : string }.
End OTPSession.

Record Db : Type := mkDb
  { users : list User.t; otp_sessions : list OTPSession.t }.

Definition set_otp_sessions (db : Db) (l : list OTPSession.t) : Db :=
  mkDb (users db) l.

(** Comparison of two TEXT values under the BINARY collation.  Both
    [expires_at] and [created_at] are declared DATETIME; the values kept in
    them are not numeric literals, so they stay TEXT and are compared byte
    by byte. *)
Definition text_gt (a b : string) : bool :=
  match String.compare a b with Gt => true | _ => false end.

Definition text_lt (a b : string) : bool :=
  match String.compare a b with Lt => true | _ => false end.

Module userService.
(** [SELECT * FROM users WHERE id = ?]. *)
Definition findById (db : Db) (id : string) : option User.t :=
  List.find (fun u => String.eqb (User.id u) id) (users db).

(** [DELETE FROM users WHERE id = ?] and [result.changes > 0].  Foreign
    keys are on and [otp_sessions.user_id] is declared [ON DELETE CASCADE]:
    the rows of the ledger that reference the account go with it.  (So do
    the rows of [documents], a table that is not part of [Db].) *)
Definition delete (db : Db) (id : string) : Db * bool :=
  (mkDb
     (List.filter (fun u => negb (String.eqb (User.id u) id)) (users db))
     (List.filter
        (fun row => negb (String.eqb (OTPSession.user_id row) id))
        (otp_sessions db)),
   existsb (fun u => String.eqb (User.id u) id) (users db)).
End userService.

Module otpService.

Definition has_id (id : string) (row : OTPSession.t) : bool :=
  String.eqb (OTPSession.id row) id.

(** [INSERT INTO otp_sessions (id, user_id, otp_code, purpose, expires_at)]
    with [id = newId now suffix], [suffix] being the random part.  [used]
    and [created_at] take their defaults [0] and [CURRENT_TIMESTAMP].  The
    statement throws ([None]) when the primary key is taken or the user row
    is missing (foreign keys are on). *)
Definition create (db : Db) (user_id otp_code purpose expires_at : string)
    (now : N) (suffix : string) : option (Db * string) :=
  let id := newId now suffix in
  if existsb (has_id id) (otp_sessions db) then None
  else if negb (existsb (fun u => String.eqb (User.id u) user_id) (users db))
  then None
  else
    Some (set_otp_sessions db
            (otp_sessions db ++
             [OTPSession.mk id user_id otp_code purpose expires_at false
                (Clock.datetime now)])%list,
          id).

(** The WHERE clause of [findValidSession]:
    [user_id = ? AND otp_code = ? AND purpose = ? AND used = 0 AND
     expires_at > datetime('now')]. *)
Definition valid_for (userId otpCode purpose : string) (now : N)
    (row : OTPSession.t) : bool :=
  String.eqb (OTPSession.user_id row) userId
  && String.eqb (OTPSession.otp_code row) otpCode
  && String.eqb (OTPSession.purpose row) purpose
  && negb (OTPSession.used row)
  && text_gt (OTPSession.expires_at row) (Clock.datetime now).

(** [ORDER BY created_at DESC LIMIT 1].  SQLite leaves the order of rows
    with equal [created_at] open; here the earliest inserted of them is
    taken. *)
Fixpoint most_recent (rows : list OTPSession.t) : option OTPSession.t :=
  match rows with
  | [] => None
  | row :: rest =>
      match most_recent rest with
      | None => Some row
      | Some best =>
          if text_lt (OTPSession.created_at row) (OTPSession.created_at best)
          then Some best else Some row
      end
  end.

Definition findValidSession (db : Db) (userId otpCode purpose : string)
    (now : N) : option OTPSession.t :=
  most_recent
    (List.filter (valid_for userId otpCode purpose now) (otp_sessions db)).

Definition mark (row : OTPSession.t) : OTPSession.t :=
  OTPSession.mk (OTPSession.id row) (OTPSession.user_id row)
    (OTPSession.otp_code row) (OTPSession.purpose row)
    (OTPSession.expires_at row) true (OTPSession.created_at row).

(** [UPDATE otp_sessions SET used = 1 WHERE id = ?] and
    [result.changes > 0]; [changes] counts the rows the WHERE clause
    selected, whatever their [used] was before. *)
Definition markAsUsed (db : Db) (id : string) : Db * bool :=
  let changes := length (List.filter (has_id id) (otp_sessions db)) in
  (set_otp_sessions db
     (map (fun row => if has_id id row then mark row else row)
        (otp_sessions db)),
   Nat.ltb 0 changes).

(** [DELETE FROM otp_sessions WHERE used = 1 OR expires_at < datetime('now')]. *)
Definition cleanup (db : Db) (now : N) : Db * nat :=
  let gone row :=
    OTPSession.used row
    || text_lt (OTPSession.expires_at row) (Clock.datetime now) in
  (set_otp_sessions db
     (List.filter (fun row => negb (gone row)) (otp_sessions db)),
   length (List.filter gone (otp_sessions db))).

(** [DELETE FROM otp_sessions WHERE user_id = ?], with [AND purpose = ?]
    added when a truthy [purpose] is passed; the result is [changes]. *)
Definition deleteUserSessions (db : Db) (userId : string)
    (purpose : option string) : Db * nat :=
  let gone row :=
    String.eqb (OTPSession.user_id row) userId
    && (if truthy purpose
        then String.eqb (OTPSession.purpose row) (default "" purpose)
        else true) in
  (set_otp_sessions db
     (List.filter (fun row => negb (gone row)) (otp_sessions db)),
   length (List.filter gone (otp_sessions db))).

End otpService.

(** The two constraints of [schema.sql] on the ledger: [id] is the primary
    key, and [user_id] references a row of [users]. *)
Definition WellKeyed (db : Db) : Prop :=
  NoDup (map OTPSession.id (otp_sessions db))
  /\ forall row, In row (otp_sessions db) ->
       exists user, In user (users db) /\ User.id user = OTPSession.user_id row.

(** The ledger in the words of the specification: a row is a code of
    account [uid] for the download purpose that was not consumed, and it
    is unexpired at [now] when the instant written in [expires_at] (an
    instant up to the year 9999, where the text determines it) is later
    than [now]. *)
Definition Matches (uid code : string) (row : OTPSession.t) : Prop :=
  OTPSession.user_id row = uid
  /\ OTPSession.purpose row = "document_download"
  /\ OTPSession.otp_code row = code
  /\ OTPSession.used row = false.

Definition Unexpired (row : OTPSession.t) (now : N) : Prop :=
  exists t,
    t <= Clock.MAX_TIME
    /\ OTPSession.expires_at row = Clock.toISOString t /\ now < t.

(** The expiry comparison of [findValidSession] decides, for every row of
    the ledger, what the clock says. *)
Definition clock_agrees (db : Db) (now : N) : Prop :=
  forall row, In row (otp_sessions db) ->
    text_gt (OTPSession.expires_at row) (Clock.datetime now) = true
    <-> Unexpired row now.

(** The same for the rows that a verification of [code] for the account
    [uid] can select: its unconsumed rows for the download purpose that
    carry the code. *)
Definition clock_agrees_for (db : Db) (uid code : string) (now : N) : Prop :=
  forall row, In row (otp_sessions db) -> Matches uid code row ->
    text_gt (OTPSession.expires_at row) (Clock.datetime now) = true
    <-> Unexpired row now.

(** *** [server/services/environmentService.ts] *)

(** [getEnvironmentConfig().isConfigured]: none of the seven variables is
    missing. *)
Definition isConfigured (env : Env.t) : bool :=
  truthy (Env.SMTP_HOST env) && truthy (Env.SMTP_PORT env)
  && truthy (Env.SMTP_USER env) && truthy (Env.SMTP_PASS env)
  && truthy (Env.TWILIO_ACCOUNT_SID env)
  && truthy (Env.TWILIO_AUTH_TOKEN env)
  && truthy (Env.TWILIO_PHONE_NUMBER env).

Definition requiredEnvVars : list string :=
  ["SMTP_HOST"; "SMTP_PORT"; "SMTP_USER"; "SMTP_PASS"; "TWILIO_ACCOUNT_SID";
   "TWILIO_AUTH_TOKEN"; "TWILIO_PHONE_NUMBER"].

(** [process.env[varName]] for the names above. *)
Definition getenv (env : Env.t) (varName : string) : option string :=
  if String.eqb varName "SMTP_HOST" then Env.SMTP_HOST env
  else if String.eqb varName "SMTP_PORT" then Env.SMTP_PORT env
  else if String.eqb varName "SMTP_USER" then Env.SMTP_USER env
  else if String.eqb varName "SMTP_PASS" then Env.SMTP_PASS env
  else if String.eqb varName "TWILIO_ACCOUNT_SID"
  then Env.TWILIO_ACCOUNT_SID env
  else if String.eqb varName "TWILIO_AUTH_TOKEN"
  then Env.TWILIO_AUTH_TOKEN env
  else if String.eqb varName "TWILIO_PHONE_NUMBER"
  then Env.TWILIO_PHONE_NUMBER env
  else None.

Module EnvironmentConfig.
Record t : Type := mk
  { isProduction : bool; requiredEnvVars : list string;
    missingEnvVars : list string; isConfigured : bool;
    neon_enabled : bool; neon_databaseUrl : option string }.
End EnvironmentConfig.

(** [getEnvironmentConfig()]; the variables that are not among the seven
    are arguments. *)
Definition getEnvironmentConfig
    (NODE_ENV NEON_DATABASE_URL DATABASE_URL : option string) (env : Env.t)
    : EnvironmentConfig.t :=
  let missingEnvVars :=
    List.filter (fun varName => negb (truthy (getenv env varName)))
      requiredEnvVars in
  EnvironmentConfig.mk
    (match NODE_ENV with
     | Some v => String.eqb v "production"
     | None => false
     end)
    requiredEnvVars missingEnvVars
    (Nat.eqb (length missingEnvVars) 0)
    (truthy NEON_DATABASE_URL || truthy DATABASE_URL)
    (if truthy NEON_DATABASE_URL then NEON_DATABASE_URL else DATABASE_URL).

(** [", "]-separated, as [Array.prototype.join] writes it. *)
Fixpoint join (sep : string) (items : list string) : string :=
  match items with
  | [] => ""
  | [x] => x
  | x :: rest => x +:+ sep +:+ join sep rest
  end.

(** [validateProductionEnvironment()]: the message of the error it throws,
    or [None] when it returns.  What it writes on the console is left
    out. *)
Definition validateProductionEnvironment
    (NODE_ENV NEON_DATABASE_URL DATABASE_URL : option string) (env : Env.t)
    : option string :=
  let config :=
    getEnvironmentConfig NODE_ENV NEON_DATABASE_URL DATABASE_URL env in
  if EnvironmentConfig.isProduction config
     && negb (EnvironmentConfig.isConfigured config)
  then Some "Production deployment requires all environment variables to be configured"
  else None.

(** *** [server/services/productionOtpService.ts] *)

(** [validateEnvironment()], run when the module is loaded: it throws
    ([inl], with the message) or returns a boolean. *)
Definition validateEnvironment (NODE_ENV : option string) (env : Env.t)
    : string + bool :=
  let missing :=
    List.filter (fun varName => negb (truthy (getenv env varName)))
      requiredEnvVars in
  if Nat.ltb 0 (length missing) then
    if match NODE_ENV with
       | Some v => String.eqb v "production"
       | None => false
       end
    then inl ("Missing required environment variables: "
                +:+ join ", " missing)
    else inr false
  else inr true.

Module OTPResult.
Record t : Type := mk
  { success : bool; message : string; emailSent : bool; smsSent : bool;
    error : option string }.
End OTPResult.

Definition emailTransporter (env : Env.t) : bool :=
  isConfigured env && truthy (Env.SMTP_HOST env)
  && truthy (Env.SMTP_USER env) && truthy (Env.SMTP_PASS env).

Definition twilioClient (env : Env.t) : bool :=
  isConfigured env && truthy (Env.TWILIO_ACCOUNT_SID env)
  && truthy (Env.TWILIO_AUTH_TOKEN env).

Definition sendOTPEmail (env : Env.t) (prov : Providers)
    (email otp purpose : string) : SendResult.t * list Delivery :=
  if negb (emailTransporter env)
  then (SendResult.mk false "Email service not configured", [])
  else match mail prov with
       | Accepted =>
           (SendResult.mk true "OTP sent successfully to your email",
            [EmailTo email otp purpose])
       | Threw =>
           (SendResult.mk false
              "Failed to send email. Please try again later.", [])
       end.

Fixpoint digits_only (s : string) : string :=
  match s with
  | EmptyString => EmptyString
  | String c rest =>
      if is_digit c then String c (digits_only rest) else digits_only rest
  end.

(** [phone.startsWith('+') ? phone : `+${phone.replace(/\D/g, '')}`]. *)
Definition formattedPhone (phone : string) : string :=
  match phone with
  | String "+"%char _ => phone
  | _ => "+" +:+ digits_only phone
  end.

Definition sendOTPSMS (env : Env.t) (prov : Providers)
    (phone otp purpose : string) : SendResult.t * list Delivery :=
  if negb (twilioClient env)
  then (SendResult.mk false "SMS service not configured", [])
  else match sms prov with
       | Accepted =>
           (SendResult.mk true "OTP sent successfully to your phone",
            [SmsTo (formattedPhone phone) otp purpose])
       | Threw =>
           (SendResult.mk false
              "Failed to send SMS. Please check your phone number.", [])
       end.

Definition sendOTPToEmailAndPhone (env : Env.t) (prov : Providers)
    (email phone otp purpose : string) : OTPResult.t * list Delivery :=
  let '(emailResult, sentE) := sendOTPEmail env prov email otp purpose in
  let '(smsResult, sentS) := sendOTPSMS env prov phone otp purpose in
  let emailSuccess := SendResult.success emailResult in
  let smsSuccess := SendResult.success smsResult in
  let result :=
    if emailSuccess && smsSuccess then
      OTPResult.mk true "OTP sent successfully to both email and phone"
        true true None
    else if emailSuccess || smsSuccess then
      OTPResult.mk true
        ("OTP sent successfully to your "
           +:+ (if emailSuccess then "email" else "phone") +:+ ". "
           +:+ (if negb emailSuccess then "Email delivery failed."
                else "SMS delivery failed."))
        emailSuccess smsSuccess None
    else
      OTPResult.mk false
        "Failed to send OTP to both email and phone. Please try again later."
        false false
        (Some ("Email: " +:+ SendResult.message emailResult +:+ ", SMS: "
                 +:+ SendResult.message smsResult)) in
  (result, (sentE ++ sentS)%list).

Section Handlers.

Variable bcrypt_compare : string -> string -> bool.
Variable env : Env.t.

(** *** The database-backed [routes/auth.ts] *)

Definition handleVerifyPasswordForDownload (db : Db)
    (password : option string) (auth : AuthHeader) (now r : N)
    (suffix : string) (prov : Providers)
    : N * AuthResponse.t * Db * list Delivery :=
  if negb (truthy password) then
    (400, AuthResponse.mk false "Password is required", db, [])
  else
  let pw := default "" password in
  match auth with
  | NoBearer =>
      (401, AuthResponse.mk false "No valid token provided", db, [])
  | Undecodable => (401, AuthResponse.mk false "Invalid token", db, [])
  | Bearer uid exp =>
    if exp <? now then
      (401, AuthResponse.mk false "Token expired", db, [])
    else
    match userService.findById db uid with
    | None => (404, AuthResponse.mk false "User not found", db, [])
    | Some user =>
      if negb (bcrypt_compare pw (User.password user)) then
        (401, AuthResponse.mk false "Invalid password", db, [])
      else if negb (isConfigured env) then
        (503,
         AuthResponse.mk false
           "OTP services are not configured. Please contact system administrator.",
         db, [])
      else
        let otp := generateOTP r in
        let expiresAt := Clock.toISOString (now + FIVE_MINUTES) in
        match otpService.create db (User.id user) otp "document_download"
                expiresAt now suffix with
        | None =>
            (500, AuthResponse.mk false "Internal server error", db, [])
        | Some (db', _) =>
            let '(otpResult, sent) :=
              sendOTPToEmailAndPhone env prov (User.email user)
                (User.phone user) otp "document download" in
            if negb (OTPResult.success otpResult) then
              (500,
               AuthResponse.mk false
                 (if String.eqb (OTPResult.message otpResult) ""
                  then "Failed to send OTP. Please try again later."
                  else OTPResult.message otpResult),
               db', sent)
            else
              (200, AuthResponse.mk true (OTPResult.message otpResult),
               db', sent)
        end
    end
  end.

Definition handleVerifyDownloadOTP (db : Db) (otp : option string)
    (auth : AuthHeader) (now : N) : N * AuthResponse.t * Db :=
  if negb (truthy otp) then
    (400, AuthResponse.mk false "OTP is required", db)
  else
  let code := default "" otp in
  match auth with
  | NoBearer => (401, AuthResponse.mk false "No valid token provided", db)
  | Undecodable => (401, AuthResponse.mk false "Invalid token", db)
  | Bearer uid exp =>
    if exp <? now then (401, AuthResponse.mk false "Token expired", db)
    else
    match userService.findById db uid with
    | None => (404, AuthResponse.mk false "User not found", db)
    | Some user =>
      match otpService.findValidSession db (User.id user) code
              "document_download" now with
      | None =>
          (400,
           AuthResponse.mk false
             "Invalid or expired OTP. Please verify your password again.",
           db)
      | Some otpSession =>
          (200, AuthResponse.mk true "OTP verified successfully",
           fst (otpService.markAsUsed db (OTPSession.id otpSession)))
      end
    end
  end.

(** The token is parsed outside any inner [try], so one that does not
    parse lands in the outer [catch]; its expiry is not looked at.
    [documentService.deleteByUser] acts on the table of documents only. *)
Definition handleDeleteAccount (db : Db) (auth : AuthHeader)
    : N * AuthResponse.t * Db :=
  match auth with
  | NoBearer => (401, AuthResponse.mk false "No valid token provided", db)
  | Undecodable => (500, AuthResponse.mk false "Internal server error", db)
  | Bearer uid _ =>
      match userService.findById db uid with
      | None => (404, AuthResponse.mk false "User not found", db)
      | Some user =>
          (200, AuthResponse.mk true "Account deleted successfully",
           fst (userService.delete db (User.id user)))
      end
  end.

(** What writes the accounts and the ledger while the server runs: the
    two step-up requests, the deletion of an account, and the hourly timer
    of [database.ts], which calls [cleanupExpiredSessions]. *)
Inductive Event : Type :=
| VerifyPassword (password : option string) (auth : AuthHeader) (now r : N)
    (suffix : string) (prov : Providers)
| VerifyDownloadOTP (otp : option string) (auth : AuthHeader) (now : N)
| DeleteAccount (auth : AuthHeader)
| CleanupTimer (now : N).

Definition step (db : Db) (ev : Event) : Db :=
  match ev with
  | VerifyPassword password auth now r suffix prov =>
      (handleVerifyPasswordForDownload db password auth now r suffix prov).1.2
  | VerifyDownloadOTP otp auth now =>
      (handleVerifyDownloadOTP db otp auth now).2
  | DeleteAccount auth => (handleDeleteAccount db auth).2
  | CleanupTimer now => (otpService.cleanup db now).1
  end.

Definition run (db : Db) (events : list Event) : Db :=
  fold_left step events db.

End Handlers.

End Prod.


(** ** Sample data for the closed instances *)

Module Scenario.

Definition alice : User.t :=
  User.mk "u1" "Alice" "a@x.com" "+15551230000" "$2b$10$alice"
    "2024-01-01T00:00:00Z".

(** A stand-in for bcrypt on the sample account. *)
Definition bcrypt_compare (password hash : string) : bool :=
  String.eqb password "correct horse" && String.eqb hash "$2b$10$alice".

Definition unconfigured : Env.t :=
  Env.mk None None None None None None None.

Definition configured : Env.t :=
  Env.mk (Some "smtp.example.com") (Some "587") (Some "vault@example.com")
    (Some "app-password") (Some "AC0123") (Some "token") (Some "+15550001111").

Definition both_accept : Providers := mkProviders Accepted Accepted.
Definition both_throw : Providers := mkProviders Threw Threw.

(** 1 November 2026, 12:04:56.789 UTC. *)
Definition noon : N := 1793534696789.

Definition session : AuthHeader := Bearer "u1" (noon + 86400000).

Definition store0 : Dev.Store := Dev.mkStore [alice] ∅ [] ∅ ∅.

Definition db0 : Prod.Db := Prod.mkDb [alice] [].

(** The in-memory store after a code was issued to the sample account at
    [noon - 5 min]: it expires at [noon]. *)
Definition store_issued : Dev.Store :=
  Dev.mkStore [alice] {[ "u1" := Dev.StoredOTP.mk "123456" noon ]} [] ∅ ∅.

(** The ledger row of a code issued at [noon - 5 min]. *)
Definition row1 : Prod.OTPSession.t :=
  Prod.OTPSession.mk "1793534396789k3x9q0a1z" "u1" "123456"
    "document_download" (Clock.toISOString noon) false
    (Clock.datetime (noon - FIVE_MINUTES)).

Definition db_issued : Prod.Db := Prod.mkDb [alice] [row1].

(** A second row that happens to carry the same six digits, issued one
    minute later. *)
Definition row2 : Prod.OTPSession.t :=
  Prod.OTPSession.mk "1793534456789p0o9i8u7y" "u1" "123456"
    "document_download" (Clock.toISOString (noon + 60000)) false
    (Clock.datetime (noon - FIVE_MINUTES + 60000)).

Definition db_twice : Prod.Db := Prod.mkDb [alice] [row1; row2].

Definition transcript_doc : Document.t :=
  Document.mk "1793534000000abc123xyz" "Transcript 2026" transcript
    "Semester 5" "2026" "2026-11-01" "1.2 MB" true "u1"
    (Some "/api/files/1793534000000abc123xyz") None.

Definition id_card_doc : Document.t :=
  Document.mk "1793534000001def456uvw" "ID card" id_card "Semester 5"
    "2026" "2026-11-01" "0.3 MB" true "u1"
    (Some "/api/files/1793534000001def456uvw") None.

(** Two secure documents of the sample account, each with a pending
    code. *)
Definition store_docs : Dev.Store :=
  Dev.mkStore [alice] ∅ [transcript_doc; id_card_doc] ∅
    (<[ "1793534000000abc123xyz" :=
          Dev.DocOTP.mk "111111" (noon + FIVE_MINUTES) "a@x.com" ]>
       {[ "1793534000001def456uvw" :=
            Dev.DocOTP.mk "222222" (noon + FIVE_MINUTES) "a@x.com" ]}).

(** A stand-in for [String.prototype.toLowerCase] that is exact on ASCII
    text: the letters A to Z are moved to a to z, every other byte is
    kept. *)
Fixpoint toLowerCase (s : string) : string :=
  match s with
  | EmptyString => EmptyString
  | String c rest =>
      let n := N_of_ascii c in
      String (if (65 <=? n) && (n <=? 90) then ascii_of_N (n + 32) else c)
        (toLowerCase rest)
  end.

(** A second account, and a store that holds both. *)
Definition bob : User.t :=
  User.mk "u2" "Bob" "b@x.com" "+15551239999" "$2b$10$bob"
    "2024-02-02T00:00:00Z".

(** A row of the second account that expired one hour before [noon], and
    the ledger that holds it beside the row of the first account. *)
Definition stale_row : Prod.OTPSession.t :=
  Prod.OTPSession.mk "1793530796789z9y8x7w6v" "u2" "654321"
    "document_download" (Clock.toISOString (noon - 3600000)) false
    (Clock.datetime (noon - 3600000 - FIVE_MINUTES)).

Definition db_stale : Prod.Db := Prod.mkDb [alice; bob] [row1; stale_row].

Definition store_two : Dev.Store :=
  Dev.mkStore [alice; bob] ∅ [transcript_doc; id_card_doc] ∅ ∅.

End Scenario.

(** * Properties *)

(** ** Helpers shared by the proofs *)

Lemma truthy_Some (s : string) : s <> "" -> truthy (Some s) = true.
Proof.
  intros H. unfold truthy. apply negb_true_iff.
  apply String.eqb_neq. exact H.
Qed.

Lemma find_by_id {A : Type} (key : A -> string) (l : list A) (k : string) (x : A) :
  List.find (fun y => String.eqb (key y) k) l = Some x -> key x = k /\ In x l.
Proof.
  intros H. apply List.find_some in H as [Hin Heq].
  apply String.eqb_eq in Heq. auto.
Qed.

Lemma token_live (exp now : N) : now <= exp -> (exp <? now) = false.
Proof. intros H. apply N.ltb_ge. exact H. Qed.

(** Linear arithmetic with division and remainder by constants. *)
Ltac divmod := zify; Z.to_euclidean_division_equations; lia.

(** Peels the guards every handler starts with: a submitted field that is
    present, a bearer token that is still valid, an account that exists. *)
Ltac enter_handler :=
  repeat match goal with
    | H : ?s <> "" |- context [truthy (Some ?s)] =>
        rewrite (truthy_Some s H); cbn [negb default from_option id]
    | H : (?now <= ?exp)%N |- context [(?exp <? ?now)%N] =>
        rewrite (token_live exp now H)
    | H : ?f = Some _ |- context [?f] => rewrite H
    | H : ?f = None |- context [?f] => rewrite H
    | H : ?f = true |- context [?f] => rewrite H; cbn [negb]
    | H : ?f = false |- context [?f] => rewrite H; cbn [negb]
    end.

(** ** Wrong password *)

(** C8. A step-up request whose password does not match the stored hash is
    answered 401 "Invalid password" by both implementations, leaves the
    store (and so the code ledger) as it was, and delivers nothing.  The
    request carries a password and a live session of an existing account. *)
Theorem C8_wrong_password_creates_no_code
    (bcrypt_compare : string -> string -> bool) (env : Env.t)
    (pw uid : string) (exp now r : N) (prov : Providers) :
  pw <> "" -> now <= exp ->
  (forall (s : Dev.Store) (user : User.t),
      Dev.findUserById s uid = Some user ->
      bcrypt_compare pw (User.password user) = false ->
      Dev.handleVerifyPasswordForDownload bcrypt_compare env s (Some pw)
        (Bearer uid exp) now r prov
      = (401, AuthResponse.mk false "Invalid password", s, []))
  /\
  (forall (db : Prod.Db) (user : User.t) (suffix : string),
      Prod.userService.findById db uid = Some user ->
      bcrypt_compare pw (User.password user) = false ->
      Prod.handleVerifyPasswordForDownload bcrypt_compare env db (Some pw)
        (Bearer uid exp) now r suffix prov
      = (401, AuthResponse.mk false "Invalid password", db, [])).
Proof.
  intros Hpw Hexp. split.
  - intros s user Hfind Hbad.
    unfold Dev.handleVerifyPasswordForDownload. enter_handler. reflexivity.
  - intros db user suffix Hfind Hbad.
    unfold Prod.handleVerifyPasswordForDownload. enter_handler. reflexivity.
Qed.

(** The sample stores are what the handlers write: the ledger rows come
    from two step-up requests one minute apart that drew the same code, the
    in-memory entry from one request. *)
Lemma scenario_states_are_reachable :
  (Prod.handleVerifyPasswordForDownload Scenario.bcrypt_compare
     Scenario.configured Scenario.db0 (Some "correct horse") Scenario.session
     (Scenario.noon - FIVE_MINUTES) 23456 "k3x9q0a1z"
     Scenario.both_accept).1.2 = Scenario.db_issued
  /\ (Prod.handleVerifyPasswordForDownload Scenario.bcrypt_compare
        Scenario.configured Scenario.db_issued (Some "correct horse")
        Scenario.session (Scenario.noon - FIVE_MINUTES + 60000) 23456
        "p0o9i8u7y" Scenario.both_accept).1.2 = Scenario.db_twice
  /\ (Dev.handleVerifyPasswordForDownload Scenario.bcrypt_compare
        Scenario.configured Scenario.store0 (Some "correct horse")
        Scenario.session (Scenario.noon - FIVE_MINUTES) 23456
        Scenario.both_accept).1.2 = Scenario.store_issued.
Proof. vm_compute. repeat split. Qed.

Lemma C8_wrong_password_creates_no_code_witness :
  Dev.handleVerifyPasswordForDownload Scenario.bcrypt_compare
    Scenario.configured Scenario.store0 (Some "guess") Scenario.session
    Scenario.noon 0 Scenario.both_accept
  = (401, AuthResponse.mk false "Invalid password", Scenario.store0, []).
Proof.
  apply (proj1 (C8_wrong_password_creates_no_code Scenario.bcrypt_compare
                  Scenario.configured "guess" "u1"
                  (Scenario.noon + 86400000) Scenario.noon 0
                  Scenario.both_accept ltac:(discriminate) ltac:(vm_compute; discriminate))
          Scenario.store0 Scenario.alice); reflexivity.
Defined.

(** ** Verification in the in-memory implementation *)

Lemma dev_no_code_found (s : Dev.Store) (uid code : string) (user : User.t)
    (exp now : N) :
  code <> "" -> now <= exp ->
  Dev.findUserById s uid = Some user ->
  Dev.downloadOTPs s !! User.id user = None ->
  Dev.handleVerifyDownloadOTP s (Some code) (Bearer uid exp) now
  = (400,
     AuthResponse.mk false "No OTP found. Please verify your password first.",
     s).
Proof.
  intros Hcode Hexp Hfind Hnone.
  unfold Dev.handleVerifyDownloadOTP. enter_handler. reflexivity.
Qed.

Lemma dev_replay_no_code (s : Dev.Store) (uid : string) (user : User.t)
    (calls : list (string * N * N)) :
  Dev.findUserById s uid = Some user ->
  Dev.downloadOTPs s !! User.id user = None ->
  Forall (fun c => c.1.1 <> "" /\ c.2 <= c.1.2) calls ->
  Dev.replayVerifyDownloadOTP s uid calls
  = (map (fun _ =>
            (400,
             AuthResponse.mk false
               "No OTP found. Please verify your password first."))
       calls, s).
Proof.
  intros Hfind Hnone Hcalls.
  induction Hcalls as [|[[code exp] now] rest [Hcode Hexp] _ IH]; [reflexivity|].
  cbn [Dev.replayVerifyDownloadOTP map].
  rewrite (dev_no_code_found s uid code user exp now Hcode Hexp Hfind Hnone).
  rewrite IH. reflexivity.
Qed.

(** C9. In the in-memory implementation a verification request that arrives
    after the stored download code has expired is answered "OTP expired" and
    removes the stored code, so the store is not what it was; every later
    verification request of that account, whatever code it submits, is
    answered "No OTP found" and changes nothing further. *)
Theorem C9_expired_code_deleted_by_failed_verify
    (s : Dev.Store) (uid code : string) (user : User.t)
    (stored : Dev.StoredOTP.t) (exp now : N) :
  code <> "" -> now <= exp ->
  Dev.findUserById s uid = Some user ->
  Dev.downloadOTPs s !! User.id user = Some stored ->
  Dev.StoredOTP.expiresAt stored < now ->
  let s' :=
    Dev.set_downloadOTPs s (delete (User.id user) (Dev.downloadOTPs s)) in
  Dev.handleVerifyDownloadOTP s (Some code) (Bearer uid exp) now
  = (400,
     AuthResponse.mk false "OTP expired. Please verify your password again.",
     s')
  /\ Dev.downloadOTPs s' !! User.id user = None
  /\ s' <> s
  /\ forall calls : list (string * N * N),
       Forall (fun c => c.1.1 <> "" /\ c.2 <= c.1.2) calls ->
       Dev.replayVerifyDownloadOTP s' uid calls
       = (map (fun _ =>
                 (400,
                  AuthResponse.mk false
                    "No OTP found. Please verify your password first."))
            calls, s').
Proof.
  intros Hcode Hexp Hfind Hstored Hlate s'.
  assert (Hgone : Dev.downloadOTPs s' !! User.id user = None)
    by apply lookup_delete_eq.
  repeat split.
  - unfold Dev.handleVerifyDownloadOTP. enter_handler.
    apply N.ltb_lt in Hlate. rewrite Hlate. reflexivity.
  - exact Hgone.
  - intros Heq. rewrite Heq in Hgone. congruence.
  - intros calls Hcalls.
    apply (dev_replay_no_code s' uid user calls); assumption.
Qed.

Lemma C9_expired_code_deleted_by_failed_verify_witness :
  Dev.handleVerifyDownloadOTP Scenario.store_issued (Some "123456")
    Scenario.session (Scenario.noon + 1)
  = (400,
     AuthResponse.mk false "OTP expired. Please verify your password again.",
     Dev.set_downloadOTPs Scenario.store_issued
       (delete (User.id Scenario.alice)
          (Dev.downloadOTPs Scenario.store_issued))).
Proof.
  refine (proj1 (C9_expired_code_deleted_by_failed_verify
                   Scenario.store_issued "u1" "123456" Scenario.alice
                   (Dev.StoredOTP.mk "123456" Scenario.noon)
                   (Scenario.noon + 86400000) (Scenario.noon + 1)
                   _ _ _ _ _)).
  - discriminate.
  - vm_compute. discriminate.
  - reflexivity.
  - reflexivity.
  - vm_compute. reflexivity.
Defined.

(** The same happens per document in [handleVerifyOTP]. *)
Lemma dev_document_code_deleted_by_failed_verify
    (s : Dev.Store) (uid documentId code : string) (doc : Document.t)
    (stored : Dev.DocOTP.t) (exp now : N) :
  uid <> "" -> now <= exp ->
  Dev.findDocument s documentId uid = Some doc ->
  Dev.otps s !! documentId = Some stored ->
  Dev.DocOTP.expiresAt stored < now ->
  Dev.handleVerifyOTP s (Bearer uid exp) documentId code now
  = (400,
     SecurityResponse.mk false None None None
       "OTP expired. Please request a new one.",
     Dev.set_otps s (delete documentId (Dev.otps s))).
Proof.
  intros Huid Hexp Hdoc Hstored Hlate.
  unfold Dev.handleVerifyOTP, Dev.getUserFromToken. enter_handler.
  apply N.ltb_lt in Hlate. rewrite Hlate. reflexivity.
Qed.

(** ** One response or two for a failed verification *)

Lemma filter_nil {A : Type} (f : A -> bool) (l : list A) :
  (forall x, In x l -> f x = false) -> List.filter f l = [].
Proof.
  induction l as [|a l IH]; intros H; [reflexivity|].
  cbn. rewrite (H a (or_introl eq_refl)). apply IH.
  intros x Hx. apply H. right. exact Hx.
Qed.

Lemma prod_lookup_failure (db : Prod.Db) (uid code : string) (user : User.t)
    (exp now : N) :
  code <> "" -> now <= exp ->
  Prod.userService.findById db uid = Some user ->
  Prod.otpService.findValidSession db (User.id user) code
    "document_download" now = None ->
  Prod.handleVerifyDownloadOTP db (Some code) (Bearer uid exp) now
  = (400,
     AuthResponse.mk false
       "Invalid or expired OTP. Please verify your password again.",
     db).
Proof.
  intros Hcode Hexp Hfind Hnone.
  unfold Prod.handleVerifyDownloadOTP. enter_handler. reflexivity.
Qed.

(** The claim as stated fails on the in-memory handler: a wrong code and an
    expired code get different status codes and messages. *)
Lemma C6_dev_tells_wrong_from_expired :
  let wrong :=
    Dev.handleVerifyDownloadOTP Scenario.store_issued (Some "000000")
      Scenario.session (Scenario.noon - 1) in
  let late :=
    Dev.handleVerifyDownloadOTP Scenario.store_issued (Some "123456")
      Scenario.session (Scenario.noon + 1) in
  AuthResponse.success wrong.1.2 = false
  /\ AuthResponse.success late.1.2 = false
  /\ wrong.1 = (401, AuthResponse.mk false "Invalid OTP")
  /\ late.1
     = (400,
        AuthResponse.mk false
          "OTP expired. Please verify your password again.")
  /\ wrong.1 <> late.1.
Proof. vm_compute. repeat split; discriminate. Qed.

(** C6 (amended). In the database-backed handler a submission that fails
    because no stored code of the account equals it and a submission that
    fails because every stored code equal to it is rejected by the expiry
    test get one and the same response, 400 "Invalid or expired OTP", and
    neither changes the ledger.  The in-memory handler answers the expired
    code with 400 "OTP expired" and the wrong code with 401 "Invalid OTP". *)
Theorem C6_prod_failures_indistinguishable
    (db1 db2 : Prod.Db) (uid1 uid2 code1 code2 : string)
    (user1 user2 : User.t) (exp1 exp2 now1 now2 : N) :
  code1 <> "" -> code2 <> "" -> now1 <= exp1 -> now2 <= exp2 ->
  Prod.userService.findById db1 uid1 = Some user1 ->
  Prod.userService.findById db2 uid2 = Some user2 ->
  (forall row, In row (Prod.otp_sessions db1) ->
     Prod.OTPSession.user_id row = uid1 ->
     Prod.OTPSession.otp_code row <> code1) ->
  (forall row, In row (Prod.otp_sessions db2) ->
     Prod.OTPSession.user_id row = uid2 ->
     Prod.OTPSession.otp_code row = code2 ->
     Prod.text_gt (Prod.OTPSession.expires_at row) (Clock.datetime now2)
     = false) ->
  let wrong :=
    Prod.handleVerifyDownloadOTP db1 (Some code1) (Bearer uid1 exp1) now1 in
  let late :=
    Prod.handleVerifyDownloadOTP db2 (Some code2) (Bearer uid2 exp2) now2 in
  wrong.1 = late.1
  /\ wrong.1
     = (400,
        AuthResponse.mk false
          "Invalid or expired OTP. Please verify your password again.")
  /\ wrong.2 = db1 /\ late.2 = db2.
Proof.
  intros Hc1 Hc2 He1 He2 Hu1 Hu2 Hwrong Hlate.
  destruct (find_by_id User.id _ _ _ Hu1) as [Hid1 _].
  destruct (find_by_id User.id _ _ _ Hu2) as [Hid2 _].
  assert (Hn1 : Prod.otpService.findValidSession db1 (User.id user1) code1
                  "document_download" now1 = None).
  { unfold Prod.otpService.findValidSession. rewrite filter_nil; [reflexivity|].
    intros row Hin. unfold Prod.otpService.valid_for.
    destruct (String.eqb_spec (Prod.OTPSession.user_id row) (User.id user1))
      as [Hu|]; [|reflexivity].
    destruct (String.eqb_spec (Prod.OTPSession.otp_code row) code1)
      as [Hc|]; [|reflexivity].
    exfalso. apply (Hwrong row Hin); congruence. }
  assert (Hn2 : Prod.otpService.findValidSession db2 (User.id user2) code2
                  "document_download" now2 = None).
  { unfold Prod.otpService.findValidSession. rewrite filter_nil; [reflexivity|].
    intros row Hin. unfold Prod.otpService.valid_for.
    destruct (String.eqb_spec (Prod.OTPSession.user_id row) (User.id user2))
      as [Hu|]; [|reflexivity].
    destruct (String.eqb_spec (Prod.OTPSession.otp_code row) code2)
      as [Hc|]; [|reflexivity].
    rewrite (Hlate row Hin) by congruence.
    rewrite !andb_false_r. reflexivity. }
  intros wrong late. subst wrong late.
  rewrite (prod_lookup_failure db1 uid1 code1 user1 exp1 now1) by assumption.
  rewrite (prod_lookup_failure db2 uid2 code2 user2 exp2 now2) by assumption.
  repeat split.
Qed.

Lemma C6_prod_failures_indistinguishable_witness :
  (Prod.handleVerifyDownloadOTP Scenario.db_issued (Some "000000")
     (Bearer "u1" (Scenario.noon + 86400000)) (Scenario.noon - 1)).1
  = (Prod.handleVerifyDownloadOTP Scenario.db_issued (Some "123456")
       (Bearer "u1" (Scenario.noon + 86400000)) (Scenario.noon + 86400000)).1.
Proof.
  refine (proj1 (C6_prod_failures_indistinguishable Scenario.db_issued
                   Scenario.db_issued "u1" "u1" "000000" "123456"
                   Scenario.alice Scenario.alice (Scenario.noon + 86400000)
                   (Scenario.noon + 86400000) (Scenario.noon - 1)
                   (Scenario.noon + 86400000) _ _ _ _ _ _ _ _)).
  - discriminate.
  - discriminate.
  - vm_compute. discriminate.
  - vm_compute. discriminate.
  - reflexivity.
  - reflexivity.
  - intros row [<-|[]] _. vm_compute. discriminate.
  - intros row [<-|[]] _ _. vm_compute. reflexivity.
Defined.

(** ** Both delivery channels fail *)

Lemma prod_email_failed (env : Env.t) (prov : Providers) (email otp purpose : string) :
  SendResult.success (Prod.sendOTPEmail env prov email otp purpose).1 = false ->
  (Prod.sendOTPEmail env prov email otp purpose).2 = [].
Proof.
  unfold Prod.sendOTPEmail.
  destruct (negb (Prod.emailTransporter env)); [reflexivity|].
  destruct (mail prov); [discriminate|reflexivity].
Qed.

Lemma prod_sms_failed (env : Env.t) (prov : Providers) (phone otp purpose : string) :
  SendResult.success (Prod.sendOTPSMS env prov phone otp purpose).1 = false ->
  (Prod.sendOTPSMS env prov phone otp purpose).2 = [].
Proof.
  unfold Prod.sendOTPSMS.
  destruct (negb (Prod.twilioClient env)); [reflexivity|].
  destruct (sms prov); [discriminate|reflexivity].
Qed.

Lemma prod_both_failed (env : Env.t) (prov : Providers)
    (email phone otp purpose : string) :
  SendResult.success (Prod.sendOTPEmail env prov email otp purpose).1 = false ->
  SendResult.success (Prod.sendOTPSMS env prov phone otp purpose).1 = false ->
  Prod.OTPResult.success
    (Prod.sendOTPToEmailAndPhone env prov email phone otp purpose).1 = false
  /\ Prod.OTPResult.message
       (Prod.sendOTPToEmailAndPhone env prov email phone otp purpose).1
     = "Failed to send OTP to both email and phone. Please try again later."
  /\ (Prod.sendOTPToEmailAndPhone env prov email phone otp purpose).2 = [].
Proof.
  intros He Hs.
  pose proof (prod_email_failed _ _ _ _ _ He) as He'.
  pose proof (prod_sms_failed _ _ _ _ _ Hs) as Hs'.
  unfold Prod.sendOTPToEmailAndPhone.
  destruct (Prod.sendOTPEmail env prov email otp purpose) as [er se].
  destruct (Prod.sendOTPSMS env prov phone otp purpose) as [sr ss].
  cbn in He, Hs, He', Hs' |- *. rewrite He, Hs, He', Hs'. cbn. auto.
Qed.

Lemma dev_email_failed (env : Env.t) (prov : Providers) (email otp purpose : string) :
  SendResult.success (Dev.sendOTPEmail env prov email otp purpose).1 = false ->
  (Dev.sendOTPEmail env prov email otp purpose).2 = [].
Proof.
  unfold Dev.sendOTPEmail.
  destruct (negb (truthy (Env.SMTP_USER env)) || negb (truthy (Env.SMTP_PASS env)));
    [reflexivity|].
  destruct (mail prov); [discriminate|reflexivity].
Qed.

Lemma dev_sms_failed (env : Env.t) (prov : Providers) (phone otp purpose : string) :
  SendResult.success (Dev.sendOTPSMS env prov phone otp purpose).1 = false ->
  (Dev.sendOTPSMS env prov phone otp purpose).2 = [].
Proof.
  unfold Dev.sendOTPSMS.
  destruct (negb (Dev.twilioClient env) || negb (truthy (Env.TWILIO_PHONE_NUMBER env)));
    [reflexivity|].
  destruct (sms prov); [discriminate|reflexivity].
Qed.

Lemma dev_both_failed (env : Env.t) (prov : Providers)
    (email phone otp purpose : string) :
  SendResult.success (Dev.sendOTPEmail env prov email otp purpose).1 = false ->
  SendResult.success (Dev.sendOTPSMS env prov phone otp purpose).1 = false ->
  Dev.sendOTPToEmailAndPhone env prov email phone otp purpose
  = (Dev.OTPResult.mk false "Failed to send OTP to both email and phone"
       false false, [ConsoleOtp otp]).
Proof.
  intros He Hs.
  pose proof (dev_email_failed _ _ _ _ _ He) as He'.
  pose proof (dev_sms_failed _ _ _ _ _ Hs) as Hs'.
  unfold Dev.sendOTPToEmailAndPhone.
  destruct (Dev.sendOTPEmail env prov email otp purpose) as [er se].
  destruct (Dev.sendOTPSMS env prov phone otp purpose) as [sr ss].
  cbn in He, Hs, He', Hs' |- *. rewrite He, Hs, He', Hs'. reflexivity.
Qed.

(** The claim as stated fails on the in-memory handler: with neither channel
    configured, or with both providers refusing, a correct password is
    answered [success: true]. *)
Lemma C2_dev_reports_success_when_both_channels_fail :
  let unset :=
    Dev.handleVerifyPasswordForDownload Scenario.bcrypt_compare
      Scenario.unconfigured Scenario.store0 (Some "correct horse")
      Scenario.session Scenario.noon 23456 Scenario.both_accept in
  let refused :=
    Dev.handleVerifyPasswordForDownload Scenario.bcrypt_compare
      Scenario.configured Scenario.store0 (Some "correct horse")
      Scenario.session Scenario.noon 23456 Scenario.both_throw in
  AuthResponse.success unset.1.1.2 = true
  /\ AuthResponse.success refused.1.1.2 = true
  /\ forallb (fun d => negb (reaches_account_holder d)) unset.2 = true
  /\ forallb (fun d => negb (reaches_account_holder d)) refused.2 = true.
Proof. vm_compute. repeat split. Qed.

(** C2 (amended). When the password check succeeds and both the email and
    the SMS send of the request fail (a channel that is not configured
    counts as failed), the database-backed handler reports [success: false]
    with status 500 or 503 and nothing reaches the account holder.  The
    in-memory handler falls back to printing the code on the server console
    and reports [success: true]; nothing reaches the account holder there
    either. *)
Theorem C2_both_channels_fail
    (bcrypt_compare : string -> string -> bool) (env : Env.t)
    (pw uid : string) (user : User.t) (exp now r : N) (prov : Providers) :
  pw <> "" -> now <= exp ->
  bcrypt_compare pw (User.password user) = true ->
  (forall (db : Prod.Db) (suffix : string),
     Prod.userService.findById db uid = Some user ->
     SendResult.success
       (Prod.sendOTPEmail env prov (User.email user) (generateOTP r)
          "document download").1 = false ->
     SendResult.success
       (Prod.sendOTPSMS env prov (User.phone user) (generateOTP r)
          "document download").1 = false ->
     let reply :=
       Prod.handleVerifyPasswordForDownload bcrypt_compare env db (Some pw)
         (Bearer uid exp) now r suffix prov in
     AuthResponse.success reply.1.1.2 = false
     /\ (reply.1.1.1 = 500 \/ reply.1.1.1 = 503)
     /\ reply.2 = [])
  /\
  (forall (s : Dev.Store),
     Dev.findUserById s uid = Some user ->
     SendResult.success
       (Dev.sendOTPEmail env prov (User.email user) (generateOTP r)
          "document download").1 = false ->
     SendResult.success
       (Dev.sendOTPSMS env prov (User.phone user) (generateOTP r)
          "document download").1 = false ->
     let reply :=
       Dev.handleVerifyPasswordForDownload bcrypt_compare env s (Some pw)
         (Bearer uid exp) now r prov in
     AuthResponse.success reply.1.1.2 = true
     /\ reply.1.1.1 = 200
     /\ reply.2
        = [ConsoleOtp (generateOTP r); ConsoleOtp (generateOTP r);
           ConsoleOtp (generateOTP r)]
     /\ forallb (fun d => negb (reaches_account_holder d)) reply.2 = true).
Proof.
  intros Hpw Hexp Hok. split.
  - intros db suffix Hfind Hmail Hsms reply. subst reply.
    destruct (prod_both_failed env prov (User.email user) (User.phone user)
                (generateOTP r) "document download" Hmail Hsms)
      as (Hfail & Hmsg & Hsent).
    unfold Prod.handleVerifyPasswordForDownload. enter_handler.
    destruct (Prod.isConfigured env); cbn [negb]; [|cbn; auto].
    destruct (Prod.otpService.create _ _ _ _ _ _ _) as [[db' id]|];
      [|cbn; auto].
    destruct (Prod.sendOTPToEmailAndPhone _ _ _ _ _ _) as [res sent].
    cbn in Hfail, Hmsg, Hsent. rewrite Hfail. cbn. auto.
  - intros s Hfind Hmail Hsms reply. subst reply.
    unfold Dev.handleVerifyPasswordForDownload. enter_handler.
    rewrite (dev_both_failed env prov _ _ _ _ Hmail Hsms). cbn. auto.
Qed.

Lemma C2_both_channels_fail_witness :
  AuthResponse.success
    (Prod.handleVerifyPasswordForDownload Scenario.bcrypt_compare
       Scenario.configured Scenario.db0 (Some "correct horse")
       (Bearer "u1" (Scenario.noon + 86400000)) Scenario.noon 23456
       "k3x9q0a1z" Scenario.both_throw).1.1.2 = false.
Proof.
  refine (proj1 (proj1 (C2_both_channels_fail Scenario.bcrypt_compare
                   Scenario.configured "correct horse" "u1" Scenario.alice
                   (Scenario.noon + 86400000) Scenario.noon 23456
                   Scenario.both_throw _ _ _)
                 Scenario.db0 "k3x9q0a1z" _ _ _)).
  - discriminate.
  - vm_compute. discriminate.
  - reflexivity.
  - reflexivity.
  - reflexivity.
  - reflexivity.
Defined.

(** ** Consuming a ledger row *)

Lemma has_id_mark (id : string) (row : Prod.OTPSession.t) :
  Prod.otpService.has_id id (Prod.otpService.mark row)
  = Prod.otpService.has_id id row.
Proof. reflexivity. Qed.

Lemma mark_rows_twice (id : string) (rows : list Prod.OTPSession.t) :
  map (fun row => if Prod.otpService.has_id id row
                  then Prod.otpService.mark row else row)
    (map (fun row => if Prod.otpService.has_id id row
                     then Prod.otpService.mark row else row) rows)
  = map (fun row => if Prod.otpService.has_id id row
                    then Prod.otpService.mark row else row) rows.
Proof.
  induction rows as [|row rows IH]; [reflexivity|].
  cbn [map]. rewrite IH. f_equal.
  destruct (Prod.otpService.has_id id row) eqn:E.
  - rewrite has_id_mark, E. reflexivity.
  - rewrite E. reflexivity.
Qed.

Lemma count_after_mark (id : string) (rows : list Prod.OTPSession.t) :
  length (List.filter (Prod.otpService.has_id id)
            (map (fun row => if Prod.otpService.has_id id row
                             then Prod.otpService.mark row else row) rows))
  = length (List.filter (Prod.otpService.has_id id) rows).
Proof.
  induction rows as [|row rows IH]; [reflexivity|].
  cbn [map List.filter].
  destruct (Prod.otpService.has_id id row) eqn:E.
  - rewrite has_id_mark, E. cbn [length]. rewrite IH. reflexivity.
  - rewrite E. exact IH.
Qed.

Lemma count_present (id : string) (rows : list Prod.OTPSession.t) :
  (exists row, In row rows /\ Prod.OTPSession.id row = id) ->
  Nat.ltb 0 (length (List.filter (Prod.otpService.has_id id) rows)) = true.
Proof.
  intros (row & Hin & Hid).
  assert (Hf : In row (List.filter (Prod.otpService.has_id id) rows)).
  { apply List.filter_In. split; [exact Hin|].
    unfold Prod.otpService.has_id. apply String.eqb_eq. exact Hid. }
  destruct (List.filter (Prod.otpService.has_id id) rows); [destruct Hf|].
  reflexivity.
Qed.

Lemma mark_rows_absent (id : string) (rows : list Prod.OTPSession.t) :
  (forall row, In row rows -> Prod.OTPSession.id row <> id) ->
  map (fun row => if Prod.otpService.has_id id row
                  then Prod.otpService.mark row else row) rows = rows
  /\ List.filter (Prod.otpService.has_id id) rows = [].
Proof.
  intros Habs. induction rows as [|row rows IH]; [split; reflexivity|].
  assert (E : Prod.otpService.has_id id row = false).
  { unfold Prod.otpService.has_id. apply String.eqb_neq.
    apply Habs. left. reflexivity. }
  destruct IH as [IH1 IH2].
  { intros r Hr. apply Habs. right. exact Hr. }
  cbn [map List.filter]. rewrite E, IH1, IH2. split; reflexivity.
Qed.

(** The claim as stated fails: the second call on the same ledger id also
    returns [true]. *)
Lemma C4_second_consume_returns_true :
  let first :=
    Prod.otpService.markAsUsed Scenario.db_issued
      (Prod.OTPSession.id Scenario.row1) in
  let second :=
    Prod.otpService.markAsUsed first.1 (Prod.OTPSession.id Scenario.row1) in
  first.2 = true /\ second.2 = true.
Proof. vm_compute. split; reflexivity. Qed.

(** C4 (amended). [markAsUsed] is total.  On the id of an existing row it
    returns [true] on the first call and [true] again on the second: the
    UPDATE selects the row by id alone and [changes] counts it whether or not
    it was consumed already.  After the first call every row with that id is
    consumed, and the second call leaves the ledger as the first one left
    it.  On an id that no row has it returns [false] and changes nothing. *)
Theorem C4_consume_twice (db : Prod.Db) (id : string) :
  ((exists row, In row (Prod.otp_sessions db) /\ Prod.OTPSession.id row = id) ->
   let first := Prod.otpService.markAsUsed db id in
   let second := Prod.otpService.markAsUsed first.1 id in
   first.2 = true /\ second.2 = true
   /\ (forall row, In row (Prod.otp_sessions first.1) ->
         Prod.OTPSession.id row = id -> Prod.OTPSession.used row = true)
   /\ second.1 = first.1)
  /\
  ((forall row, In row (Prod.otp_sessions db) -> Prod.OTPSession.id row <> id) ->
   Prod.otpService.markAsUsed db id = (db, false)).
Proof.
  split.
  - intros Hex first second. subst first second.
    unfold Prod.otpService.markAsUsed. cbn [fst snd Prod.otp_sessions
      Prod.set_otp_sessions Prod.users].
    rewrite count_after_mark, mark_rows_twice, count_present by exact Hex.
    repeat split.
    intros row Hin Hid. apply List.in_map_iff in Hin as (row0 & Heq & _).
    destruct (Prod.otpService.has_id id row0) eqn:E; subst row.
    + reflexivity.
    + unfold Prod.otpService.has_id in E. apply String.eqb_neq in E.
      contradiction.
  - intros Habs. destruct (mark_rows_absent id _ Habs) as [Hmap Hfil].
    unfold Prod.otpService.markAsUsed. rewrite Hmap, Hfil.
    destruct db. reflexivity.
Qed.

Lemma C4_consume_twice_witness :
  (Prod.otpService.markAsUsed
     (Prod.otpService.markAsUsed Scenario.db_issued
        (Prod.OTPSession.id Scenario.row1)).1
     (Prod.OTPSession.id Scenario.row1)).2 = true.
Proof.
  refine (proj1 (proj2 (proj1 (C4_consume_twice Scenario.db_issued
                   (Prod.OTPSession.id Scenario.row1)) _))).
  exists Scenario.row1. split; [left; reflexivity | reflexivity].
Defined.

(** ** The calendar and the text of a timestamp *)

Section Calendar.

Import Clock.

Lemma days_in_month_bounds (y m : N) : 28 <= days_in_month y m <= 31.
Proof.
  unfold days_in_month.
  repeat (match goal with
          | |- context [match ?x with _ => _ end] => destruct x
          end; try lia).
Qed.

Lemma next_day_valid (c : Civil) :
  valid_date c -> valid_date (next_day c) /\ key c < key (next_day c).
Proof.
  intros [Hm Hd]. unfold next_day.
  pose proof (days_in_month_bounds (year c) (month c)) as Hb.
  destruct (N.ltb_spec (day c) (days_in_month (year c) (month c))).
  - unfold valid_date, key. cbn. lia.
  - destruct (N.ltb_spec (month c) 12).
    + pose proof (days_in_month_bounds (year c) (month c + 1)).
      unfold valid_date, key. cbn. lia.
    + pose proof (days_in_month_bounds (year c + 1) 1).
      unfold valid_date, key. cbn. lia.
Qed.

Lemma civil_of_days_succ (d : N) :
  civil_of_days (N.succ d) = next_day (civil_of_days d).
Proof. unfold civil_of_days. apply N.iter_succ. Qed.

Lemma civil_of_days_valid (d : N) : valid_date (civil_of_days d).
Proof.
  induction d as [|d IH] using N.peano_ind.
  - unfold valid_date. cbn. lia.
  - rewrite civil_of_days_succ. apply next_day_valid. exact IH.
Qed.

Lemma key_strictly_increasing (d1 d2 : N) :
  d1 < d2 -> key (civil_of_days d1) < key (civil_of_days d2).
Proof.
  induction d2 as [|d2 IH] using N.peano_ind; [lia|].
  intros Hlt. rewrite civil_of_days_succ.
  destruct (next_day_valid _ (civil_of_days_valid d2)) as [_ Hstep].
  destruct (N.eq_dec d1 d2) as [->|Hne]; [exact Hstep|].
  assert (d1 < d2) by lia. specialize (IH H). lia.
Qed.

Lemma key_monotone (d1 d2 : N) :
  d1 <= d2 -> key (civil_of_days d1) <= key (civil_of_days d2).
Proof.
  intros Hle. destruct (N.eq_dec d1 d2) as [->|Hne]; [lia|].
  apply N.lt_le_incl, key_strictly_increasing. lia.
Qed.

End Calendar.

Section TimestampText.

Import Clock.

Lemma civil_of_max_day : civil_of_days MAX_DAY = mkCivil 9999 12 31.
Proof. vm_compute. reflexivity. Qed.

Lemma year_four_digits (d : N) :
  d <= MAX_DAY -> year (civil_of_days d) <= 9999.
Proof.
  intros Hle. pose proof (key_monotone d MAX_DAY Hle) as Hk.
  rewrite civil_of_max_day in Hk.
  destruct (civil_of_days_valid d) as [Hm Hd].
  unfold key in Hk. cbn in Hk. lia.
Qed.

Lemma day_of_time (t : N) : t <= MAX_TIME -> t / MS_PER_DAY <= MAX_DAY.
Proof.
  intros Hle. change MAX_DAY with (MAX_TIME / MS_PER_DAY).
  apply N.Div0.div_le_mono. exact Hle.
Qed.

Lemma append_cons (x : ascii) (a b : string) :
  String x a +:+ b = String x (a +:+ b).
Proof. reflexivity. Qed.

Lemma append_nil (b : string) : "" +:+ b = b.
Proof. reflexivity. Qed.

Lemma compare_append (a1 a2 b1 b2 : string) :
  String.length a1 = String.length a2 ->
  String.compare (a1 +:+ b1) (a2 +:+ b2)
  = match String.compare a1 a2 with
    | Eq => String.compare b1 b2
    | c => c
    end.
Proof.
  revert a2. induction a1 as [|x a1 IH]; intros [|y a2] Hlen;
    try discriminate; [reflexivity|].
  rewrite !append_cons. cbn [String.compare].
  destruct (Ascii.compare x y); try reflexivity.
  apply IH. cbn in Hlen. congruence.
Qed.

Lemma digit_compare (a b : N) :
  Ascii.compare (digit a) (digit b) = (a mod 10 ?= b mod 10).
Proof.
  unfold Ascii.compare, digit.
  pose proof (N.mod_upper_bound a 10 ltac:(lia)).
  pose proof (N.mod_upper_bound b 10 ltac:(lia)).
  rewrite !N_ascii_embedding by lia.
  destruct (N.compare_spec (48 + a mod 10) (48 + b mod 10));
    destruct (N.compare_spec (a mod 10) (b mod 10)); try reflexivity; lia.
Qed.

(** Two decimal digits compare as the number they write. *)
Lemma pad2_compare (a b : N) :
  a < 100 -> b < 100 -> String.compare (pad2 a) (pad2 b) = (a ?= b).
Proof.
  intros Ha Hb. unfold pad2. cbn [String.compare].
  rewrite !digit_compare.
  rewrite (N.mod_small (a / 10) 10), (N.mod_small (b / 10) 10)
    by (apply N.Div0.div_lt_upper_bound; lia).
  pose proof (N.div_mod a 10 ltac:(lia)) as Ea.
  pose proof (N.div_mod b 10 ltac:(lia)) as Eb.
  pose proof (N.mod_upper_bound a 10 ltac:(lia)) as Ra.
  pose proof (N.mod_upper_bound b 10 ltac:(lia)) as Rb.
  set (qa := a / 10) in *. set (ra := a mod 10) in *.
  set (qb := b / 10) in *. set (rb := b mod 10) in *.
  clearbody qa ra qb rb.
  destruct (N.compare_spec qa qb); destruct (N.compare_spec ra rb);
    cbn; symmetry;
    first [ apply (proj2 (N.compare_eq_iff _ _)); lia
          | apply (proj2 (N.compare_lt_iff _ _)); lia
          | apply (proj2 (N.compare_gt_iff _ _)); lia ].
Qed.

Lemma pad2_mod (a : N) : pad2 a = pad2 (a mod 100).
Proof.
  unfold pad2, digit.
  replace ((a mod 100) mod 10) with (a mod 10) by divmod.
  replace ((a mod 100 / 10) mod 10) with ((a / 10) mod 10) by divmod.
  reflexivity.
Qed.

Lemma date_text_length (c : Civil) : String.length (date_text c) = 10%nat.
Proof. reflexivity. Qed.

Lemma lexicographic_key (h1 l1 m1 d1 h2 l2 m2 d2 : N) :
  l1 < 100 -> l2 < 100 -> m1 < 100 -> m2 < 100 -> d1 < 100 -> d2 < 100 ->
  match match h1 ?= h2 with Eq => l1 ?= l2 | c => c end with
  | Eq => match m1 ?= m2 with Eq => d1 ?= d2 | c => c end
  | c => c
  end
  = ((100 * h1 + l1) * 10000 + m1 * 100 + d1
     ?= (100 * h2 + l2) * 10000 + m2 * 100 + d2).
Proof.
  intros.
  destruct (N.compare_spec h1 h2); destruct (N.compare_spec l1 l2);
    destruct (N.compare_spec m1 m2); destruct (N.compare_spec d1 d2);
    symmetry;
    first [ apply (proj2 (N.compare_eq_iff _ _)); lia
          | apply (proj2 (N.compare_lt_iff _ _)); lia
          | apply (proj2 (N.compare_gt_iff _ _)); lia ].
Qed.

(** Dates written with four year digits compare as text the way they
    compare as dates. *)
Lemma date_text_compare (c1 c2 : Civil) :
  year c1 <= 9999 -> year c2 <= 9999 ->
  month c1 < 100 -> month c2 < 100 -> day c1 < 100 -> day c2 < 100 ->
  String.compare (date_text c1) (date_text c2) = (key c1 ?= key c2).
Proof.
  intros Hy1 Hy2 Hm1 Hm2 Hd1 Hd2. unfold date_text, pad4, key.
  rewrite (pad2_mod (year c1)), (pad2_mod (year c2)).
  rewrite compare_append by reflexivity.
  rewrite (compare_append (pad2 _) (pad2 _)) by reflexivity.
  rewrite (compare_append "-" "-") by reflexivity.
  rewrite (compare_append (pad2 _) (pad2 _)) by reflexivity.
  rewrite (compare_append "-" "-") by reflexivity.
  change (String.compare "-" "-") with Eq. cbv iota.
  rewrite !pad2_compare
    by first [assumption | apply N.mod_upper_bound; lia
             | apply N.Div0.div_lt_upper_bound; lia].
  rewrite lexicographic_key
    by first [assumption | apply N.mod_upper_bound; lia].
  rewrite <- !N.div_mod by lia. reflexivity.
Qed.

Lemma civil_small (d : N) :
  d <= MAX_DAY ->
  year (civil_of_days d) <= 9999
  /\ month (civil_of_days d) < 100 /\ day (civil_of_days d) < 100.
Proof.
  intros Hd. split; [apply year_four_digits; exact Hd|].
  destruct (civil_of_days_valid d) as [Hm Hday].
  pose proof (days_in_month_bounds (year (civil_of_days d))
                (month (civil_of_days d))).
  lia.
Qed.

(** What the expiry comparison of the ledger decides.  Both operands
    start with the date; at the eleventh character [expires_at] has ["T"]
    and [datetime('now')] a space, so on equal dates [expires_at] is the
    greater text whatever the time of day. *)
Lemma expiry_test_by_day (e n : N) :
  e <= MAX_TIME -> n <= MAX_TIME ->
  Prod.text_gt (toISOString e) (datetime n) = true
  <-> n / MS_PER_DAY <= e / MS_PER_DAY.
Proof.
  intros He Hn. apply day_of_time in He, Hn.
  destruct (civil_small _ He) as (Hy1 & Hm1 & Hd1).
  destruct (civil_small _ Hn) as (Hy2 & Hm2 & Hd2).
  unfold Prod.text_gt, toISOString, datetime.
  rewrite compare_append by reflexivity.
  rewrite date_text_compare by assumption.
  destruct (N.compare_spec (key (civil_of_days (e / MS_PER_DAY)))
              (key (civil_of_days (n / MS_PER_DAY)))) as [Heq|Hlt|Hgt].
  - rewrite !append_cons. cbn [String.compare].
    change (Ascii.compare "T" " ") with Gt. cbv iota.
    split; [intros _|reflexivity].
    destruct (N.le_gt_cases (n / MS_PER_DAY) (e / MS_PER_DAY)) as [|Hc];
      [assumption|].
    apply key_strictly_increasing in Hc. lia.
  - split; [discriminate|]. intros Hle.
    apply key_monotone in Hle. lia.
  - split; [intros _|reflexivity].
    destruct (N.le_gt_cases (n / MS_PER_DAY) (e / MS_PER_DAY)) as [|Hc];
      [assumption|].
    apply key_strictly_increasing in Hc. lia.
Qed.

Lemma compare_refl (x : string) : String.compare x x = Eq.
Proof.
  induction x as [|c x IH]; [reflexivity|]. cbn.
  unfold Ascii.compare. rewrite N.compare_refl. exact IH.
Qed.

Lemma append_inj (a1 a2 b1 b2 : string) :
  String.length a1 = String.length a2 ->
  a1 +:+ b1 = a2 +:+ b2 -> a1 = a2 /\ b1 = b2.
Proof.
  revert a2. induction a1 as [|x a1 IH]; intros [|y a2] Hlen Heq;
    try discriminate; [auto|].
  rewrite !append_cons in Heq. injection Heq as -> Heq.
  destruct (IH a2) as [-> ->]; [cbn in Hlen; congruence|exact Heq|auto].
Qed.

Lemma pad2_inj (a b : N) : a < 100 -> b < 100 -> pad2 a = pad2 b -> a = b.
Proof.
  intros Ha Hb Heq. apply N.compare_eq_iff.
  rewrite <- (pad2_compare a b Ha Hb), Heq. apply compare_refl.
Qed.

Lemma pad3_inj (a b : N) : a < 1000 -> b < 1000 -> pad3 a = pad3 b -> a = b.
Proof.
  intros Ha Hb Heq.
  change (String (digit (a / 100)) "" +:+ pad2 a
          = String (digit (b / 100)) "" +:+ pad2 b) in Heq.
  apply append_inj in Heq as [Hd Hp]; [|reflexivity].
  injection Hd as Hd.
  rewrite (pad2_mod a), (pad2_mod b) in Hp.
  apply pad2_inj in Hp; try (apply N.mod_upper_bound; lia).
  assert (Hq : a / 100 = b / 100).
  { apply (pad2_inj (a / 100) (b / 100)).
    - apply N.Div0.div_lt_upper_bound; lia.
    - apply N.Div0.div_lt_upper_bound; lia.
    - unfold pad2. rewrite Hd.
      rewrite (N.div_small (a / 100) 10), (N.div_small (b / 100) 10)
        by (apply N.Div0.div_lt_upper_bound; lia).
      reflexivity. }
  rewrite (N.div_mod a 100), (N.div_mod b 100) by lia. congruence.
Qed.

Lemma date_text_inj (d1 d2 : N) :
  d1 <= MAX_DAY -> d2 <= MAX_DAY ->
  date_text (civil_of_days d1) = date_text (civil_of_days d2) -> d1 = d2.
Proof.
  intros H1 H2 Heq.
  destruct (civil_small _ H1) as (Hy1 & Hm1 & Hd1).
  destruct (civil_small _ H2) as (Hy2 & Hm2 & Hd2).
  pose proof (date_text_compare _ _ Hy1 Hy2 Hm1 Hm2 Hd1 Hd2) as Hc.
  rewrite Heq, compare_refl in Hc. symmetry in Hc.
  apply N.compare_eq_iff in Hc.
  destruct (N.lt_trichotomy d1 d2) as [Hlt|[->|Hgt]]; [|reflexivity|].
  - apply key_strictly_increasing in Hlt. lia.
  - apply key_strictly_increasing in Hgt. lia.
Qed.

Lemma split_by (k a b : N) :
  k <> 0 -> a / k = b / k -> a mod k = b mod k -> a = b.
Proof.
  intros Hk Hd Hm. rewrite (N.div_mod a k Hk), (N.div_mod b k Hk). congruence.
Qed.

Lemma millis_of_day (t : N) : (t mod MS_PER_DAY) mod 1000 = t mod 1000.
Proof. unfold MS_PER_DAY. divmod. Qed.

Lemma hours_two_digits (ms : N) : ms < 86400000 -> ms / 3600000 < 100.
Proof. intros H. divmod. Qed.

Lemma pad2_length (n : N) : String.length (pad2 n) = 2%nat.
Proof. reflexivity. Qed.

Lemma time_text_length (ms : N) : String.length (time_text ms) = 8%nat.
Proof. reflexivity. Qed.

Lemma time_text_inj (ms1 ms2 : N) :
  ms1 < MS_PER_DAY -> ms2 < MS_PER_DAY ->
  time_text ms1 = time_text ms2 -> ms1 / 1000 = ms2 / 1000.
Proof.
  unfold MS_PER_DAY. intros H1 H2 Heq. unfold time_text in Heq.
  apply append_inj in Heq as [Hh Heq]; [|rewrite !pad2_length; reflexivity].
  apply append_inj in Heq as [_ Heq]; [|reflexivity].
  apply append_inj in Heq as [Hm Heq]; [|rewrite !pad2_length; reflexivity].
  apply append_inj in Heq as [_ Hs]; [|reflexivity].
  apply pad2_inj in Hh; [|apply hours_two_digits; exact H1
                           |apply hours_two_digits; exact H2].
  apply pad2_inj in Hm;
    try (apply N.lt_trans with 60; [apply N.mod_upper_bound|]; lia).
  apply pad2_inj in Hs;
    try (apply N.lt_trans with 60; [apply N.mod_upper_bound|]; lia).
  assert (Hmin : ms1 / 60000 = ms2 / 60000).
  { apply (split_by 60); [lia| |exact Hm].
    rewrite !N.Div0.div_div. exact Hh. }
  apply (split_by 60); [lia| |exact Hs].
  rewrite !N.Div0.div_div. exact Hmin.
Qed.

(** Up to the year 9999 the ISO text determines the instant. *)
Lemma toISOString_inj (t1 t2 : N) :
  t1 <= MAX_TIME -> t2 <= MAX_TIME ->
  toISOString t1 = toISOString t2 -> t1 = t2.
Proof.
  intros H1 H2 Heq. unfold toISOString in Heq.
  apply append_inj in Heq as [Hdate Heq];
    [|rewrite !date_text_length; reflexivity].
  apply append_inj in Heq as [_ Heq]; [|reflexivity].
  apply append_inj in Heq as [Htime Heq];
    [|rewrite !time_text_length; reflexivity].
  apply append_inj in Heq as [_ Heq]; [|reflexivity].
  apply append_inj in Heq as [Hmilli _]; [|reflexivity].
  apply date_text_inj in Hdate; try (apply day_of_time; assumption).
  apply time_text_inj in Htime;
    try (apply N.mod_upper_bound; unfold MS_PER_DAY; lia).
  apply pad3_inj in Hmilli; try (apply N.mod_upper_bound; lia).
  apply (split_by MS_PER_DAY); [unfold MS_PER_DAY; lia|exact Hdate|].
  apply (split_by 1000); [lia|exact Htime|].
  rewrite !millis_of_day. exact Hmilli.
Qed.

(** Where the expiry comparison and the clock part ways: exactly on the
    rows whose expiry has passed earlier on the current UTC day. *)
Lemma expiry_test_against_clock (e now : N) :
  e <= MAX_TIME -> now <= MAX_TIME ->
  (Prod.text_gt (toISOString e) (datetime now) = true <-> now < e)
  <-> ~ (e <= now /\ e / MS_PER_DAY = now / MS_PER_DAY).
Proof.
  intros He Hn. rewrite (expiry_test_by_day e now He Hn).
  pose proof (N.Div0.div_le_mono e now MS_PER_DAY) as Hmono1.
  pose proof (N.Div0.div_le_mono now e MS_PER_DAY) as Hmono2.
  split.
  - intros [H1 H2] [Hle Hday]. rewrite Hday in H1.
    specialize (H1 (N.le_refl _)). lia.
  - intros Hnot. split.
    + intros Hday. destruct (N.lt_ge_cases now e) as [|Hge]; [assumption|].
      exfalso. apply Hnot. split; [exact Hge|].
      specialize (Hmono1 Hge). lia.
    + intros Hlt. apply Hmono2. lia.
Qed.

End TimestampText.

(** ** The ledger lookup *)

Lemma most_recent_in (rows : list Prod.OTPSession.t) (r : Prod.OTPSession.t) :
  Prod.otpService.most_recent rows = Some r -> In r rows.
Proof.
  revert r. induction rows as [|row rows IH]; intros r H; [discriminate|].
  cbn in H. destruct (Prod.otpService.most_recent rows) as [best|].
  - destruct (Prod.text_lt _ _); injection H as <-.
    + right. apply IH. reflexivity.
    + left. reflexivity.
  - injection H as <-. left. reflexivity.
Qed.

Lemma most_recent_some (rows : list Prod.OTPSession.t) :
  rows <> [] -> exists r, Prod.otpService.most_recent rows = Some r.
Proof.
  destruct rows as [|row rows]; [congruence|]. intros _. cbn.
  destruct (Prod.otpService.most_recent rows) as [best|]; [|eauto].
  destruct (Prod.text_lt _ _); eauto.
Qed.

Lemma findValidSession_sound (db : Prod.Db) (uid code purpose : string)
    (now : N) (r : Prod.OTPSession.t) :
  Prod.otpService.findValidSession db uid code purpose now = Some r ->
  In r (Prod.otp_sessions db)
  /\ Prod.otpService.valid_for uid code purpose now r = true.
Proof.
  intros H. apply most_recent_in in H. apply List.filter_In in H. exact H.
Qed.

Lemma findValidSession_complete (db : Prod.Db) (uid code purpose : string)
    (now : N) (row : Prod.OTPSession.t) :
  In row (Prod.otp_sessions db) ->
  Prod.otpService.valid_for uid code purpose now row = true ->
  exists r, Prod.otpService.findValidSession db uid code purpose now = Some r.
Proof.
  intros Hin Hvalid. apply most_recent_some.
  intros Hnil.
  assert (Hf : In row (List.filter
                         (Prod.otpService.valid_for uid code purpose now)
                         (Prod.otp_sessions db)))
    by (apply List.filter_In; auto).
  rewrite Hnil in Hf. destruct Hf.
Qed.

Lemma valid_for_spec (uid code purpose : string) (now : N)
    (row : Prod.OTPSession.t) :
  Prod.otpService.valid_for uid code purpose now row = true
  <-> Prod.OTPSession.user_id row = uid
      /\ Prod.OTPSession.otp_code row = code
      /\ Prod.OTPSession.purpose row = purpose
      /\ Prod.OTPSession.used row = false
      /\ Prod.text_gt (Prod.OTPSession.expires_at row) (Clock.datetime now)
         = true.
Proof.
  unfold Prod.otpService.valid_for.
  rewrite !andb_true_iff, !String.eqb_eq, negb_true_iff. tauto.
Qed.

Lemma prod_verify_success (db : Prod.Db) (uid code : string) (user : User.t)
    (exp now : N) (r : Prod.OTPSession.t) :
  code <> "" -> now <= exp ->
  Prod.userService.findById db uid = Some user ->
  Prod.otpService.findValidSession db (User.id user) code
    "document_download" now = Some r ->
  Prod.handleVerifyDownloadOTP db (Some code) (Bearer uid exp) now
  = (200, AuthResponse.mk true "OTP verified successfully",
     (Prod.otpService.markAsUsed db (Prod.OTPSession.id r)).1).
Proof.
  intros Hcode Hexp Hfind Hsome.
  unfold Prod.handleVerifyDownloadOTP. enter_handler. reflexivity.
Qed.

Lemma dev_verify_success (s : Dev.Store) (uid code : string) (user : User.t)
    (stored : Dev.StoredOTP.t) (exp now : N) :
  code <> "" -> now <= exp ->
  Dev.findUserById s uid = Some user ->
  Dev.downloadOTPs s !! User.id user = Some stored ->
  now <= Dev.StoredOTP.expiresAt stored ->
  Dev.StoredOTP.code stored = code ->
  Dev.handleVerifyDownloadOTP s (Some code) (Bearer uid exp) now
  = (200, AuthResponse.mk true "OTP verified successfully",
     Dev.set_downloadOTPs s (delete (User.id user) (Dev.downloadOTPs s))).
Proof.
  intros Hcode Hexp Hfind Hstored Hlive Heq.
  unfold Dev.handleVerifyDownloadOTP. enter_handler.
  rewrite Heq, String.eqb_refl. reflexivity.
Qed.

(** ** The expiry boundary *)

(** C3. What the code does at the boundary.  The in-memory handler rejects
    only when [Date.now() > expiresAt]: the correct code is accepted one
    millisecond before [expiresAt] and also at exactly [expiresAt], and
    rejected one millisecond after.  The database-backed lookup compares the
    ISO text of [expires_at] with the text of [datetime('now')]; it accepts
    the correct code at every instant whose UTC date is not after the UTC
    date of [expiresAt], so also at [expiresAt] and after it on that day. *)
Theorem C3_expiry_boundary (uid code : string) (user : User.t) (expiresAt exp : N) :
  code <> "" -> 1 <= expiresAt -> expiresAt + 1 <= exp ->
  (forall (s : Dev.Store),
     Dev.findUserById s uid = Some user ->
     Dev.downloadOTPs s !! User.id user
     = Some (Dev.StoredOTP.mk code expiresAt) ->
     AuthResponse.success
       (Dev.handleVerifyDownloadOTP s (Some code) (Bearer uid exp)
          (expiresAt - 1)).1.2 = true
     /\ AuthResponse.success
          (Dev.handleVerifyDownloadOTP s (Some code) (Bearer uid exp)
             expiresAt).1.2 = true
     /\ AuthResponse.success
          (Dev.handleVerifyDownloadOTP s (Some code) (Bearer uid exp)
             (expiresAt + 1)).1.2 = false)
  /\
  (forall (db : Prod.Db) (row : Prod.OTPSession.t) (now : N),
     Prod.userService.findById db uid = Some user ->
     In row (Prod.otp_sessions db) ->
     Prod.Matches (User.id user) code row ->
     Prod.OTPSession.expires_at row = Clock.toISOString expiresAt ->
     expiresAt <= Clock.MAX_TIME -> now <= Clock.MAX_TIME -> now <= exp ->
     now / Clock.MS_PER_DAY <= expiresAt / Clock.MS_PER_DAY ->
     AuthResponse.success
       (Prod.handleVerifyDownloadOTP db (Some code) (Bearer uid exp) now).1.2
     = true).
Proof.
  intros Hcode Hpos Hexp. split.
  - intros s Hfind Hstored. repeat split.
    + rewrite (dev_verify_success s uid code user
                 (Dev.StoredOTP.mk code expiresAt) exp (expiresAt - 1));
        cbn; try assumption; try reflexivity; lia.
    + rewrite (dev_verify_success s uid code user
                 (Dev.StoredOTP.mk code expiresAt) exp expiresAt);
        cbn; try assumption; try reflexivity; lia.
    + unfold Dev.handleVerifyDownloadOTP.
      assert (Hlive : expiresAt + 1 <= exp) by exact Hexp.
      enter_handler. cbn [Dev.StoredOTP.expiresAt].
      replace (expiresAt <? expiresAt + 1) with true
        by (symmetry; apply N.ltb_lt; lia).
      reflexivity.
  - intros db row now Hfind Hin (Hu & Hp & Hc & Hunused) Htext Hmax Hnow Hlive Hday.
    assert (Hvalid : Prod.otpService.valid_for (User.id user) code
                       "document_download" now row = true).
    { apply valid_for_spec. repeat split; try assumption.
      rewrite Htext. apply expiry_test_by_day; assumption. }
    destruct (findValidSession_complete db _ _ _ now row Hin Hvalid) as [r Hr].
    rewrite (prod_verify_success db uid code user exp now r); auto.
Qed.

Lemma C3_expiry_boundary_witness :
  AuthResponse.success
    (Dev.handleVerifyDownloadOTP Scenario.store_issued (Some "123456")
       (Bearer "u1" (Scenario.noon + 86400000)) Scenario.noon).1.2 = true
  /\ AuthResponse.success
       (Prod.handleVerifyDownloadOTP Scenario.db_issued (Some "123456")
          (Bearer "u1" (Scenario.noon + 86400000)) (Scenario.noon + 1)).1.2
     = true.
Proof.
  destruct (C3_expiry_boundary "u1" "123456" Scenario.alice Scenario.noon
              (Scenario.noon + 86400000)) as [HD HP].
  - discriminate.
  - vm_compute. discriminate.
  - vm_compute. discriminate.
  - split.
    + exact (proj1 (proj2 (HD Scenario.store_issued eq_refl eq_refl))).
    + refine (HP Scenario.db_issued Scenario.row1 (Scenario.noon + 1)
                eq_refl _ _ eq_refl _ _ _ _).
      * left. reflexivity.
      * repeat split.
      * vm_compute. discriminate.
      * vm_compute. discriminate.
      * vm_compute. discriminate.
      * vm_compute. discriminate.
Defined.

(** The same code, evaluated: five minutes after its expiry the row is
    still accepted by the database-backed handler, and the next UTC day it
    is not. *)
Lemma prod_accepts_code_after_expiry :
  (Prod.handleVerifyDownloadOTP Scenario.db_issued (Some "123456")
     Scenario.session (Scenario.noon + FIVE_MINUTES)).1
  = (200, AuthResponse.mk true "OTP verified successfully")
  /\ (Prod.handleVerifyDownloadOTP Scenario.db_issued (Some "123456")
        Scenario.session (Scenario.noon + 43200000)).1
     = (400,
        AuthResponse.mk false
          "Invalid or expired OTP. Please verify your password again.").
Proof. vm_compute. split; reflexivity. Qed.

(** ** Verification against the ledger *)

Lemma mark_valid_for (uid code purpose : string) (now : N)
    (row : Prod.OTPSession.t) :
  Prod.otpService.valid_for uid code purpose now (Prod.otpService.mark row)
  = false.
Proof.
  unfold Prod.otpService.valid_for, Prod.otpService.mark. cbn.
  rewrite !andb_false_r. reflexivity.
Qed.

Lemma valid_after_consume (db : Prod.Db) (id uid code purpose : string)
    (now : N) :
  (exists r, In r (Prod.otp_sessions (Prod.otpService.markAsUsed db id).1)
             /\ Prod.otpService.valid_for uid code purpose now r = true)
  <-> (exists r, In r (Prod.otp_sessions db)
                 /\ Prod.OTPSession.id r <> id
                 /\ Prod.otpService.valid_for uid code purpose now r = true).
Proof.
  unfold Prod.otpService.markAsUsed. cbn [fst Prod.otp_sessions
    Prod.set_otp_sessions].
  split.
  - intros (r & Hin & Hvalid).
    apply List.in_map_iff in Hin as (r0 & Heq & Hin0).
    destruct (Prod.otpService.has_id id r0) eqn:E; subst r.
    + rewrite mark_valid_for in Hvalid. discriminate.
    + exists r0. repeat split; try assumption.
      unfold Prod.otpService.has_id in E. apply String.eqb_neq in E. exact E.
  - intros (r & Hin & Hid & Hvalid). exists r. split; [|exact Hvalid].
    apply List.in_map_iff. exists r. split; [|exact Hin].
    unfold Prod.otpService.has_id.
    apply String.eqb_neq in Hid. rewrite Hid. reflexivity.
Qed.

Lemma users_after_consume (db : Prod.Db) (id : string) :
  Prod.users (Prod.otpService.markAsUsed db id).1 = Prod.users db.
Proof. reflexivity. Qed.

Lemma prod_verify_succeeds_iff (db : Prod.Db) (uid code : string)
    (user : User.t) (exp now : N) :
  code <> "" -> now <= exp ->
  Prod.userService.findById db uid = Some user ->
  AuthResponse.success
    (Prod.handleVerifyDownloadOTP db (Some code) (Bearer uid exp) now).1.2
  = true
  <-> exists row, In row (Prod.otp_sessions db)
        /\ Prod.otpService.valid_for uid code "document_download" now row
           = true.
Proof.
  intros Hcode Hexp Hfind.
  destruct (find_by_id User.id _ _ _ Hfind) as [Hid _].
  destruct (Prod.otpService.findValidSession db (User.id user) code
              "document_download" now) as [r|] eqn:E.
  - rewrite (prod_verify_success db uid code user exp now r) by assumption.
    apply findValidSession_sound in E as [Hin Hvalid]. rewrite Hid in Hvalid.
    split; [intros _; eauto | reflexivity].
  - rewrite (prod_lookup_failure db uid code user exp now) by assumption.
    split; [discriminate|]. intros (row & Hin & Hvalid). rewrite <- Hid in Hvalid.
    destruct (findValidSession_complete db _ _ _ now row Hin Hvalid) as [r Hr].
    congruence.
Qed.

Lemma valid_for_matches (db : Prod.Db) (uid code : string) (now : N)
    (row : Prod.OTPSession.t) :
  Prod.clock_agrees db now -> In row (Prod.otp_sessions db) ->
  Prod.otpService.valid_for uid code "document_download" now row = true
  <-> Prod.Matches uid code row /\ Prod.Unexpired row now.
Proof.
  intros Hclock Hin. rewrite valid_for_spec, (Hclock row Hin).
  unfold Prod.Matches. tauto.
Qed.

Lemma unexpired_by_instant (row : Prod.OTPSession.t) (e now : N) :
  e <= Clock.MAX_TIME ->
  Prod.OTPSession.expires_at row = Clock.toISOString e ->
  Prod.Unexpired row now <-> now < e.
Proof.
  intros He Htext. unfold Prod.Unexpired. split.
  - intros (t & Ht & Heq & Hlt). rewrite Htext in Heq.
    apply toISOString_inj in Heq; [subst t; exact Hlt | exact He | exact Ht].
  - intros Hlt. exists e. auto.
Qed.

(** On a ledger written by the handler the expiry comparison agrees with
    the clock unless some row expired earlier on the current UTC day. *)
Lemma clock_agrees_unless_expired_today (db : Prod.Db) (now : N) :
  now <= Clock.MAX_TIME ->
  (forall row, In row (Prod.otp_sessions db) ->
     exists e, e <= Clock.MAX_TIME
               /\ Prod.OTPSession.expires_at row = Clock.toISOString e) ->
  Prod.clock_agrees db now
  <-> (forall row e, In row (Prod.otp_sessions db) ->
         e <= Clock.MAX_TIME ->
         Prod.OTPSession.expires_at row = Clock.toISOString e ->
         ~ (e <= now /\ e / Clock.MS_PER_DAY = now / Clock.MS_PER_DAY)).
Proof.
  intros Hnow Hrows. unfold Prod.clock_agrees. split.
  - intros Hagree row e Hin He Htext.
    apply (expiry_test_against_clock e now He Hnow).
    rewrite <- Htext, <- (unexpired_by_instant row e now He Htext).
    apply Hagree. exact Hin.
  - intros Hnot row Hin. destruct (Hrows row Hin) as (e & He & Htext).
    rewrite (unexpired_by_instant row e now He Htext), Htext.
    apply (expiry_test_against_clock e now He Hnow).
    apply (Hnot row e Hin He Htext).
Qed.

(** Agreement on the whole ledger gives agreement on the rows of one
    account and code. *)
Lemma clock_agrees_for_all (db : Prod.Db) (uid code : string) (now : N) :
  Prod.clock_agrees db now -> Prod.clock_agrees_for db uid code now.
Proof. intros Hclock row Hin _. apply Hclock. exact Hin. Qed.

Lemma valid_for_selects (db : Prod.Db) (uid code : string) (now : N)
    (row : Prod.OTPSession.t) :
  Prod.clock_agrees_for db uid code now -> In row (Prod.otp_sessions db) ->
  Prod.otpService.valid_for uid code "document_download" now row = true
  <-> Prod.Matches uid code row /\ Prod.Unexpired row now.
Proof.
  intros Hclock Hin. rewrite valid_for_spec. unfold Prod.Matches. split.
  - intros (Hu & Hc & Hp & Hused & Htext).
    assert (Hmatch : Prod.Matches uid code row)
      by (unfold Prod.Matches; auto).
    split; [exact Hmatch|]. apply (Hclock row Hin Hmatch). exact Htext.
  - intros [Hmatch Hunexp]. pose proof Hmatch as (Hu & Hp & Hc & Hused).
    repeat (split; [assumption|]). apply (Hclock row Hin Hmatch).
    exact Hunexp.
Qed.

(** On a ledger written by the handler, the expiry comparison agrees with
    the clock on the rows of an account and code unless one of these rows
    expired earlier on the current UTC day; stale rows of other accounts or
    with other codes do not matter. *)
Lemma clock_agrees_for_unless_expired_today (db : Prod.Db)
    (uid code : string) (now : N) :
  now <= Clock.MAX_TIME ->
  (forall row, In row (Prod.otp_sessions db) -> Prod.Matches uid code row ->
     exists e, e <= Clock.MAX_TIME
               /\ Prod.OTPSession.expires_at row = Clock.toISOString e) ->
  Prod.clock_agrees_for db uid code now
  <-> (forall row e, In row (Prod.otp_sessions db) ->
         Prod.Matches uid code row ->
         e <= Clock.MAX_TIME ->
         Prod.OTPSession.expires_at row = Clock.toISOString e ->
         ~ (e <= now /\ e / Clock.MS_PER_DAY = now / Clock.MS_PER_DAY)).
Proof.
  intros Hnow Hrows. unfold Prod.clock_agrees_for. split.
  - intros Hagree row e Hin Hmatch He Htext.
    apply (expiry_test_against_clock e now He Hnow).
    rewrite <- Htext, <- (unexpired_by_instant row e now He Htext).
    apply Hagree; assumption.
  - intros Hnot row Hin Hmatch.
    destruct (Hrows row Hin Hmatch) as (e & He & Htext).
    rewrite (unexpired_by_instant row e now He Htext), Htext.
    apply (expiry_test_against_clock e now He Hnow).
    apply (Hnot row e Hin Hmatch He Htext).
Qed.

(** The claim as stated fails: the generator does not check a new code
    against the codes still outstanding, so two rows of one account can carry
    the same digits; the first verification consumes the newer row and the
    immediately repeated one succeeds on the older. *)
Lemma C1_repeated_verify_succeeds_on_equal_codes :
  let first :=
    Prod.handleVerifyDownloadOTP Scenario.db_twice (Some "123456")
      Scenario.session (Scenario.noon - 1000) in
  let second :=
    Prod.handleVerifyDownloadOTP first.2 (Some "123456") Scenario.session
      (Scenario.noon - 1000) in
  AuthResponse.success first.1.2 = true
  /\ Prod.otp_sessions first.2
     = [Scenario.row1; Prod.otpService.mark Scenario.row2]
  /\ AuthResponse.success second.1.2 = true.
Proof. vm_compute. repeat split. Qed.

(** C1 (amended).  Where the expiry comparison agrees with the clock on
    the rows the request can select (the unconsumed rows of the account for
    the download purpose that carry the submitted code), the database-backed
    verification succeeds exactly when the ledger has an unconsumed,
    unexpired row of the account for the download purpose whose code equals
    the submitted one.  On success one such row is consumed: it stays in the
    ledger with [used] set and its other columns as they were, every row
    with its id is marked used, rows with another id are left as they were,
    and the ledger has the same ids in the same order and the same
    accounts.  The immediately repeated verification with the same code
    succeeds exactly when another such row exists, so it fails when the
    consumed row was the only one. *)
Theorem C1_verify_step_up (db : Prod.Db) (uid code : string) (user : User.t)
    (exp now : N) :
  code <> "" -> now <= exp ->
  Prod.userService.findById db uid = Some user ->
  Prod.clock_agrees_for db uid code now ->
  let reply :=
    Prod.handleVerifyDownloadOTP db (Some code) (Bearer uid exp) now in
  (AuthResponse.success reply.1.2 = true
   <-> exists row, In row (Prod.otp_sessions db)
         /\ Prod.Matches uid code row /\ Prod.Unexpired row now)
  /\
  (AuthResponse.success reply.1.2 = true ->
   exists row, In row (Prod.otp_sessions db)
     /\ Prod.Matches uid code row /\ Prod.Unexpired row now
     /\ In (Prod.otpService.mark row) (Prod.otp_sessions reply.2)
     /\ map Prod.OTPSession.id (Prod.otp_sessions reply.2)
        = map Prod.OTPSession.id (Prod.otp_sessions db)
     /\ Prod.users reply.2 = Prod.users db
     /\ (forall r, In r (Prod.otp_sessions reply.2) ->
           Prod.OTPSession.id r = Prod.OTPSession.id row ->
           Prod.OTPSession.used r = true)
     /\ (forall r, In r (Prod.otp_sessions db) ->
           Prod.OTPSession.id r <> Prod.OTPSession.id row ->
           In r (Prod.otp_sessions reply.2))
     /\ (AuthResponse.success
           (Prod.handleVerifyDownloadOTP reply.2 (Some code) (Bearer uid exp)
              now).1.2 = true
         <-> exists other, In other (Prod.otp_sessions db)
               /\ Prod.OTPSession.id other <> Prod.OTPSession.id row
               /\ Prod.Matches uid code other /\ Prod.Unexpired other now)).
Proof.
  intros Hcode Hexp Hfind Hclock reply.
  assert (Hiff : AuthResponse.success reply.1.2 = true
                 <-> exists row, In row (Prod.otp_sessions db)
                       /\ Prod.Matches uid code row /\ Prod.Unexpired row now).
  { subst reply. rewrite prod_verify_succeeds_iff by eassumption.
    split; intros (row & Hin & H); exists row; (split; [exact Hin|]);
      apply (valid_for_selects db uid code now row Hclock Hin); exact H. }
  split; [exact Hiff|]. intros Hsucc.
  destruct (find_by_id User.id _ _ _ Hfind) as [Hid _].
  destruct (Prod.otpService.findValidSession db (User.id user) code
              "document_download" now) as [row|] eqn:E.
  2:{ subst reply.
      rewrite (prod_lookup_failure db uid code user exp now) in Hsucc
        by assumption. discriminate. }
  assert (Hreply : reply
                   = (200, AuthResponse.mk true "OTP verified successfully",
                      (Prod.otpService.markAsUsed db
                         (Prod.OTPSession.id row)).1))
    by (apply (prod_verify_success db uid code user exp now row); assumption).
  rewrite Hreply. cbn [snd].
  apply findValidSession_sound in E as [Hin Hvalid]. rewrite Hid in Hvalid.
  apply (valid_for_selects db uid code now row Hclock Hin) in Hvalid
    as [Hmatch Hunexp].
  exists row. repeat (split; [assumption|]).
  split; [|split; [|split; [reflexivity|split; [|split]]]].
  - unfold Prod.otpService.markAsUsed.
    cbn [fst Prod.otp_sessions Prod.set_otp_sessions].
    apply List.in_map_iff. exists row. split; [|exact Hin].
    unfold Prod.otpService.has_id. rewrite String.eqb_refl. reflexivity.
  - unfold Prod.otpService.markAsUsed.
    cbn [fst Prod.otp_sessions Prod.set_otp_sessions].
    rewrite List.map_map. apply List.map_ext. intros r.
    destruct (Prod.otpService.has_id _ r); reflexivity.
  - intros r Hr Hsame.
    unfold Prod.otpService.markAsUsed in Hr. cbn in Hr.
    apply List.in_map_iff in Hr as (r0 & Heq & _).
    destruct (Prod.otpService.has_id (Prod.OTPSession.id row) r0) eqn:Eid;
      subst r; [reflexivity|].
    unfold Prod.otpService.has_id in Eid. apply String.eqb_neq in Eid.
    contradiction.
  - intros r Hr Hother.
    unfold Prod.otpService.markAsUsed. cbn.
    apply List.in_map_iff. exists r. split; [|exact Hr].
    unfold Prod.otpService.has_id. apply String.eqb_neq in Hother.
    rewrite Hother. reflexivity.
  - rewrite (prod_verify_succeeds_iff
               (Prod.otpService.markAsUsed db (Prod.OTPSession.id row)).1
               uid code user exp now Hcode Hexp Hfind).
    rewrite valid_after_consume.
    split; intros (other & Hino & Hne & H); exists other;
      (split; [exact Hino|]); (split; [exact Hne|]);
      apply (valid_for_selects db uid code now other Hclock Hino); exact H.
Qed.

(** The sample ledger with a stale row of another account beside it, one
    that expired earlier on the same day: the expiry comparison is wrong on
    that row and right on the rows of the request. *)
Lemma C1_verify_step_up_witness :
  AuthResponse.success
    (Prod.handleVerifyDownloadOTP Scenario.db_stale (Some "123456")
       (Bearer "u1" (Scenario.noon + 86400000)) (Scenario.noon - 1000)).1.2
  = true
  <-> exists row, In row (Prod.otp_sessions Scenario.db_stale)
        /\ Prod.Matches "u1" "123456" row
        /\ Prod.Unexpired row (Scenario.noon - 1000).
Proof.
  refine (proj1 (C1_verify_step_up Scenario.db_stale "u1" "123456"
                   Scenario.alice (Scenario.noon + 86400000)
                   (Scenario.noon - 1000) _ _ eq_refl _)).
  - discriminate.
  - vm_compute. discriminate.
  - intros row [<-|[<-|[]]] Hmatch.
    + split.
      * intros _. exists Scenario.noon. vm_compute.
        repeat split; first [discriminate | reflexivity].
      * intros _. vm_compute. reflexivity.
    + destruct Hmatch as [Huser _]. discriminate Huser.
Defined.

(** ** Issuing a code while another is outstanding *)

Lemma pretty_N_go_nonempty (x : N) (s : string) :
  s <> "" -> pretty_N_go x s <> "".
Proof.
  revert s. induction (N.lt_wf_0 x) as [x _ IH]; intros s Hs.
  destruct (N.eq_dec x 0) as [->|Hx].
  - rewrite pretty_N_go_0. exact Hs.
  - rewrite pretty_N_go_step by lia. apply IH.
    + apply N.div_lt; lia.
    + discriminate.
Qed.

Lemma pretty_nonempty (n : N) : pretty n <> "".
Proof.
  unfold pretty, pretty_N. destruct (decide (n = 0)); [discriminate|].
  rewrite pretty_N_go_step by lia. apply pretty_N_go_nonempty. discriminate.
Qed.

Lemma generateOTP_nonempty (r : N) : generateOTP r <> "".
Proof. apply pretty_nonempty. Qed.

Lemma existsb_has_id (id : string) (rows : list Prod.OTPSession.t) :
  existsb (Prod.otpService.has_id id) rows = false ->
  ~ In id (map Prod.OTPSession.id rows).
Proof.
  intros Hex Hin. apply List.in_map_iff in Hin as (row & Hid & Hin).
  assert (existsb (Prod.otpService.has_id id) rows = true); [|congruence].
  apply List.existsb_exists. exists row. split; [exact Hin|].
  unfold Prod.otpService.has_id. apply String.eqb_eq. exact Hid.
Qed.

(** The primary key stays a key. *)
Lemma create_keeps_key (db db' : Prod.Db)
    (uid code purpose expires suffix id : string) (now : N) :
  NoDup (map Prod.OTPSession.id (Prod.otp_sessions db)) ->
  Prod.otpService.create db uid code purpose expires now suffix
  = Some (db', id) ->
  Prod.otp_sessions db'
  = (Prod.otp_sessions db
       ++ [Prod.OTPSession.mk id uid code purpose expires false
             (Clock.datetime now)])%list
  /\ id = newId now suffix
  /\ Prod.users db' = Prod.users db
  /\ ~ In id (map Prod.OTPSession.id (Prod.otp_sessions db))
  /\ NoDup (map Prod.OTPSession.id (Prod.otp_sessions db')).
Proof.
  intros Hkey Hcreate. unfold Prod.otpService.create in Hcreate.
  destruct (existsb _ (Prod.otp_sessions db)) eqn:Efresh; [discriminate|].
  destruct (negb _); [discriminate|].
  injection Hcreate as <- <-. apply existsb_has_id in Efresh.
  cbn [Prod.otp_sessions Prod.set_otp_sessions Prod.users].
  repeat (split; [first [reflexivity | assumption]|]).
  rewrite List.map_app. cbn [map Prod.OTPSession.id].
  apply List.NoDup_app.
  - exact Hkey.
  - apply List.NoDup_cons; [intros []|apply List.NoDup_nil].
  - intros x Hx [<-|[]]. contradiction.
Qed.

Lemma same_id_same_row (rows : list Prod.OTPSession.t)
    (a b : Prod.OTPSession.t) :
  NoDup (map Prod.OTPSession.id rows) -> In a rows -> In b rows ->
  Prod.OTPSession.id a = Prod.OTPSession.id b -> a = b.
Proof.
  induction rows as [|row rows IH]; intros Hkey Ha Hb Hid; [destruct Ha|].
  cbn in Hkey. apply List.NoDup_cons_iff in Hkey as [Hnot Hkey].
  destruct Ha as [<-|Ha], Hb as [<-|Hb]; [reflexivity| | |auto].
  - exfalso. apply Hnot. rewrite Hid. apply List.in_map. exact Hb.
  - exfalso. apply Hnot. rewrite <- Hid. apply List.in_map. exact Ha.
Qed.

(** Consuming a row leaves the lookup of every other code as it was. *)
Lemma lookup_after_consume_other (db : Prod.Db) (id0 uid code purpose : string)
    (now : N) :
  (forall row, In row (Prod.otp_sessions db) ->
     Prod.OTPSession.id row = id0 -> Prod.OTPSession.otp_code row <> code) ->
  Prod.otpService.findValidSession (Prod.otpService.markAsUsed db id0).1 uid
    code purpose now
  = Prod.otpService.findValidSession db uid code purpose now.
Proof.
  intros Hother. unfold Prod.otpService.findValidSession,
    Prod.otpService.markAsUsed.
  cbn [fst Prod.otp_sessions Prod.set_otp_sessions]. f_equal.
  induction (Prod.otp_sessions db) as [|row rows IH]; [reflexivity|].
  cbn [map List.filter].
  rewrite IH by (intros r Hr; apply Hother; right; exact Hr).
  destruct (Prod.otpService.has_id id0 row) eqn:E; [|reflexivity].
  rewrite mark_valid_for.
  assert (Hcode : Prod.OTPSession.otp_code row <> code).
  { apply Hother; [left; reflexivity|].
    unfold Prod.otpService.has_id in E. apply String.eqb_eq in E. exact E. }
  unfold Prod.otpService.valid_for.
  apply String.eqb_neq in Hcode. rewrite Hcode, andb_false_r. reflexivity.
Qed.

(** What a verification request does to the ledger: nothing, or it consumes
    the row that the lookup returned for the submitted code. *)
Lemma prod_verify_effect (db : Prod.Db) (otp : option string)
    (auth : AuthHeader) (now : N) :
  (Prod.handleVerifyDownloadOTP db otp auth now).2 = db
  \/ exists uid code row,
       otp = Some code
       /\ Prod.otpService.findValidSession db uid code "document_download" now
          = Some row
       /\ (Prod.handleVerifyDownloadOTP db otp auth now).2
          = (Prod.otpService.markAsUsed db (Prod.OTPSession.id row)).1.
Proof.
  unfold Prod.handleVerifyDownloadOTP.
  destruct otp as [code|]; [|left; reflexivity].
  destruct (negb (truthy (Some code))); [left; reflexivity|].
  destruct auth as [| |uid exp]; try (left; reflexivity).
  destruct (exp <? now); [left; reflexivity|].
  destruct (Prod.userService.findById db uid) as [user|]; [|left; reflexivity].
  cbn [default from_option id].
  destruct (Prod.otpService.findValidSession db (User.id user) code
              "document_download" now) as [row|] eqn:E; [|left; reflexivity].
  right. exists (User.id user), code, row. auto.
Qed.

(** A successful step-up request went through every guard and inserted one
    row. *)
Lemma prod_request_success
    (bcrypt_compare : string -> string -> bool) (env : Env.t) (db : Prod.Db)
    (password : option string) (uid suffix : string) (exp now r : N)
    (prov : Providers) :
  AuthResponse.success
    (Prod.handleVerifyPasswordForDownload bcrypt_compare env db password
       (Bearer uid exp) now r suffix prov).1.1.2 = true ->
  exists user id,
    Prod.userService.findById db uid = Some user
    /\ Prod.otpService.create db (User.id user) (generateOTP r)
         "document_download" (Clock.toISOString (now + FIVE_MINUTES)) now
         suffix
       = Some ((Prod.handleVerifyPasswordForDownload bcrypt_compare env db
                  password (Bearer uid exp) now r suffix prov).1.2, id).
Proof.
  unfold Prod.handleVerifyPasswordForDownload.
  destruct (negb (truthy password)); [discriminate|].
  destruct (exp <? now); [discriminate|].
  destruct (Prod.userService.findById db uid) as [user|]; [|discriminate].
  destruct (negb (bcrypt_compare _ _)); [discriminate|].
  destruct (negb (Prod.isConfigured env)); [discriminate|].
  destruct (Prod.otpService.create _ _ _ _ _ _ _) as [[db' id]|] eqn:E;
    [|discriminate].
  destruct (Prod.sendOTPToEmailAndPhone _ _ _ _ _ _) as [res sent].
  destruct (negb (Prod.OTPResult.success res)); [discriminate|].
  intros _. exists user, id. split; [reflexivity|]. rewrite E. reflexivity.
Qed.

Lemma users_after_verify (db : Prod.Db) (otp : option string)
    (auth : AuthHeader) (now : N) :
  Prod.users (Prod.handleVerifyDownloadOTP db otp auth now).2 = Prod.users db.
Proof.
  destruct (prod_verify_effect db otp auth now)
    as [->|(uid & code & row & _ & _ & ->)]; reflexivity.
Qed.

(** A row that is valid for one code is still there, and still valid, after
    a verification request with any other code. *)
Lemma survives_other_verification (db : Prod.Db) (otp : option string)
    (auth : AuthHeader) (now1 now2 : N) (uid code0 : string)
    (row0 : Prod.OTPSession.t) :
  NoDup (map Prod.OTPSession.id (Prod.otp_sessions db)) ->
  In row0 (Prod.otp_sessions db) ->
  Prod.otpService.valid_for uid code0 "document_download" now2 row0 = true ->
  otp <> Some code0 ->
  exists r,
    In r (Prod.otp_sessions (Prod.handleVerifyDownloadOTP db otp auth now1).2)
    /\ Prod.otpService.valid_for uid code0 "document_download" now2 r = true.
Proof.
  intros Hkey Hin Hvalid Hother.
  destruct (prod_verify_effect db otp auth now1)
    as [->|(uid1 & code & row & -> & Hfound & ->)]; [eauto|].
  apply valid_after_consume. exists row0. repeat split; try assumption.
  intros Hsame. apply findValidSession_sound in Hfound as [Hrow Hvrow].
  assert (row0 = row) by (apply (same_id_same_row _ _ _ Hkey); assumption).
  subst row0. apply valid_for_spec in Hvalid as (_ & Hc0 & _).
  apply valid_for_spec in Hvrow as (_ & Hc & _). congruence.
Qed.

Lemma findById_same_users (db db' : Prod.Db) (uid : string) :
  Prod.users db' = Prod.users db ->
  Prod.userService.findById db' uid = Prod.userService.findById db uid.
Proof. intros H. unfold Prod.userService.findById. rewrite H. reflexivity. Qed.

(** The claim as stated fails on the in-memory handler, which keeps one
    code per account: the second request replaces the first code, and the
    first code is answered "Invalid OTP" from then on. *)
Lemma C7_dev_new_code_replaces_old :
  let first :=
    Dev.handleVerifyPasswordForDownload Scenario.bcrypt_compare
      Scenario.configured Scenario.store0 (Some "correct horse")
      Scenario.session Scenario.noon 23456 Scenario.both_accept in
  let second :=
    Dev.handleVerifyPasswordForDownload Scenario.bcrypt_compare
      Scenario.configured first.1.2 (Some "correct horse")
      Scenario.session (Scenario.noon + 1000) 554321 Scenario.both_accept in
  let verify_old :=
    Dev.handleVerifyDownloadOTP second.1.2 (Some "123456") Scenario.session
      (Scenario.noon + 2000) in
  AuthResponse.success first.1.1.2 = true
  /\ Dev.downloadOTPs first.1.2 !! "u1"
     = Some (Dev.StoredOTP.mk "123456" (Scenario.noon + FIVE_MINUTES))
  /\ AuthResponse.success second.1.1.2 = true
  /\ Dev.downloadOTPs second.1.2 !! "u1"
     = Some (Dev.StoredOTP.mk "654321" (Scenario.noon + 1000 + FIVE_MINUTES))
  /\ verify_old.1 = (401, AuthResponse.mk false "Invalid OTP").
Proof. vm_compute. repeat split. Qed.

(** A code that has not expired by the clock passes the expiry comparison
    of the ledger. *)
Lemma unexpired_passes_expiry_test (e now : N) :
  e <= Clock.MAX_TIME -> now < e ->
  Prod.text_gt (Clock.toISOString e) (Clock.datetime now) = true.
Proof.
  intros He Hlt. apply expiry_test_by_day; [exact He|lia|].
  apply N.Div0.div_le_mono. lia.
Qed.

(** C7 (amended).  In the database-backed implementation a successful
    step-up request appends one row to the ledger and touches no other row.
    Every code that verified before still verifies; the new code verifies at
    every instant before its expiry; verifying the new code leaves every
    other code verifiable, and verifying another code leaves the new code
    verifiable. *)
Theorem C7_new_code_keeps_old_code
    (bcrypt_compare : string -> string -> bool) (env : Env.t) (db : Prod.Db)
    (password : option string) (uid suffix : string) (exp now r : N)
    (prov : Providers) :
  NoDup (map Prod.OTPSession.id (Prod.otp_sessions db)) ->
  now + FIVE_MINUTES <= Clock.MAX_TIME ->
  let reply :=
    Prod.handleVerifyPasswordForDownload bcrypt_compare env db password
      (Bearer uid exp) now r suffix prov in
  AuthResponse.success reply.1.1.2 = true ->
  let db' := reply.1.2 in
  let code := generateOTP r in
  let verified (d : Prod.Db) (c : string) (e n : N) : Prop :=
    AuthResponse.success
      (Prod.handleVerifyDownloadOTP d (Some c) (Bearer uid e) n).1.2 = true in
  let after (d : Prod.Db) (c : string) (e n : N) : Prod.Db :=
    (Prod.handleVerifyDownloadOTP d (Some c) (Bearer uid e) n).2 in
  (exists new,
     Prod.otp_sessions db' = (Prod.otp_sessions db ++ [new])%list
     /\ Prod.Matches uid code new
     /\ Prod.OTPSession.expires_at new
        = Clock.toISOString (now + FIVE_MINUTES))
  /\ (forall c e n, c <> "" -> n <= e ->
        verified db c e n -> verified db' c e n)
  /\ (forall e n, n <= e -> n < now + FIVE_MINUTES -> verified db' code e n)
  /\ (forall c e1 n1 e2 n2, c <> "" -> c <> code -> n2 <= e2 ->
        verified db c e2 n2 -> verified (after db' code e1 n1) c e2 n2)
  /\ (forall c e1 n1 e2 n2, c <> code -> n2 <= e2 ->
        n2 < now + FIVE_MINUTES ->
        verified (after db' c e1 n1) code e2 n2).
Proof.
  intros Hkey Hmax reply Hsucc db' code verified after.
  destruct (prod_request_success _ _ _ _ _ _ _ _ _ _ Hsucc)
    as (user & id & Hfind & Hcreate).
  fold reply in Hcreate. fold db' in Hcreate.
  destruct (find_by_id User.id _ _ _ Hfind) as [Hid _].
  destruct (create_keeps_key _ _ _ _ _ _ _ _ _ Hkey Hcreate)
    as (Hrows & _ & Husers & Hfresh & Hkey').
  rewrite Hid in Hrows. fold code in Hrows.
  set (new := Prod.OTPSession.mk id uid code "document_download"
                (Clock.toISOString (now + FIVE_MINUTES)) false
                (Clock.datetime now)) in *.
  assert (Hfind' : Prod.userService.findById db' uid = Some user)
    by (rewrite (findById_same_users db db' uid Husers); exact Hfind).
  assert (Hnew_in : In new (Prod.otp_sessions db'))
    by (rewrite Hrows; apply List.in_or_app; right; left; reflexivity).
  assert (Hold_in : forall row, In row (Prod.otp_sessions db) ->
                      In row (Prod.otp_sessions db'))
    by (intros row Hrow; rewrite Hrows; apply List.in_or_app; left;
        exact Hrow).
  assert (Hnew_valid : forall n, n < now + FIVE_MINUTES ->
            Prod.otpService.valid_for uid code "document_download" n new
            = true).
  { intros n Hn. apply valid_for_spec. repeat split.
    apply unexpired_passes_expiry_test; assumption. }
  assert (Hcode : code <> "") by apply generateOTP_nonempty.
  split; [|split; [|split; [|split]]].
  - exists new. repeat split. exact Hrows.
  - intros c e n Hc Hlive Hv. unfold verified in *.
    rewrite prod_verify_succeeds_iff in Hv |- * by eassumption.
    destruct Hv as (row & Hin & Hvalid). eauto.
  - intros e n Hlive Htime. unfold verified.
    rewrite prod_verify_succeeds_iff by eassumption. eauto.
  - intros c e1 n1 e2 n2 Hc Hne Hlive Hv. unfold verified, after in *.
    rewrite prod_verify_succeeds_iff in Hv by eassumption.
    destruct Hv as (row & Hin & Hvalid).
    rewrite (prod_verify_succeeds_iff _ uid c user e2 n2 Hc Hlive).
    + apply (survives_other_verification db' _ _ n1 n2 uid c row Hkey'
               (Hold_in row Hin) Hvalid).
      congruence.
    + rewrite (findById_same_users db'); [exact Hfind'|].
      apply users_after_verify.
  - intros c e1 n1 e2 n2 Hne Hlive Htime. unfold verified, after.
    rewrite (prod_verify_succeeds_iff _ uid code user e2 n2 Hcode Hlive).
    + apply (survives_other_verification db' _ _ n1 n2 uid code new Hkey'
               Hnew_in (Hnew_valid n2 Htime)).
      congruence.
    + rewrite (findById_same_users db'); [exact Hfind'|].
      apply users_after_verify.
Qed.

Lemma C7_new_code_keeps_old_code_witness :
  exists new,
    Prod.otp_sessions
      (Prod.handleVerifyPasswordForDownload Scenario.bcrypt_compare
         Scenario.configured Scenario.db_issued (Some "correct horse")
         (Bearer "u1" (Scenario.noon + 86400000)) (Scenario.noon - 1000)
         554321 "q1w2e3r4t" Scenario.both_accept).1.2
    = (Prod.otp_sessions Scenario.db_issued ++ [new])%list
    /\ Prod.Matches "u1" (generateOTP 554321) new
    /\ Prod.OTPSession.expires_at new
       = Clock.toISOString (Scenario.noon - 1000 + FIVE_MINUTES).
Proof.
  refine (proj1 (C7_new_code_keeps_old_code Scenario.bcrypt_compare
                   Scenario.configured Scenario.db_issued
                   (Some "correct horse") "u1" "q1w2e3r4t"
                   (Scenario.noon + 86400000) (Scenario.noon - 1000) 554321
                   Scenario.both_accept _ _ _)).
  - apply List.NoDup_cons; [intros []|apply List.NoDup_nil].
  - vm_compute. discriminate.
  - vm_compute. reflexivity.
Defined.

(** ** Deleting a document *)

Lemma splice_first_spec (id userId : string) (docs : list Document.t)
    (doc : Document.t) (rest : list Document.t) :
  Dev.splice_first id userId docs = Some (doc, rest) ->
  Document.id doc = id /\ Document.userId doc = userId
  /\ exists before behind,
       docs = (before ++ doc :: behind)%list
       /\ rest = (before ++ behind)%list
       /\ forall d, In d before ->
            ~ (Document.id d = id /\ Document.userId d = userId).
Proof.
  revert doc rest. induction docs as [|d docs IH]; intros doc rest H;
    [discriminate|].
  cbn in H.
  destruct (String.eqb (Document.id d) id && String.eqb (Document.userId d) userId)
    eqn:E.
  - injection H as <- <-. apply andb_true_iff in E as [E1 E2].
    apply String.eqb_eq in E1, E2. repeat split; try assumption.
    exists [], docs. repeat split. intros x [].
  - destruct (Dev.splice_first id userId docs) as [[x rest']|]; [|discriminate].
    injection H as <- <-.
    destruct (IH x rest' eq_refl) as (Hid & Hu & before & behind & -> & -> & Hb).
    repeat split; try assumption.
    exists (d :: before), behind. repeat split.
    intros y [<-|Hy]; [|apply Hb; exact Hy].
    intros [H1 H2]. apply String.eqb_eq in H1, H2.
    rewrite H1, H2 in E. discriminate.
Qed.

Lemma splice_first_finds (id userId : string) (docs : list Document.t)
    (doc : Document.t) :
  List.find (fun d => String.eqb (Document.id d) id
                      && String.eqb (Document.userId d) userId) docs
  = Some doc ->
  exists rest, Dev.splice_first id userId docs = Some (doc, rest).
Proof.
  induction docs as [|d docs IH]; intros H; [discriminate|].
  cbn in H |- *.
  destruct (String.eqb (Document.id d) id && String.eqb (Document.userId d) userId).
  - injection H as <-. eauto.
  - destruct (IH H) as [rest ->]. eauto.
Qed.

Lemma dev_verify_without_code (s : Dev.Store) (auth : AuthHeader)
    (documentId otp : string) (now : N) :
  Dev.otps s !! documentId = None ->
  SecurityResponse.success (Dev.handleVerifyOTP s auth documentId otp now).1.2
  = false
  /\ (Dev.handleVerifyOTP s auth documentId otp now).2 = s.
Proof.
  intros Hnone. unfold Dev.handleVerifyOTP.
  destruct (negb (truthy (Dev.getUserFromToken auth now))); [split; reflexivity|].
  destruct (Dev.findDocument s documentId _); [|split; reflexivity].
  rewrite Hnone. split; reflexivity.
Qed.

Lemma dev_replay_without_code (s : Dev.Store) (documentId : string)
    (calls : list (AuthHeader * string * N)) :
  Dev.otps s !! documentId = None ->
  Forall (fun reply => SecurityResponse.success reply.2 = false)
    (Dev.replayVerifyOTP s documentId calls).1
  /\ (Dev.replayVerifyOTP s documentId calls).2 = s.
Proof.
  intros Hnone. induction calls as [|[[auth code] now] calls [IH1 IH2]];
    [split; [constructor|reflexivity]|].
  cbn [Dev.replayVerifyOTP].
  destruct (dev_verify_without_code s auth documentId code now Hnone)
    as [Hfail Hsame].
  destruct (Dev.handleVerifyOTP s auth documentId code now) as [[status body] s'].
  cbn in Hfail, Hsame. subst s'.
  destruct (Dev.replayVerifyOTP s documentId calls) as [replies s''].
  cbn in IH1, IH2 |- *. split; [|exact IH2].
  constructor; [exact Hfail|exact IH1].
Qed.

(** C10. When a caller deletes a document they own, the in-memory handler
    removes that document (the first entry with this id and owner) and the
    pending code stored under the document id.  Every other document stays,
    in order; every other pending code, the accounts, the download codes and
    the stored-file table stay as they were.  From then on every
    verification request for that document id fails, whoever sends it,
    whatever code it carries and however often it is repeated. *)
Theorem C10_delete_document_drops_pending_code
    (s : Dev.Store) (auth : AuthHeader) (id uid : string) (doc : Document.t)
    (now : N) :
  Dev.getUserFromToken auth now = Some uid -> uid <> "" ->
  Dev.findDocument s id uid = Some doc ->
  let reply := Dev.handleDeleteDocument s auth id now in
  let s' := reply.2 in
  reply.1 = (200, DocumentResponse.mk true (Some doc)
                    "Document deleted successfully")
  /\ Dev.otps s' !! id = None
  /\ (forall k, k <> id -> Dev.otps s' !! k = Dev.otps s !! k)
  /\ (exists before behind,
        Dev.documents s = (before ++ doc :: behind)%list
        /\ Dev.documents s' = (before ++ behind)%list)
  /\ Dev.users s' = Dev.users s
  /\ Dev.downloadOTPs s' = Dev.downloadOTPs s
  /\ Dev.storedFiles s' = Dev.storedFiles s
  /\ (forall calls : list (AuthHeader * string * N),
        Forall (fun r => SecurityResponse.success r.2 = false)
          (Dev.replayVerifyOTP s' id calls).1
        /\ (Dev.replayVerifyOTP s' id calls).2 = s').
Proof.
  intros Hauth Huid Hdoc reply s'.
  destruct (splice_first_finds id uid _ doc Hdoc) as [rest Hsplice].
  destruct (splice_first_spec _ _ _ _ _ Hsplice)
    as (_ & _ & before & behind & Hdocs & Hrest & _).
  assert (Hreply : reply
                   = (200, DocumentResponse.mk true (Some doc)
                             "Document deleted successfully",
                      Dev.set_otps (Dev.set_documents s rest)
                        (delete id (Dev.otps s)))).
  { subst reply. unfold Dev.handleDeleteDocument. rewrite Hauth.
    rewrite (truthy_Some uid Huid). cbn [negb default from_option Datatypes.id].
    rewrite Hsplice. reflexivity. }
  subst s'. rewrite Hreply. cbn [fst snd].
  assert (Hgone : Dev.otps (Dev.set_otps (Dev.set_documents s rest)
                              (delete id (Dev.otps s))) !! id = None)
    by apply lookup_delete_eq.
  split; [reflexivity|]. split; [exact Hgone|].
  split; [intros k Hk; apply lookup_delete_ne; congruence|].
  split; [exists before, behind; split; [exact Hdocs|exact Hrest]|].
  repeat (split; [reflexivity|]).
  intros calls. apply dev_replay_without_code. exact Hgone.
Qed.

Lemma C10_delete_document_drops_pending_code_witness :
  Dev.otps
    (Dev.handleDeleteDocument Scenario.store_docs Scenario.session
       "1793534000000abc123xyz" Scenario.noon).2
  !! "1793534000000abc123xyz" = None.
Proof.
  refine (proj1 (proj2 (C10_delete_document_drops_pending_code
                          Scenario.store_docs Scenario.session
                          "1793534000000abc123xyz" "u1"
                          Scenario.transcript_doc Scenario.noon _ _ _))).
  - vm_compute. reflexivity.
  - discriminate.
  - reflexivity.
Defined.

(** ** The download token *)

Section Buffers.

Lemma list_ind3 {A : Type} (P : list A -> Prop) :
  P [] -> (forall a, P [a]) -> (forall a b, P [a; b]) ->
  (forall a b c l, P l -> P (a :: b :: c :: l)) ->
  forall l, P l.
Proof.
  intros H0 H1 H2 H3.
  fix IH 1.
  intros [|a [|b [|c l]]];
    [exact H0 | apply H1 | apply H2 | apply H3; apply IH].
Qed.

Lemma below_forallb (f : N -> bool) (k : nat) :
  forallb f (map N.of_nat (seq 0 k)) = true ->
  forall n, n < N.of_nat k -> f n = true.
Proof.
  intros H n Hn. rewrite List.forallb_forall in H. apply H.
  apply List.in_map_iff. exists (N.to_nat n). split; [apply N2Nat.id|].
  apply List.in_seq. lia.
Qed.

Lemma unbase64_alphabet (n : N) :
  n < 64 -> Base64.unbase64 (Base64.alphabet n) = Some n.
Proof.
  intros Hn.
  pose proof (below_forallb
                (fun n => match Base64.unbase64 (Base64.alphabet n) with
                          | Some m => m =? n
                          | None => false
                          end) 64 eq_refl n Hn) as H.
  cbv beta in H.
  destruct (Base64.unbase64 (Base64.alphabet n)); [|discriminate].
  apply N.eqb_eq in H. congruence.
Qed.

Lemma alphabet_not_padding (n : N) :
  n < 64 -> Ascii.eqb (Base64.alphabet n) "=" = false.
Proof.
  intros Hn.
  pose proof (below_forallb
                (fun n => negb (Ascii.eqb (Base64.alphabet n) "=")) 64
                eq_refl n Hn) as H.
  apply negb_true_iff in H. exact H.
Qed.

Lemma sextets_small (bytes : list N) :
  Forall (fun b => b < 256) bytes ->
  Forall (fun x => x < 64) (Base64.sextets bytes).
Proof.
  induction bytes as [|a|a b|a b c l IH] using list_ind3; intros H.
  - constructor.
  - inversion H; subst. cbn. repeat constructor; divmod.
  - inversion H as [|? ? Ha H']; inversion H'; subst. cbn.
    repeat constructor; divmod.
  - inversion H as [|? ? Ha H']; inversion H' as [|? ? Hb H''];
      inversion H'' as [|? ? Hc Hl]; subst.
    cbn [Base64.sextets app].
    repeat (constructor; [divmod|]). apply IH. exact Hl.
Qed.

Lemma unsextets_sextets (bytes : list N) :
  Forall (fun b => b < 256) bytes ->
  Base64.unsextets (Base64.sextets bytes) = bytes.
Proof.
  induction bytes as [|a|a b|a b c l IH] using list_ind3; intros H.
  - reflexivity.
  - inversion H; subst. cbn. f_equal. divmod.
  - inversion H as [|? ? Ha H']; inversion H'; subst. cbn.
    f_equal; [divmod|]. f_equal. divmod.
  - inversion H as [|? ? Ha H']; inversion H' as [|? ? Hb H''];
      inversion H'' as [|? ? Hc Hl]; subst.
    cbn [Base64.sextets Base64.unsextets app]. rewrite (IH Hl).
    f_equal; [divmod|]. f_equal; [divmod|]. f_equal. divmod.
Qed.

Lemma omap_unbase64_alphabet (l : list N) :
  Forall (fun x => x < 64) l ->
  omap Base64.unbase64 (map Base64.alphabet l) = l.
Proof.
  induction 1 as [|x l Hx _ IH]; [reflexivity|].
  cbn. rewrite (unbase64_alphabet x Hx), IH. reflexivity.
Qed.

(** Cutting at a character that the first part does not have, when the
    second part is empty or starts with it. *)
Lemma take_until_append (stop : ascii) (a b : string) :
  string_forallb (fun c => negb (Ascii.eqb c stop)) a = true ->
  b = "" \/ (exists rest, b = String stop rest) ->
  take_until stop (a +:+ b) = a.
Proof.
  intros Ha Hb. induction a as [|c a IH].
  - rewrite append_nil. destruct Hb as [->|[rest ->]]; [reflexivity|].
    cbn. rewrite Ascii.eqb_refl. reflexivity.
  - cbn in Ha. apply andb_true_iff in Ha as [Hc Ha].
    rewrite append_cons. cbn [take_until].
    apply negb_true_iff in Hc. rewrite Hc, (IH Ha). reflexivity.
Qed.

Lemma alphabet_text_has_no_padding (l : list N) :
  Forall (fun x => x < 64) l ->
  string_forallb (fun c => negb (Ascii.eqb c "="))
    (string_of_list_ascii (map Base64.alphabet l)) = true.
Proof.
  induction 1 as [|x l Hx _ IH]; [reflexivity|].
  cbn. rewrite (alphabet_not_padding x Hx), IH. reflexivity.
Qed.

Lemma bytes_of_string_small (s : string) :
  Forall (fun b => b < 256) (bytes_of_string s).
Proof.
  induction s as [|c s IH]; [constructor|].
  constructor; [apply N_ascii_bounded|exact IH].
Qed.

End Buffers.

Section Tokens.

Lemma string_forallb_impl (f g : ascii -> bool) (s : string) :
  (forall c, f c = true -> g c = true) ->
  string_forallb f s = true -> string_forallb g s = true.
Proof.
  intros Hfg. induction s as [|c s IH]; [reflexivity|]. cbn.
  rewrite !andb_true_iff. intros [Hc Hs]. auto.
Qed.

Lemma string_forallb_append (f : ascii -> bool) (a b : string) :
  string_forallb f (a +:+ b) = string_forallb f a && string_forallb f b.
Proof.
  induction a as [|c a IH]; [reflexivity|].
  rewrite append_cons. cbn. rewrite IH, andb_assoc. reflexivity.
Qed.

Lemma base36_is_ascii (c : ascii) : is_base36 c = true -> is_ascii c = true.
Proof.
  unfold is_base36, is_digit, is_lower, is_ascii.
  rewrite orb_true_iff, !andb_true_iff, !N.leb_le, N.ltb_lt. lia.
Qed.

Lemma base36_is_not_colon (c : ascii) :
  is_base36 c = true -> negb (Ascii.eqb c ":") = true.
Proof.
  unfold is_base36, is_digit, is_lower.
  rewrite orb_true_iff, !andb_true_iff, !N.leb_le, negb_true_iff.
  intros H. apply Ascii.eqb_neq. intros ->. cbn in H. lia.
Qed.

Lemma base36_is_plain (c : ascii) :
  is_base36 c = true -> is_plain_char c = true.
Proof.
  intros Hc. unfold is_plain_char.
  rewrite (base36_is_ascii c Hc), (base36_is_not_colon c Hc). reflexivity.
Qed.

(** The ids the generator makes are plain. *)
Lemma well_formed_is_plain (id : string) : well_formed_id id -> plain_id id.
Proof. apply string_forallb_impl. exact base36_is_plain. Qed.

Lemma plain_is_ascii (c : ascii) : is_plain_char c = true -> is_ascii c = true.
Proof. unfold is_plain_char. rewrite andb_true_iff. tauto. Qed.

Lemma plain_is_not_colon (c : ascii) :
  is_plain_char c = true -> negb (Ascii.eqb c ":") = true.
Proof. unfold is_plain_char. rewrite andb_true_iff. tauto. Qed.

Lemma digit_is_ascii (c : ascii) : is_digit c = true -> is_ascii c = true.
Proof.
  unfold is_digit, is_ascii. rewrite andb_true_iff, !N.leb_le, N.ltb_lt. lia.
Qed.

Lemma pretty_N_char_digit (x : N) : is_digit (pretty_N_char x) = true.
Proof. unfold pretty_N_char. repeat case_match; reflexivity. Qed.

Lemma pretty_N_go_digits (x : N) (s : string) :
  string_forallb is_digit s = true ->
  string_forallb is_digit (pretty_N_go x s) = true.
Proof.
  revert s. induction (N.lt_wf_0 x) as [x _ IH]; intros s Hs.
  destruct (N.eq_dec x 0) as [->|Hx].
  - rewrite pretty_N_go_0. exact Hs.
  - rewrite pretty_N_go_step by lia. apply IH.
    + apply N.div_lt; lia.
    + cbn. rewrite pretty_N_char_digit, Hs. reflexivity.
Qed.

Lemma pretty_digits (n : N) : string_forallb is_digit (pretty n) = true.
Proof.
  unfold pretty, pretty_N. destruct (decide (n = 0)); [reflexivity|].
  apply pretty_N_go_digits. reflexivity.
Qed.

Lemma bytes_of_ascii_text (s : string) :
  string_forallb is_ascii s = true ->
  Forall (fun b => b < 128) (bytes_of_string s).
Proof.
  induction s as [|c s IH]; [constructor|]. cbn.
  rewrite andb_true_iff. intros [Hc Hs].
  constructor; [apply N.ltb_lt; exact Hc|apply IH; exact Hs].
Qed.

Lemma utf8_decode_ascii (bytes : list N) :
  Forall (fun b => b < 128) bytes -> Utf8.decode Utf8.Idle bytes = bytes.
Proof.
  induction 1 as [|b bytes Hb _ IH]; [reflexivity|].
  cbn [Utf8.decode]. unfold Utf8.start.
  apply N.ltb_lt in Hb. rewrite Hb. cbn. rewrite IH. reflexivity.
Qed.

Lemma string_of_bytes_of_string (s : string) :
  string_of_bytes (bytes_of_string s) = s.
Proof.
  unfold string_of_bytes, bytes_of_string.
  rewrite List.map_map.
  rewrite (List.map_ext _ (fun c => c) ascii_N_embedding), List.map_id.
  apply string_of_list_ascii_of_string.
Qed.

Lemma codePoints_ascii (l : list N) :
  Forall (fun b => b < 128) l -> Js.codePoints l = l.
Proof.
  induction 1 as [|b l Hb _ IH]; [reflexivity|].
  cbn [Js.codePoints]. apply N.ltb_lt in Hb. rewrite Hb, IH. reflexivity.
Qed.

(** On ASCII text every code unit is its own low byte. *)
Lemma low_bytes_ascii (s : string) :
  string_forallb is_ascii s = true -> Base64.low_bytes s = s.
Proof.
  intros Hs. unfold Base64.low_bytes, Js.codeUnits.
  pose proof (bytes_of_ascii_text s Hs) as Hbytes.
  rewrite (codePoints_ascii _ Hbytes).
  rewrite <- (string_of_bytes_of_string s) at 2. f_equal.
  induction Hbytes as [|b l Hb _ IH]; [reflexivity|].
  cbn [flat_map map app].
  replace (b <? 65536) with true by (symmetry; apply N.ltb_lt; lia).
  cbn [map app]. rewrite IH, N.mod_small by lia. reflexivity.
Qed.

Lemma alphabet_is_ascii (n : N) : is_ascii (Base64.alphabet n) = true.
Proof.
  unfold is_ascii, Base64.alphabet. apply N.ltb_lt.
  repeat match goal with
         | |- context [if ?b then _ else _] => destruct b eqn:?
         end;
    rewrite ?N.ltb_lt in *; rewrite N_ascii_embedding; lia.
Qed.

Lemma encode_is_ascii (s : string) :
  string_forallb is_ascii (Base64.encode s) = true.
Proof.
  unfold Base64.encode. rewrite string_forallb_append.
  apply andb_true_iff. split.
  - induction (Base64.sextets (bytes_of_string s)) as [|x l IH];
      [reflexivity|].
    cbn. rewrite alphabet_is_ascii, IH. reflexivity.
  - unfold Base64.padding.
    destruct (Nat.modulo _ 3) as [|[|[|k]]]; reflexivity.
Qed.

(** Decoding what [encode] wrote gives back the bytes. *)
Lemma base64_round_trip (s : string) :
  Base64.decode (Base64.encode s) = bytes_of_string s.
Proof.
  unfold Base64.decode. rewrite (low_bytes_ascii _ (encode_is_ascii s)).
  unfold Base64.encode.
  pose proof (sextets_small _ (bytes_of_string_small s)) as Hsmall.
  rewrite take_until_append.
  - rewrite list_ascii_of_string_of_list_ascii,
      (omap_unbase64_alphabet _ Hsmall).
    apply unsextets_sextets, bytes_of_string_small.
  - apply alphabet_text_has_no_padding. exact Hsmall.
  - unfold Base64.padding.
    destruct (Nat.modulo _ 3) as [|[|[|k]]]; eauto.
Qed.

(** An ASCII text survives [Buffer.from(text).toString('base64')] followed
    by [Buffer.from(_, 'base64').toString()]. *)
Lemma ascii_text_round_trip (s : string) :
  string_forallb is_ascii s = true ->
  Utf8.toString (Base64.decode (Base64.encode s)) = s.
Proof.
  intros Hs. unfold Utf8.toString.
  rewrite base64_round_trip, utf8_decode_ascii
    by (apply bytes_of_ascii_text; exact Hs).
  apply string_of_bytes_of_string.
Qed.

Lemma token_text_is_ascii (id : string) (now : N) :
  plain_id id ->
  string_forallb is_ascii (id +:+ ":" +:+ pretty now) = true.
Proof.
  intros Hid. rewrite !string_forallb_append.
  rewrite (string_forallb_impl _ _ id plain_is_ascii Hid).
  rewrite (string_forallb_impl _ _ _ digit_is_ascii (pretty_digits now)).
  reflexivity.
Qed.

(** A sequence that the decoder has open starts, in the output, with a byte
    outside ASCII: its own first byte or the first byte of U+FFFD. *)
Lemma utf8_pending_head (l : list N) (needed lower upper h : N)
    (seen : list N) :
  128 <= h < 256 ->
  exists h' tail,
    Utf8.decode (Utf8.Pending needed lower upper (h :: seen)) l = h' :: tail
    /\ 128 <= h' < 256.
Proof.
  intros Hh. revert needed lower upper seen.
  induction l as [|b l IH]; intros needed lower upper seen.
  - exists 239, [191; 189]. split; [reflexivity|lia].
  - cbn [Utf8.decode].
    destruct ((lower <=? b) && (b <=? upper)).
    + destruct (needed =? 1).
      * cbn [app]. eauto.
      * apply (IH (needed - 1) 128 191 (seen ++ [b])%list).
    + destruct (Utf8.start b) as [out st].
      exists 239, ([191; 189] ++ out ++ Utf8.decode st l)%list.
      split; [reflexivity|lia].
Qed.

Lemma utf8_head (b : N) (l : list N) :
  b < 256 ->
  (b < 128 /\ Utf8.decode Utf8.Idle (b :: l) = b :: Utf8.decode Utf8.Idle l)
  \/ (exists h' tail,
        Utf8.decode Utf8.Idle (b :: l) = h' :: tail /\ 128 <= h' < 256).
Proof.
  intros Hb. cbn [Utf8.decode]. unfold Utf8.start.
  destruct (N.ltb_spec b 128) as [Hlow|Hhigh]; [left; split; [lia|reflexivity]|].
  right.
  destruct ((194 <=? b) && (b <=? 223)).
  { cbn [app]. apply utf8_pending_head. lia. }
  destruct ((224 <=? b) && (b <=? 239)).
  { cbn [app]. apply utf8_pending_head. lia. }
  destruct ((240 <=? b) && (b <=? 244)).
  { cbn [app]. apply utf8_pending_head. lia. }
  exists 239, ([191; 189] ++ Utf8.decode Utf8.Idle l)%list.
  split; [reflexivity|lia].
Qed.

Lemma high_byte_char (h : N) (c : ascii) :
  128 <= h < 256 -> ascii_of_N h = c ->
  is_plain_char c = false /\ Ascii.eqb c ":" = false.
Proof.
  intros Hh <-. split.
  - destruct (is_plain_char (ascii_of_N h)) eqn:E; [|reflexivity].
    apply plain_is_ascii in E. unfold is_ascii in E.
    rewrite N_ascii_embedding in E by lia. apply N.ltb_lt in E. lia.
  - apply Ascii.eqb_neq. intros E.
    apply (f_equal N_of_ascii) in E. rewrite N_ascii_embedding in E by lia.
    cbn in E. lia.
Qed.

(** The file endpoint accepts a token only if the bytes it decodes to
    spell the requested id and then stop or go on with a colon. *)
Lemma accepted_token_spells_id (id : string) (bytes : list N) :
  plain_id id ->
  Forall (fun b => b < 256) bytes ->
  take_until ":" (string_of_bytes (Utf8.decode Utf8.Idle bytes)) = id ->
  exists rest,
    bytes = (bytes_of_string id ++ rest)%list
    /\ (rest = [] \/ exists r, rest = 58 :: r).
Proof.
  intros Hid Hbytes. revert bytes Hbytes.
  induction id as [|c id IH]; intros bytes Hbytes Htake.
  - destruct bytes as [|b bytes]; [exists []; auto|].
    inversion Hbytes as [|? ? Hb Hrest]; subst.
    destruct (utf8_head b bytes Hb)
      as [[Hlow Hdec]|(h' & tail & Hdec & Hh')];
      rewrite Hdec in Htake; cbn in Htake.
    + destruct (Ascii.eqb (ascii_of_N b) ":") eqn:E; [|discriminate].
      apply Ascii.eqb_eq in E. apply (f_equal N_of_ascii) in E.
      rewrite N_ascii_embedding in E by lia. cbn in E. subst b.
      exists (58 :: bytes). eauto.
    + destruct (high_byte_char h' _ Hh' eq_refl) as [_ E].
      rewrite E in Htake. discriminate.
  - unfold plain_id in Hid. cbn [string_forallb] in Hid.
    apply andb_true_iff in Hid as [Hc Hid].
    destruct bytes as [|b bytes]; [discriminate|].
    inversion Hbytes as [|? ? Hb Hrest]; subst.
    destruct (utf8_head b bytes Hb)
      as [[Hlow Hdec]|(h' & tail & Hdec & Hh')];
      rewrite Hdec in Htake; cbn in Htake.
    + destruct (Ascii.eqb (ascii_of_N b) ":"); [discriminate|].
      injection Htake as Hb' Htake.
      destruct (IH Hid bytes Hrest Htake) as (rest & -> & Hstop).
      exists rest. split; [|exact Hstop].
      cbn. rewrite <- Hb', N_ascii_embedding by lia. reflexivity.
    + destruct (high_byte_char h' _ Hh' eq_refl) as [E1 E2].
      rewrite E2 in Htake. injection Htake as Hb' _.
      rewrite Hb' in E1. congruence.
Qed.

(** Conversely, bytes that spell the id and then stop or go on with a colon
    are read back as the id. *)
Lemma spelled_token_is_accepted (id : string) (rest : list N) :
  plain_id id ->
  rest = [] \/ (exists r, rest = 58 :: r) ->
  take_until ":"
    (string_of_bytes (Utf8.decode Utf8.Idle (bytes_of_string id ++ rest)))
  = id.
Proof.
  intros Hid Hrest. induction id as [|c id IH].
  - cbn [bytes_of_string list_ascii_of_string map app].
    destruct Hrest as [->|[r ->]]; reflexivity.
  - unfold plain_id in Hid. cbn [string_forallb] in Hid.
    apply andb_true_iff in Hid as [Hc Hid].
    pose proof (plain_is_ascii c Hc) as Hlow. unfold is_ascii in Hlow.
    change (bytes_of_string (String c id))
      with (N_of_ascii c :: bytes_of_string id).
    cbn [app Utf8.decode]. unfold Utf8.start. rewrite Hlow.
    cbn [app]. unfold string_of_bytes. cbn [map string_of_list_ascii].
    rewrite ascii_N_embedding. cbn [take_until].
    apply plain_is_not_colon, negb_true_iff in Hc. rewrite Hc.
    f_equal. apply IH. exact Hid.
Qed.

Lemma unsextets_small (l : list N) :
  Forall (fun x => x < 64) l ->
  Forall (fun b => b < 256) (Base64.unsextets l).
Proof.
  revert l. fix IH 1. intros [|a [|b [|c [|d l]]]] H.
  - constructor.
  - constructor.
  - apply List.Forall_cons_iff in H as [Ha H]. apply List.Forall_cons_iff in H as [Hb _].
    cbn. repeat constructor. divmod.
  - apply List.Forall_cons_iff in H as [Ha H]. apply List.Forall_cons_iff in H as [Hb H].
    apply List.Forall_cons_iff in H as [Hc _].
    cbn. repeat constructor; divmod.
  - apply List.Forall_cons_iff in H as [Ha H]. apply List.Forall_cons_iff in H as [Hb H].
    apply List.Forall_cons_iff in H as [Hc H]. apply List.Forall_cons_iff in H as [Hd H].
    cbn [Base64.unsextets app].
    repeat (constructor; [divmod|]). apply IH. exact H.
Qed.

Lemma unbase64_small (c : ascii) (n : N) :
  Base64.unbase64 c = Some n -> n < 64.
Proof.
  unfold Base64.unbase64.
  repeat match goal with
         | |- context [if ?b then _ else _] => destruct b eqn:?
         end; intros [= <-];
    rewrite ?andb_true_iff, ?N.leb_le in *; lia.
Qed.

Lemma omap_unbase64_small (cs : list ascii) :
  Forall (fun x => x < 64) (omap Base64.unbase64 cs).
Proof.
  induction cs as [|c cs IH]; [constructor|]. cbn.
  destruct (Base64.unbase64 c) eqn:E; [|exact IH].
  constructor; [apply (unbase64_small c); exact E|exact IH].
Qed.

Lemma decode_small (token : string) :
  Forall (fun b => b < 256) (Base64.decode token).
Proof. apply unsextets_small, omap_unbase64_small. Qed.

End Tokens.

(** Ids made by the generator are well formed. *)
Lemma newId_well_formed (now : N) (suffix : string) :
  string_forallb is_base36 suffix = true -> well_formed_id (newId now suffix).
Proof.
  intros Hsuffix. unfold well_formed_id, newId.
  rewrite string_forallb_append, Hsuffix, andb_true_r.
  apply (string_forallb_impl is_digit); [|apply pretty_digits].
  intros c Hc. unfold is_base36. rewrite Hc. reflexivity.
Qed.

(** The text a minted token decodes to starts with the id and a colon. *)
(** The first field of the text of a minted token is the id. *)
Lemma plain_token_field (id : string) (now : N) :
  plain_id id ->
  take_until ":" (Utf8.toString (Base64.decode (Dev.downloadToken id now)))
  = id.
Proof.
  intros Hid. unfold Dev.downloadToken.
  rewrite ascii_text_round_trip by (apply token_text_is_ascii; exact Hid).
  apply take_until_append; [|eauto].
  apply (string_forallb_impl is_plain_char); [|exact Hid].
  exact plain_is_not_colon.
Qed.

Lemma minted_token_field (id : string) (now : N) :
  well_formed_id id ->
  take_until ":" (Utf8.toString (Base64.decode (Dev.downloadToken id now)))
  = id.
Proof. intros Hid. apply plain_token_field, well_formed_is_plain, Hid. Qed.

(** An id with a colon in it would not pass with its own token: the text
    of the token is cut at the first colon. *)
Lemma colon_id_refuses_own_token :
  Dev.accessTokenOk (Dev.downloadToken "a:b" Scenario.noon) "a:b" = false.
Proof. vm_compute. reflexivity. Qed.

Lemma append_only_empty (a b : string) : a +:+ b = a -> b = "".
Proof.
  induction a as [|c a IH]; [rewrite append_nil; auto|].
  rewrite append_cons. intros [= E]. auto.
Qed.

(** The claim as stated fails: the check accepts strings that were never
    minted.  The base64 of the bare id is no token of any instant, and it is
    accepted and the secure document served on it; so is that string with
    characters outside the alphabet put in, and the string whose first
    letter M is replaced by U+014D, of which the decoder reads the low
    byte. *)
Lemma C5_never_minted_string_is_accepted :
  let id := "1793534000000abc123xyz" in
  let bare := Base64.encode id in
  let noisy := "!" +:+ bare +:+ " " in
  let foreign :=
    String (ascii_of_N 197) (String (ascii_of_N 141)
      (string_of_list_ascii (List.tl (list_ascii_of_string bare)))) in
  (forall now, Dev.downloadToken id now <> bare)
  /\ Dev.accessTokenOk bare id = true
  /\ Dev.handleGetFile Scenario.store_docs id (Some bare)
     = Dev.Streamed Scenario.transcript_doc
  /\ Dev.handleGetFile Scenario.store_docs id (Some noisy)
     = Dev.Streamed Scenario.transcript_doc
  /\ Dev.handleGetFile Scenario.store_docs id (Some foreign)
     = Dev.Streamed Scenario.transcript_doc.
Proof.
  cbv zeta. split; [|vm_compute; repeat split].
  intros now E. unfold Dev.downloadToken in E.
  apply (f_equal Base64.decode) in E. rewrite !base64_round_trip in E.
  apply (f_equal string_of_bytes) in E.
  rewrite !string_of_bytes_of_string in E.
  apply append_only_empty in E. rewrite append_cons in E. discriminate.
Qed.

(** C5 (amended).  For a document id that is ASCII text without a colon,
    as every id the generator makes is, the token minted for the id is
    accepted for that id and refused for every other id.  The check is a
    total function, and it accepts a string exactly when the bytes of its
    base64 decoding spell the requested id and then stop or go on with a
    colon: every other string is refused, and every string of that kind is
    accepted, minted or not. *)
Theorem C5_mint_then_verify (id : string) (now : N) :
  plain_id id ->
  Dev.accessTokenOk (Dev.downloadToken id now) id = true
  /\ (forall other : string,
        other <> id ->
        Dev.accessTokenOk (Dev.downloadToken id now) other = false)
  /\ (forall token : string,
        Dev.accessTokenOk token id = true
        <-> exists rest,
              Base64.decode token = (bytes_of_string id ++ rest)%list
              /\ (rest = [] \/ exists r, rest = 58 :: r)).
Proof.
  intros Hid. pose proof (plain_token_field id now Hid) as Hfield.
  split; [|split].
  - unfold Dev.accessTokenOk. rewrite Hfield. apply String.eqb_refl.
  - intros other Hother. unfold Dev.accessTokenOk. rewrite Hfield.
    apply String.eqb_neq. congruence.
  - intros token. unfold Dev.accessTokenOk. rewrite String.eqb_eq. split.
    + intros Htake.
      apply accepted_token_spells_id;
        [exact Hid|apply decode_small|exact Htake].
    + intros (rest & Hbytes & Hrest). unfold Utf8.toString.
      rewrite Hbytes. apply spelled_token_is_accepted; assumption.
Qed.

Lemma C5_mint_then_verify_witness :
  Dev.accessTokenOk
    (Dev.downloadToken "1793534000000abc123xyz" Scenario.noon)
    "1793534000000abc123xyz" = true.
Proof.
  refine (proj1 (C5_mint_then_verify "1793534000000abc123xyz" Scenario.noon _)).
  vm_compute. reflexivity.
Defined.

Lemma downloadToken_nonempty (id : string) (now : N) :
  Dev.downloadToken id now <> "".
Proof.
  unfold Dev.downloadToken, Base64.encode.
  assert (Hbytes : exists b bs,
             bytes_of_string (id +:+ ":" +:+ pretty now) = b :: bs).
  { destruct id as [|c id]; [rewrite append_nil|]; rewrite append_cons;
      cbn; eauto. }
  destruct Hbytes as (b & bs & ->).
  destruct bs as [|b2 [|b3 bs]]; cbn; discriminate.
Qed.

(** X29. At the file endpoint: a secure document is streamed on the token
    minted for it and refused on the token minted for another document and
    on no token. *)
Lemma dev_get_file_checks_token (s : Dev.Store) (doc : Document.t)
    (other : string) (now : N) :
  well_formed_id other -> other <> Document.id doc ->
  List.find (fun d => String.eqb (Document.id d) (Document.id doc))
    (Dev.documents s) = Some doc ->
  Document.isSecure doc = true ->
  well_formed_id (Document.id doc) ->
  Dev.handleGetFile s (Document.id doc)
    (Some (Dev.downloadToken (Document.id doc) now)) = Dev.Streamed doc
  /\ Dev.handleGetFile s (Document.id doc)
       (Some (Dev.downloadToken other now))
     = Dev.Refused 403 "Invalid access token"
  /\ Dev.handleGetFile s (Document.id doc) None
     = Dev.Refused 403 "Access token required for secure downloads".
Proof.
  intros Hother Hne Hfind Hsecure Hid.
  unfold Dev.handleGetFile. rewrite Hfind, Hsecure.
  rewrite !(truthy_Some _ (downloadToken_nonempty _ now)).
  cbn [negb default from_option Datatypes.id truthy].
  unfold Dev.accessTokenOk.
  rewrite (minted_token_field _ now Hid), (minted_token_field _ now Hother).
  rewrite String.eqb_refl. apply String.eqb_neq in Hne. rewrite Hne.
  repeat split.
Qed.

(** X30. With document ids that are unique, a deleted document stays
    unverifiable through every later run of send, verify and delete
    requests: no document carries the id any more, so no code can be issued
    for it. *)
Lemma dev_deleted_document_stays_unverifiable
    (env : Env.t) (s : Dev.Store) (auth : AuthHeader) (id uid : string)
    (doc : Document.t) (now : N) (later : list Dev.DocRequest) :
  NoDup (map Document.id (Dev.documents s)) ->
  Dev.getUserFromToken auth now = Some uid -> uid <> "" ->
  Dev.findDocument s id uid = Some doc ->
  let s' := (Dev.handleDeleteDocument s auth id now).2 in
  forall (auth' : AuthHeader) (otp : string) (now' : N),
    SecurityResponse.success
      (Dev.handleVerifyOTP (fold_left (Dev.serve env) later s') auth' id otp
         now').1.2 = false.
Proof.
  intros Hkey Hauth Huid Hdoc s'.
  set (Inv := fun st : Dev.Store =>
                (forall d, In d (Dev.documents st) -> Document.id d <> id)
                /\ Dev.otps st !! id = None).
  assert (Hstart : Inv s').
  { destruct (splice_first_finds id uid _ doc Hdoc) as [rest Hsplice].
    destruct (splice_first_spec _ _ _ _ _ Hsplice)
      as (Hid & _ & before & behind & Hdocs & Hrest & _).
    subst s'. unfold Dev.handleDeleteDocument. rewrite Hauth.
    rewrite (truthy_Some uid Huid). cbn [negb default from_option Datatypes.id].
    rewrite Hsplice. cbn [snd]. split; [|apply lookup_delete_eq].
    cbn [Dev.documents Dev.set_otps Dev.set_documents].
    rewrite Hdocs, List.map_app in Hkey. cbn [map] in Hkey.
    apply List.NoDup_remove_2 in Hkey.
    intros d Hd Heq. apply Hkey. rewrite Hrest in Hd.
    rewrite <- List.map_app. rewrite Hid, <- Heq. apply List.in_map. exact Hd. }
  assert (Hstep : forall st req, Inv st -> Inv (Dev.serve env st req)).
  { intros st req [Hnone Hcode]. destruct req as [a d n r p|a d o n|a i n];
      cbn [Dev.serve].
    - unfold Dev.handleSendOTP.
      destruct (negb (truthy (Dev.getUserFromToken a n))); [split; assumption|].
      destruct (negb (truthy d)); [split; assumption|].
      destruct (Dev.findDocument st _ _) as [document|] eqn:Efind;
        [|split; assumption].
      destruct (negb (Document.isSecure document)); [split; assumption|].
      destruct (Dev.findUserById st _) as [user|]; [|split; assumption].
      destruct (Dev.sendOTPToEmailAndPhone _ _ _ _ _ _) as [res sent].
      cbn [fst snd]. split; [exact Hnone|].
      cbn [Dev.otps Dev.set_otps].
      apply List.find_some in Efind as [Hin Hmatch].
      apply andb_true_iff in Hmatch as [Hmatch _].
      apply String.eqb_eq in Hmatch.
      rewrite lookup_insert_ne; [exact Hcode|].
      rewrite <- Hmatch. apply Hnone. exact Hin.
    - unfold Dev.handleVerifyOTP.
      destruct (negb (truthy (Dev.getUserFromToken a n))); [split; assumption|].
      destruct (Dev.findDocument st _ _); [|split; assumption].
      destruct (Dev.otps st !! d) as [stored|]; [|split; assumption].
      destruct (_ <? _).
      { split; [exact Hnone|]. cbv zeta beta. cbn [snd Dev.otps Dev.set_otps].
        destruct (decide (d = id)) as [->|Hne];
          [apply lookup_delete_eq
           |etrans; [apply lookup_delete_ne; exact Hne|exact Hcode]]. }
      destruct (negb _); [split; assumption|].
      split; [exact Hnone|]. cbv zeta beta. cbn [snd Dev.otps Dev.set_otps].
      destruct (decide (d = id)) as [->|Hne];
        [apply lookup_delete_eq
           |etrans; [apply lookup_delete_ne; exact Hne|exact Hcode]].
    - unfold Dev.handleDeleteDocument.
      destruct (negb (truthy (Dev.getUserFromToken a n))); [split; assumption|].
      destruct (Dev.splice_first _ _ _) as [[gone rest]|] eqn:Esplice;
        [|split; assumption].
      destruct (splice_first_spec _ _ _ _ _ Esplice)
        as (_ & _ & before & behind & Hdocs & Hrest & _).
      cbn [snd Dev.documents Dev.otps Dev.set_otps Dev.set_documents]. split.
      + intros x Hx. apply Hnone. rewrite Hdocs. rewrite Hrest in Hx.
        apply List.in_app_or in Hx as [Hx|Hx]; apply List.in_or_app;
          [left|right; right]; exact Hx.
      + destruct (decide (i = id)) as [->|Hne];
          [apply lookup_delete_eq
           |etrans; [apply lookup_delete_ne; exact Hne|exact Hcode]]. }
  assert (Hrun : forall reqs st, Inv st -> Inv (fold_left (Dev.serve env) reqs st)).
  { induction reqs as [|req reqs IH]; intros st Hst; [exact Hst|].
    cbn [fold_left]. apply IH, Hstep, Hst. }
  intros auth' otp now'.
  apply dev_verify_without_code. apply (Hrun later s' Hstart).
Qed.

(** ** The order of timestamps written as text *)

Section TextOrder.

Import Clock.

Lemma ascii_compare_trans_gt (x b a : ascii) :
  Ascii.compare x b = Gt -> Ascii.compare b a <> Lt -> Ascii.compare x a = Gt.
Proof.
  unfold Ascii.compare. intros H1 H2.
  apply N.compare_gt_iff in H1. apply N.compare_gt_iff.
  destruct (N.compare_spec (N_of_ascii b) (N_of_ascii a)); [lia|congruence|lia].
Qed.

Lemma ascii_compare_eq (x y : ascii) : Ascii.compare x y = Eq -> x = y.
Proof.
  unfold Ascii.compare. intros H. apply N.compare_eq_iff in H.
  rewrite <- (ascii_N_embedding x), <- (ascii_N_embedding y), H. reflexivity.
Qed.

(** The byte order is transitive: what is greater than [b] is greater than
    everything that is not greater than [b]. *)
Lemma compare_trans_gt (x b a : string) :
  String.compare x b = Gt -> String.compare b a <> Lt ->
  String.compare x a = Gt.
Proof.
  revert b a. induction x as [|cx x IH]; intros [|cb b] [|ca a] H1 H2;
    cbn in *; try congruence.
  destruct (Ascii.compare cx cb) eqn:E1; try discriminate.
  - apply ascii_compare_eq in E1. subst cb.
    destruct (Ascii.compare cx ca) eqn:E2; try congruence.
    apply (IH b a); assumption.
  - destruct (Ascii.compare cb ca) eqn:E2; try congruence.
    + apply ascii_compare_eq in E2. subst ca. rewrite E1. reflexivity.
    + rewrite (ascii_compare_trans_gt cx cb ca); [reflexivity|exact E1|].
      rewrite E2. discriminate.
Qed.

Lemma clock_fields (ms : N) :
  ms < MS_PER_DAY ->
  ms / 3600000 < 100 /\ ms / 60000 mod 60 < 100 /\ ms / 1000 mod 60 < 100.
Proof. unfold MS_PER_DAY. intros H. repeat split; divmod. Qed.

Lemma seconds_of_fields (ms : N) :
  ms / 1000 = (ms / 3600000) * 3600 + (ms / 60000 mod 60) * 60 + ms / 1000 mod 60.
Proof. divmod. Qed.

(** Times of day written ["HH:MM:SS"] compare as text the way their seconds
    compare. *)
Lemma time_text_compare (ms1 ms2 : N) :
  ms1 < MS_PER_DAY -> ms2 < MS_PER_DAY ->
  String.compare (time_text ms1) (time_text ms2) = (ms1 / 1000 ?= ms2 / 1000).
Proof.
  intros H1 H2. unfold time_text.
  destruct (clock_fields ms1 H1) as (Hh1 & Hm1 & Hs1).
  destruct (clock_fields ms2 H2) as (Hh2 & Hm2 & Hs2).
  rewrite compare_append by reflexivity.
  rewrite (compare_append ":" ":") by reflexivity.
  rewrite (compare_append (pad2 _) (pad2 _)) by reflexivity.
  rewrite (compare_append ":" ":") by reflexivity.
  change (String.compare ":" ":") with Eq. cbv iota.
  rewrite !pad2_compare by assumption.
  pose proof (seconds_of_fields ms1) as E1.
  pose proof (seconds_of_fields ms2) as E2.
  assert (Hm1' : ms1 / 60000 mod 60 < 60) by (apply N.mod_upper_bound; lia).
  assert (Hm2' : ms2 / 60000 mod 60 < 60) by (apply N.mod_upper_bound; lia).
  assert (Hs1' : ms1 / 1000 mod 60 < 60) by (apply N.mod_upper_bound; lia).
  assert (Hs2' : ms2 / 1000 mod 60 < 60) by (apply N.mod_upper_bound; lia).
  set (h1 := ms1 / 3600000) in *. set (h2 := ms2 / 3600000) in *.
  set (m1 := ms1 / 60000 mod 60) in *. set (m2 := ms2 / 60000 mod 60) in *.
  set (s1 := ms1 / 1000 mod 60) in *. set (s2 := ms2 / 1000 mod 60) in *.
  clearbody h1 h2 m1 m2 s1 s2. rewrite E1, E2.
  destruct (N.compare_spec h1 h2); destruct (N.compare_spec m1 m2);
    destruct (N.compare_spec s1 s2); symmetry;
    first [ apply (proj2 (N.compare_eq_iff _ _)); lia
          | apply (proj2 (N.compare_lt_iff _ _)); lia
          | apply (proj2 (N.compare_gt_iff _ _)); lia ].
Qed.

Lemma key_compare (d1 d2 : N) :
  (key (civil_of_days d1) ?= key (civil_of_days d2)) = (d1 ?= d2).
Proof.
  destruct (N.compare_spec d1 d2) as [->|Hlt|Hgt].
  - apply N.compare_refl.
  - apply N.compare_lt_iff, key_strictly_increasing. exact Hlt.
  - apply N.compare_gt_iff, key_strictly_increasing. exact Hgt.
Qed.

Lemma seconds_of_instant (n : N) :
  n / 1000 = n / MS_PER_DAY * 86400 + n mod MS_PER_DAY / 1000
  /\ n mod MS_PER_DAY / 1000 < 86400.
Proof.
  unfold MS_PER_DAY. change 86400000 with (1000 * 86400).
  rewrite N.Div0.mod_mul_r, <- N.Div0.div_div.
  rewrite (N.mul_comm 1000), N.div_add by lia.
  rewrite (N.div_small (n mod 1000) 1000) by (apply N.mod_upper_bound; lia).
  split.
  - rewrite (N.div_mod (n / 1000) 86400) at 1 by lia. lia.
  - pose proof (N.mod_upper_bound (n / 1000) 86400). lia.
Qed.

(** What [datetime('now')] writes grows with the clock, second by second. *)
Lemma datetime_compare (n1 n2 : N) :
  n1 <= MAX_TIME -> n2 <= MAX_TIME ->
  String.compare (datetime n1) (datetime n2) = (n1 / 1000 ?= n2 / 1000).
Proof.
  intros H1 H2. unfold datetime.
  pose proof (day_of_time _ H1) as Hd1. pose proof (day_of_time _ H2) as Hd2.
  destruct (civil_small _ Hd1) as (Hy1 & Hmo1 & Hda1).
  destruct (civil_small _ Hd2) as (Hy2 & Hmo2 & Hda2).
  rewrite compare_append by reflexivity.
  rewrite date_text_compare by assumption.
  rewrite key_compare.
  rewrite (compare_append " " " ") by reflexivity.
  change (String.compare " " " ") with Eq. cbv iota.
  rewrite time_text_compare by (apply N.mod_upper_bound; unfold MS_PER_DAY; lia).
  destruct (seconds_of_instant n1) as [E1 B1].
  destruct (seconds_of_instant n2) as [E2 B2].
  rewrite E1, E2.
  set (d1 := n1 / MS_PER_DAY). set (d2 := n2 / MS_PER_DAY).
  set (s1 := n1 mod MS_PER_DAY / 1000) in *.
  set (s2 := n2 mod MS_PER_DAY / 1000) in *.
  clearbody d1 d2 s1 s2. clear -B1 B2.
  destruct (N.compare_spec d1 d2); [destruct (N.compare_spec s1 s2)| |];
    symmetry;
    first [ apply (proj2 (N.compare_eq_iff _ _)); lia
          | apply (proj2 (N.compare_lt_iff _ _)); lia
          | apply (proj2 (N.compare_gt_iff _ _)); lia ].
Qed.

Lemma datetime_monotone (n1 n2 : N) :
  n1 <= n2 -> n2 <= MAX_TIME ->
  String.compare (datetime n2) (datetime n1) <> Lt.
Proof.
  intros Hle H2.
  assert (H1 : n1 <= MAX_TIME) by (apply N.le_trans with n2; assumption).
  rewrite datetime_compare by assumption.
  intros Hlt. apply (proj1 (N.compare_lt_iff _ _)) in Hlt.
  pose proof (N.Div0.div_le_mono n1 n2 1000 Hle). lia.
Qed.

(** The test of the sweep, [expires_at < datetime('now')], on an expiry
    written by [toISOString]: it holds exactly when the expiry lies on an
    earlier UTC day. *)
Lemma sweep_test_by_day (e n : N) :
  e <= MAX_TIME -> n <= MAX_TIME ->
  Prod.text_lt (toISOString e) (datetime n) = true
  <-> e / MS_PER_DAY < n / MS_PER_DAY.
Proof.
  intros He Hn. apply day_of_time in He, Hn.
  destruct (civil_small _ He) as (Hy1 & Hm1 & Hd1).
  destruct (civil_small _ Hn) as (Hy2 & Hm2 & Hd2).
  unfold Prod.text_lt, toISOString, datetime.
  rewrite compare_append by reflexivity.
  rewrite date_text_compare by assumption.
  rewrite key_compare.
  destruct (N.compare_spec (e / MS_PER_DAY) (n / MS_PER_DAY)) as [Heq|Hlt|Hgt].
  - rewrite !append_cons. cbn [String.compare].
    change (Ascii.compare "T" " ") with Gt. cbv iota.
    split; [discriminate|lia].
  - split; [intros _; exact Hlt|reflexivity].
  - split; [discriminate|lia].
Qed.

End TextOrder.

(** ** The sweep and the revocation of codes *)

Lemma filter_filter_impl {A : Type} (f g : A -> bool) (l : list A) :
  (forall x, In x l -> f x = true -> g x = true) ->
  List.filter f (List.filter g l) = List.filter f l.
Proof.
  induction l as [|a l IH]; intros H; [reflexivity|].
  cbn [List.filter].
  assert (IH' : List.filter f (List.filter g l) = List.filter f l)
    by (apply IH; intros x Hx; apply H; right; exact Hx).
  destruct (g a) eqn:Eg; cbn [List.filter].
  - rewrite IH'. reflexivity.
  - destruct (f a) eqn:Ef; [|exact IH'].
    rewrite (H a (or_introl eq_refl) Ef) in Eg. discriminate.
Qed.

Lemma filter_sublist {A : Type} (f : A -> bool) (l : list A) :
  sublist (List.filter f l) l.
Proof.
  induction l as [|a l IH]; [constructor|].
  cbn. destruct (f a); constructor; exact IH.
Qed.

Lemma filter_partition_length {A : Type} (f : A -> bool) (l : list A) :
  (length (List.filter (fun x => negb (f x)) l) + length (List.filter f l))%nat
  = length l.
Proof.
  induction l as [|a l IH]; [reflexivity|].
  cbn [List.filter]. destruct (f a); cbn [negb length]; lia.
Qed.

Lemma text_gt_not_lt (a b : string) :
  Prod.text_gt a b = true -> Prod.text_lt a b = false.
Proof.
  unfold Prod.text_gt, Prod.text_lt. destruct (String.compare a b);
    congruence.
Qed.

(** X1. The hourly sweep never removes a code that a later verification
    would accept: after [cleanup] at [sweep], the lookup of every account,
    code and purpose at every later instant returns what it would have
    returned without the sweep. *)
Theorem cleanup_keeps_verifiable_codes (db : Prod.Db) (sweep now : N)
    (uid code purpose : string) :
  sweep <= now -> now <= Clock.MAX_TIME ->
  Prod.otpService.findValidSession (Prod.otpService.cleanup db sweep).1 uid
    code purpose now
  = Prod.otpService.findValidSession db uid code purpose now.
Proof.
  intros Hle Hmax. unfold Prod.otpService.findValidSession,
    Prod.otpService.cleanup.
  cbn [fst Prod.otp_sessions Prod.set_otp_sessions]. f_equal.
  apply filter_filter_impl. intros row _ Hvalid.
  apply valid_for_spec in Hvalid as (_ & _ & _ & Hused & Hgt).
  rewrite Hused. cbn [orb]. apply negb_true_iff.
  apply text_gt_not_lt. unfold Prod.text_gt in *.
  destruct (String.compare (Prod.OTPSession.expires_at row)
              (Clock.datetime now)) eqn:E; try discriminate.
  rewrite (compare_trans_gt _ _ (Clock.datetime sweep) E); [reflexivity|].
  apply datetime_monotone; assumption.
Qed.

Lemma cleanup_keeps_verifiable_codes_witness :
  Prod.otpService.findValidSession
    (Prod.otpService.cleanup Scenario.db_twice (Scenario.noon - 1000)).1
    "u1" "123456" "document_download" Scenario.noon
  = Prod.otpService.findValidSession Scenario.db_twice "u1" "123456"
      "document_download" Scenario.noon.
Proof.
  refine (cleanup_keeps_verifiable_codes Scenario.db_twice
            (Scenario.noon - 1000) Scenario.noon "u1" "123456"
            "document_download" _ _).
  - vm_compute. discriminate.
  - vm_compute. discriminate.
Defined.

(** X2. Which rows the sweep removes.  An unconsumed row whose expiry was
    written by [toISOString] survives [cleanup] exactly when its expiry does
    not lie on an earlier UTC day than the sweep: a code that expired earlier
    on the day of the sweep stays in the ledger. *)
Theorem cleanup_sweeps_by_day (db : Prod.Db) (now e : N)
    (row : Prod.OTPSession.t) :
  e <= Clock.MAX_TIME -> now <= Clock.MAX_TIME ->
  Prod.OTPSession.expires_at row = Clock.toISOString e ->
  Prod.OTPSession.used row = false ->
  In row (Prod.otp_sessions db) ->
  In row (Prod.otp_sessions (Prod.otpService.cleanup db now).1)
  <-> now / Clock.MS_PER_DAY <= e / Clock.MS_PER_DAY.
Proof.
  intros He Hn Htext Hused Hin. unfold Prod.otpService.cleanup.
  cbn [fst Prod.otp_sessions Prod.set_otp_sessions].
  rewrite List.filter_In, Hused, Htext. cbn [orb].
  rewrite negb_true_iff.
  pose proof (sweep_test_by_day e now He Hn) as Hday.
  destruct (Prod.text_lt (Clock.toISOString e) (Clock.datetime now)).
  - split; [intros [_ H]; discriminate|].
    intros Hle. assert (e / Clock.MS_PER_DAY < now / Clock.MS_PER_DAY)
      by (apply Hday; reflexivity). lia.
  - split; [intros _|auto].
    destruct (N.le_gt_cases (now / Clock.MS_PER_DAY) (e / Clock.MS_PER_DAY))
      as [|Hlt]; [assumption|].
    apply Hday in Hlt. discriminate.
Qed.

Lemma cleanup_sweeps_by_day_witness :
  In Scenario.row1
    (Prod.otp_sessions
       (Prod.otpService.cleanup Scenario.db_issued
          (Scenario.noon + 3600000)).1)
  <-> (Scenario.noon + 3600000) / Clock.MS_PER_DAY
      <= Scenario.noon / Clock.MS_PER_DAY.
Proof.
  refine (cleanup_sweeps_by_day Scenario.db_issued (Scenario.noon + 3600000)
            Scenario.noon Scenario.row1 _ _ _ _ _).
  - vm_compute. discriminate.
  - vm_compute. discriminate.
  - reflexivity.
  - reflexivity.
  - left. reflexivity.
Defined.

(** X3. The bookkeeping of the sweep: the number it returns is the number of
    rows that left the ledger, no consumed row remains, accounts are not
    touched, and a second sweep at the same instant removes nothing. *)
Theorem cleanup_accounting (db : Prod.Db) (now : N) :
  let swept := Prod.otpService.cleanup db now in
  (length (Prod.otp_sessions swept.1) + swept.2)%nat
  = length (Prod.otp_sessions db)
  /\ (forall row, In row (Prod.otp_sessions swept.1) ->
        In row (Prod.otp_sessions db) /\ Prod.OTPSession.used row = false)
  /\ Prod.users swept.1 = Prod.users db
  /\ Prod.otpService.cleanup swept.1 now = (swept.1, 0%nat).
Proof.
  unfold Prod.otpService.cleanup.
  cbn [fst snd Prod.otp_sessions Prod.set_otp_sessions Prod.users].
  set (gone := fun row : Prod.OTPSession.t =>
                 Prod.OTPSession.used row
                 || Prod.text_lt (Prod.OTPSession.expires_at row)
                      (Clock.datetime now)).
  repeat split.
  - apply filter_partition_length.
  - apply List.filter_In in H. tauto.
  - apply List.filter_In in H as [_ H]. apply negb_true_iff in H.
    unfold gone in H. apply orb_false_iff in H. tauto.
  - unfold Prod.set_otp_sessions. cbn [Prod.users Prod.otp_sessions].
    f_equal.
    + f_equal. transitivity
        (List.filter (fun row => negb (gone row))
           (List.filter (fun row => negb (gone row)) (Prod.otp_sessions db))).
      * reflexivity.
      * apply filter_filter_impl. auto.
    + rewrite filter_nil; [reflexivity|].
      intros row Hrow. apply List.filter_In in Hrow as [_ Hrow].
      apply negb_true_iff in Hrow. exact Hrow.
Qed.

(** X4. Revoking the codes of an account.  [deleteUserSessions] called
    without a purpose (or with the empty string, which counts as none)
    deletes the rows of the account, and called with a purpose the rows of
    the account for that purpose: exactly these rows leave the ledger, the
    others stay in their order, and the accounts are not touched.  So no
    code of the account verifies for the purpose any more, the lookups of
    every other account are what they were, and the number returned is the
    number of rows removed. *)
Theorem deleteUserSessions_revokes (db : Prod.Db) (uid : string)
    (purpose : option string) (p : string) :
  truthy purpose = false \/ purpose = Some p ->
  let out := Prod.otpService.deleteUserSessions db uid purpose in
  let revoked row :=
    Prod.OTPSession.user_id row = uid
    /\ (truthy purpose = false \/ Prod.OTPSession.purpose row = p) in
  (forall row, In row (Prod.otp_sessions out.1)
     <-> In row (Prod.otp_sessions db) /\ ~ revoked row)
  /\ sublist (Prod.otp_sessions out.1) (Prod.otp_sessions db)
  /\ Prod.users out.1 = Prod.users db
  /\ (forall code now,
        Prod.otpService.findValidSession out.1 uid code p now = None)
  /\ (forall other code q now, other <> uid ->
        Prod.otpService.findValidSession out.1 other code q now
        = Prod.otpService.findValidSession db other code q now)
  /\ (length (Prod.otp_sessions out.1) + out.2)%nat
     = length (Prod.otp_sessions db).
Proof.
  intros Hp. unfold Prod.otpService.deleteUserSessions.
  cbn [fst snd Prod.otp_sessions Prod.set_otp_sessions Prod.users].
  split; [|split; [apply filter_sublist|split; [reflexivity|repeat split]]].
  - intros row. rewrite List.filter_In, negb_true_iff.
    assert (Hgone : String.eqb (Prod.OTPSession.user_id row) uid
                    && (if truthy purpose
                        then String.eqb (Prod.OTPSession.purpose row)
                               (default "" purpose)
                        else true) = true
                    <-> Prod.OTPSession.user_id row = uid
                        /\ (truthy purpose = false
                            \/ Prod.OTPSession.purpose row = p)).
    { rewrite andb_true_iff, String.eqb_eq.
      destruct (truthy purpose) eqn:Et.
      - destruct Hp as [Hp | ->]; [discriminate|].
        cbn [default from_option id]. rewrite String.eqb_eq.
        intuition discriminate.
      - intuition. }
    destruct (String.eqb (Prod.OTPSession.user_id row) uid
              && (if truthy purpose
                  then String.eqb (Prod.OTPSession.purpose row)
                         (default "" purpose)
                  else true)) eqn:E.
    + split; [intros [_ H]; discriminate|].
      intros [_ Hnot]. exfalso. apply Hnot, Hgone. reflexivity.
    + split; [|tauto]. intros [Hin _]. split; [exact Hin|].
      intros Hrev. apply Hgone in Hrev. discriminate.
  - intros code now. unfold Prod.otpService.findValidSession.
    cbn [Prod.otp_sessions]. rewrite filter_nil; [reflexivity|].
    intros row Hrow. apply List.filter_In in Hrow as [_ Hkept].
    apply negb_true_iff in Hkept.
    destruct (Prod.otpService.valid_for uid code p now row) eqn:E;
      [|reflexivity].
    apply valid_for_spec in E as (Hu & _ & Hpurpose & _).
    rewrite Hu, String.eqb_refl in Hkept. cbn [andb] in Hkept.
    destruct Hp as [Hp | ->].
    + rewrite Hp in Hkept. discriminate.
    + destruct (truthy (Some p)); [|discriminate].
      cbn [default from_option id] in Hkept.
      rewrite Hpurpose, String.eqb_refl in Hkept. discriminate.
  - intros other code q now Hother. unfold Prod.otpService.findValidSession.
    cbn [Prod.otp_sessions]. f_equal. apply filter_filter_impl.
    intros row _ Hvalid. apply valid_for_spec in Hvalid as (Hu & _).
    apply negb_true_iff. rewrite Hu.
    apply String.eqb_neq in Hother. rewrite Hother. reflexivity.
  - apply filter_partition_length.
Qed.

Lemma deleteUserSessions_revokes_witness :
  Prod.otpService.findValidSession
    (Prod.otpService.deleteUserSessions Scenario.db_twice "u1" None).1
    "u1" "123456" "document_download" Scenario.noon = None.
Proof.
  refine (proj1 (proj2 (proj2 (proj2
            (deleteUserSessions_revokes Scenario.db_twice "u1" None
               "document_download" _)))) "123456" Scenario.noon).
  left. reflexivity.
Defined.

(** ** The ledger over a run of the server *)

(** What a step-up request does to the database: nothing, or it inserts
    one row for the caller. *)
Lemma prod_request_effect
    (bcrypt_compare : string -> string -> bool) (env : Env.t) (db : Prod.Db)
    (password : option string) (auth : AuthHeader) (now r : N)
    (suffix : string) (prov : Providers) :
  (Prod.handleVerifyPasswordForDownload bcrypt_compare env db password auth
     now r suffix prov).1.2 = db
  \/ exists uid id,
       Prod.otpService.create db uid (generateOTP r) "document_download"
         (Clock.toISOString (now + FIVE_MINUTES)) now suffix
       = Some ((Prod.handleVerifyPasswordForDownload bcrypt_compare env db
                  password auth now r suffix prov).1.2, id).
Proof.
  unfold Prod.handleVerifyPasswordForDownload.
  destruct (negb (truthy password)); [left; reflexivity|].
  destruct auth as [| |uid exp]; try (left; reflexivity).
  destruct (exp <? now); [left; reflexivity|].
  destruct (Prod.userService.findById db uid) as [user|]; [|left; reflexivity].
  destruct (negb (bcrypt_compare _ _)); [left; reflexivity|].
  destruct (negb (Prod.isConfigured env)); [left; reflexivity|].
  destruct (Prod.otpService.create _ _ _ _ _ _ _) as [[db' id]|] eqn:E;
    [|left; reflexivity].
  right. exists (User.id user), id.
  destruct (Prod.sendOTPToEmailAndPhone _ _ _ _ _ _) as [res sent].
  destruct (negb (Prod.OTPResult.success res)); rewrite E; reflexivity.
Qed.

Lemma create_user_exists (db db' : Prod.Db)
    (uid code purpose expires suffix id : string) (now : N) :
  Prod.otpService.create db uid code purpose expires now suffix
  = Some (db', id) ->
  exists user, In user (Prod.users db) /\ User.id user = uid.
Proof.
  unfold Prod.otpService.create. intros H.
  destruct (existsb _ (Prod.otp_sessions db)); [discriminate|].
  destruct (existsb _ (Prod.users db)) eqn:E; [|discriminate].
  apply List.existsb_exists in E as (user & Hin & Heq).
  apply String.eqb_eq in Heq. eauto.
Qed.

Lemma NoDup_map_filter {A B : Type} (f : A -> B) (g : A -> bool)
    (l : list A) :
  NoDup (map f l) -> NoDup (map f (List.filter g l)).
Proof.
  induction l as [|a l IH]; intros H; [exact H|].
  cbn in H. apply List.NoDup_cons_iff in H as [Hnot H].
  cbn [List.filter]. destruct (g a); [|apply IH; exact H].
  cbn [map]. apply List.NoDup_cons; [|apply IH; exact H].
  intros Hin. apply Hnot. apply List.in_map_iff in Hin as (x & Hx & Hin).
  apply List.filter_In in Hin as [Hin _].
  apply List.in_map_iff. eauto.
Qed.

Lemma mark_rows_ids (id : string) (rows : list Prod.OTPSession.t) :
  map Prod.OTPSession.id
    (map (fun row => if Prod.otpService.has_id id row
                     then Prod.otpService.mark row else row) rows)
  = map Prod.OTPSession.id rows.
Proof.
  rewrite List.map_map. apply List.map_ext. intros row.
  destruct (Prod.otpService.has_id id row); reflexivity.
Qed.

Lemma well_keyed_step
    (bcrypt_compare : string -> string -> bool) (env : Env.t) (db : Prod.Db)
    (ev : Prod.Event) :
  Prod.WellKeyed db ->
  Prod.WellKeyed (Prod.step bcrypt_compare env db ev)
  /\ sublist (Prod.users (Prod.step bcrypt_compare env db ev))
       (Prod.users db).
Proof.
  intros [Hkey Hfk]. destruct ev as [password auth now r suffix prov
                                    |otp auth now|auth|now]; cbn [Prod.step].
  - destruct (prod_request_effect bcrypt_compare env db password auth now r
                suffix prov) as [->|(uid & id & Hcreate)];
      [split; [split; assumption|reflexivity]|].
    destruct (create_user_exists _ _ _ _ _ _ _ _ _ Hcreate) as (user & Hu & Hid).
    apply (create_keeps_key _ _ _ _ _ _ _ _ _ Hkey) in Hcreate
      as (Hrows & _ & Husers & _ & Hkey').
    split; [split; [exact Hkey'|]|rewrite Husers; reflexivity].
    intros row Hrow. rewrite Hrows in Hrow. rewrite Husers.
    apply List.in_app_or in Hrow as [Hrow|[<-|[]]]; [auto|].
    exists user. auto.
  - destruct (prod_verify_effect db otp auth now)
      as [->|(uid & code & row0 & _ & _ & ->)];
      [split; [split; assumption|reflexivity]|].
    unfold Prod.WellKeyed, Prod.otpService.markAsUsed.
    cbn [fst Prod.otp_sessions Prod.set_otp_sessions Prod.users].
    split; [split|reflexivity].
    + rewrite mark_rows_ids. exact Hkey.
    + intros row Hrow. apply List.in_map_iff in Hrow as (row1 & <- & Hin).
      destruct (Hfk row1 Hin) as (user & Hu & Hid). exists user.
      split; [exact Hu|].
      destruct (Prod.otpService.has_id _ row1); exact Hid.
  - unfold Prod.handleDeleteAccount.
    destruct auth as [| |uid exp];
      try (split; [split; assumption|reflexivity]).
    destruct (Prod.userService.findById db uid) as [user|];
      [|split; [split; assumption|reflexivity]].
    unfold Prod.WellKeyed, Prod.userService.delete.
    cbn [fst snd Prod.otp_sessions Prod.users].
    split; [split|apply filter_sublist].
    + apply NoDup_map_filter. exact Hkey.
    + intros row Hrow. apply List.filter_In in Hrow as [Hrow Hkept].
      destruct (Hfk row Hrow) as (owner & Hu & Hid). exists owner.
      split; [|exact Hid]. apply List.filter_In. split; [exact Hu|].
      rewrite Hid. exact Hkept.
  - unfold Prod.WellKeyed, Prod.otpService.cleanup.
    cbn [fst Prod.otp_sessions Prod.set_otp_sessions Prod.users].
    split; [split|reflexivity].
    + apply NoDup_map_filter. exact Hkey.
    + intros row Hrow. apply List.filter_In in Hrow as [Hrow _]. auto.
Qed.

(** X5. The constraints of the schema hold along every run.  Starting from
    a ledger whose ids are distinct and whose rows belong to existing
    accounts, any sequence of step-up requests, verification requests,
    account deletions and sweeps leaves a ledger with distinct ids whose
    rows belong to existing accounts; the deletion of an account takes its
    codes with it.  No event adds or changes an account. *)
Theorem ledger_stays_well_keyed
    (bcrypt_compare : string -> string -> bool) (env : Env.t)
    (events : list Prod.Event) (db : Prod.Db) :
  Prod.WellKeyed db ->
  Prod.WellKeyed (Prod.run bcrypt_compare env db events)
  /\ sublist (Prod.users (Prod.run bcrypt_compare env db events))
       (Prod.users db).
Proof.
  revert db. induction events as [|ev events IH]; intros db Hok;
    [split; [exact Hok|reflexivity]|].
  cbn [Prod.run fold_left].
  destruct (well_keyed_step bcrypt_compare env db ev Hok) as [Hok' Husers].
  destruct (IH _ Hok') as [Hfinal Husers'].
  split; [exact Hfinal|]. etrans; [exact Husers'|exact Husers].
Qed.

Lemma ledger_stays_well_keyed_witness :
  Prod.WellKeyed
    (Prod.run Scenario.bcrypt_compare Scenario.configured Scenario.db_issued
       [Prod.VerifyPassword (Some "correct horse") Scenario.session
          (Scenario.noon - 1000) 554321 "q1w2e3r4t" Scenario.both_accept;
        Prod.VerifyDownloadOTP (Some "123456") Scenario.session
          Scenario.noon;
        Prod.CleanupTimer (Scenario.noon + 1000);
        Prod.DeleteAccount Scenario.session]).
Proof.
  refine (proj1 (ledger_stays_well_keyed Scenario.bcrypt_compare
                   Scenario.configured _ Scenario.db_issued _)).
  split.
  - apply List.NoDup_cons; [intros []|apply List.NoDup_nil].
  - intros row [<-|[]]. exists Scenario.alice.
    split; [left; reflexivity|reflexivity].
Defined.

(** ** A step-up request whose delivery fails *)

Lemma create_fresh (db : Prod.Db) (user : User.t)
    (code purpose expires suffix : string) (now : N) :
  In user (Prod.users db) ->
  existsb (Prod.otpService.has_id (newId now suffix)) (Prod.otp_sessions db)
  = false ->
  Prod.otpService.create db (User.id user) code purpose expires now suffix
  = Some (Prod.set_otp_sessions db
            (Prod.otp_sessions db ++
             [Prod.OTPSession.mk (newId now suffix) (User.id user) code
                purpose expires false (Clock.datetime now)])%list,
          newId now suffix).
Proof.
  intros Hin Hfresh. unfold Prod.otpService.create. rewrite Hfresh.
  replace (existsb _ (Prod.users db)) with true; [reflexivity|].
  symmetry. apply List.existsb_exists. exists user.
  split; [exact Hin|apply String.eqb_refl].
Qed.

(** X6. What is left behind when the code cannot be delivered.  For a
    request with the right password whose mail and SMS hand-offs both throw:
    with an incomplete configuration the handler answers 503 before it
    generates anything and the ledger is as it was; with a complete one it
    answers 500, but the row it inserted before sending stays, and the code
    that reached nobody is accepted by the verification request until it
    expires. *)
Theorem failed_delivery_leaves_usable_code
    (bcrypt_compare : string -> string -> bool) (env : Env.t) (db : Prod.Db)
    (pw uid suffix : string) (user : User.t) (exp now later r : N)
    (prov : Providers) :
  pw <> "" -> now <= exp -> later <= exp ->
  Prod.userService.findById db uid = Some user ->
  bcrypt_compare pw (User.password user) = true ->
  mail prov = Threw -> sms prov = Threw ->
  existsb (Prod.otpService.has_id (newId now suffix)) (Prod.otp_sessions db)
  = false ->
  now + FIVE_MINUTES <= Clock.MAX_TIME -> later < now + FIVE_MINUTES ->
  let reply :=
    Prod.handleVerifyPasswordForDownload bcrypt_compare env db (Some pw)
      (Bearer uid exp) now r suffix prov in
  if Prod.isConfigured env then
    reply.1.1.1 = 500 /\ AuthResponse.success reply.1.1.2 = false
    /\ reply.2 = []
    /\ Prod.otp_sessions reply.1.2
       = (Prod.otp_sessions db ++
          [Prod.OTPSession.mk (newId now suffix) uid (generateOTP r)
             "document_download" (Clock.toISOString (now + FIVE_MINUTES))
             false (Clock.datetime now)])%list
    /\ (Prod.handleVerifyDownloadOTP reply.1.2 (Some (generateOTP r))
          (Bearer uid exp) later).1
       = (200, AuthResponse.mk true "OTP verified successfully")
  else
    reply.1.1.1 = 503 /\ AuthResponse.success reply.1.1.2 = false
    /\ reply.2 = [] /\ reply.1.2 = db.
Proof.
  intros Hpw Hexp Hexp' Hfind Hok Hmail Hsms Hfresh Hmax Hlater reply.
  subst reply. destruct (find_by_id User.id _ _ _ Hfind) as [Hid Hin].
  unfold Prod.handleVerifyPasswordForDownload. enter_handler.
  destruct (Prod.isConfigured env) eqn:Hconf; cbn [negb];
    [|cbn; auto].
  rewrite (create_fresh db user _ _ _ _ _ Hin Hfresh).
  assert (Hsend : Prod.sendOTPToEmailAndPhone env prov (User.email user)
                    (User.phone user) (generateOTP r) "document download"
                  = (Prod.OTPResult.mk false
                       "Failed to send OTP to both email and phone. Please try again later."
                       false false
                       (Some "Email: Failed to send email. Please try again later., SMS: Failed to send SMS. Please check your phone number."),
                     [])).
  { unfold Prod.sendOTPToEmailAndPhone, Prod.sendOTPEmail, Prod.sendOTPSMS,
      Prod.emailTransporter, Prod.twilioClient.
    unfold Prod.isConfigured in Hconf |- *.
    repeat (apply andb_true_iff in Hconf as [Hconf ?]).
    repeat match goal with H : truthy _ = true |- _ => rewrite H; clear H end.
    rewrite Hmail, Hsms. reflexivity. }
  rewrite Hsend. cbn [Prod.OTPResult.success negb fst snd
    AuthResponse.success Prod.otp_sessions Prod.set_otp_sessions].
  rewrite Hid. repeat (split; [reflexivity|]).
  set (row := Prod.OTPSession.mk _ _ _ _ _ _ _).
  set (db' := Prod.set_otp_sessions db _).
  assert (Hfind' : Prod.userService.findById db' uid = Some user)
    by exact Hfind.
  assert (Hvalid : Prod.otpService.valid_for (User.id user) (generateOTP r)
                     "document_download" later row = true).
  { apply valid_for_spec. subst row. cbn. rewrite Hid.
    repeat (split; [reflexivity|]).
    apply unexpired_passes_expiry_test; assumption. }
  destruct (findValidSession_complete db' (User.id user) (generateOTP r)
              "document_download" later row) as [found Hfound];
    [subst db'; cbn; apply List.in_or_app; right; left; reflexivity
    |exact Hvalid|].
  rewrite (prod_verify_success db' uid (generateOTP r) user exp later found
             (generateOTP_nonempty r) Hexp' Hfind' Hfound).
  reflexivity.
Qed.

Lemma failed_delivery_leaves_usable_code_witness :
  let reply :=
    Prod.handleVerifyPasswordForDownload Scenario.bcrypt_compare
      Scenario.configured Scenario.db0 (Some "correct horse")
      Scenario.session Scenario.noon 23456 "k3x9q0a1z" Scenario.both_throw in
  reply.1.1.1 = 500
  /\ (Prod.handleVerifyDownloadOTP reply.1.2 (Some (generateOTP 23456))
        Scenario.session (Scenario.noon + 60000)).1
     = (200, AuthResponse.mk true "OTP verified successfully").
Proof.
  pose proof (failed_delivery_leaves_usable_code Scenario.bcrypt_compare
                Scenario.configured Scenario.db0 "correct horse" "u1"
                "k3x9q0a1z" Scenario.alice (Scenario.noon + 86400000)
                Scenario.noon (Scenario.noon + 60000) 23456
                Scenario.both_throw) as H.
  cbv zeta in H. change (Prod.isConfigured Scenario.configured) with true in H.
  cbv iota in H.
  refine ((fun H' => conj (proj1 H') (proj2 (proj2 (proj2 (proj2 H')))))
            (H _ _ _ _ _ _ _ _ _ _)).
  - discriminate.
  - vm_compute. discriminate.
  - vm_compute. discriminate.
  - reflexivity.
  - reflexivity.
  - reflexivity.
  - reflexivity.
  - reflexivity.
  - vm_compute. discriminate.
  - vm_compute. reflexivity.
Defined.

(** ** Deleting an account of the database *)

(** X28. Deleting an account takes its codes with it.  The handler does
    not look at the expiry of the token: for the token of an existing
    account, whatever its expiry, the reply is 200; afterwards no account
    has the id, no row of the ledger references it, so no code of the
    account is ever found again, and the accounts and codes of everybody
    else are as before. *)
Theorem prod_delete_account_revokes_codes (db : Prod.Db) (uid : string)
    (user : User.t) (exp : N) :
  Prod.userService.findById db uid = Some user ->
  let out := Prod.handleDeleteAccount db (Bearer uid exp) in
  out.1 = (200, AuthResponse.mk true "Account deleted successfully")
  /\ Prod.userService.findById out.2 uid = None
  /\ (forall row, In row (Prod.otp_sessions out.2) ->
        Prod.OTPSession.user_id row <> uid)
  /\ (forall code purpose now,
        Prod.otpService.findValidSession out.2 uid code purpose now = None)
  /\ (forall other, other <> uid ->
        Prod.userService.findById out.2 other
        = Prod.userService.findById db other)
  /\ (forall other code purpose now, other <> uid ->
        Prod.otpService.findValidSession out.2 other code purpose now
        = Prod.otpService.findValidSession db other code purpose now).
Proof.
  intros Hfind out. subst out. unfold Prod.handleDeleteAccount.
  rewrite Hfind. destruct (find_by_id User.id _ _ _ Hfind) as [Hid _].
  unfold Prod.userService.delete, Prod.userService.findById,
    Prod.otpService.findValidSession.
  cbn [fst snd Prod.users Prod.otp_sessions]. rewrite Hid.
  split; [reflexivity|]. split; [|split; [|split; [|split]]].
  - destruct (List.find _ (List.filter _ _)) as [u|] eqn:Hu; [|reflexivity].
    apply List.find_some in Hu as [Hu Heq].
    apply List.filter_In in Hu as [_ Hu]. rewrite Heq in Hu. discriminate.
  - intros row Hrow. apply List.filter_In in Hrow as [_ Hrow].
    apply negb_true_iff, String.eqb_neq in Hrow. exact Hrow.
  - intros code purpose now. rewrite filter_nil; [reflexivity|].
    intros row Hrow. apply List.filter_In in Hrow as [_ Hrow].
    apply negb_true_iff in Hrow. unfold Prod.otpService.valid_for.
    rewrite Hrow. reflexivity.
  - intros other Hother.
    induction (Prod.users db) as [|u users IH]; [reflexivity|].
    cbn [List.filter List.find].
    destruct (String.eqb_spec (User.id u) uid) as [Heq|Hne]; cbn [negb].
    + rewrite Heq. apply String.eqb_neq in Hother.
      rewrite String.eqb_sym, Hother. exact IH.
    + cbn [List.find]. destruct (String.eqb (User.id u) other);
        [reflexivity|exact IH].
  - intros other code purpose now Hother. f_equal.
    apply filter_filter_impl. intros row _ Hvalid.
    apply valid_for_spec in Hvalid as (Hu & _). apply negb_true_iff.
    rewrite Hu. apply String.eqb_neq. exact Hother.
Qed.

Lemma prod_delete_account_revokes_codes_witness :
  (Prod.handleDeleteAccount Scenario.db_twice
     (Bearer "u1" (Scenario.noon - 1))).1
  = (200, AuthResponse.mk true "Account deleted successfully").
Proof.
  refine (proj1 (prod_delete_account_revokes_codes Scenario.db_twice "u1"
                   Scenario.alice (Scenario.noon - 1) _)).
  reflexivity.
Defined.

(** ** Configuration of the delivery services *)

Lemma isConfigured_transporters (env : Env.t) :
  Prod.emailTransporter env = Prod.isConfigured env
  /\ Prod.twilioClient env = Prod.isConfigured env.
Proof.
  unfold Prod.emailTransporter, Prod.twilioClient, Prod.isConfigured.
  destruct (truthy (Env.SMTP_HOST env)), (truthy (Env.SMTP_PORT env)),
    (truthy (Env.SMTP_USER env)), (truthy (Env.SMTP_PASS env)),
    (truthy (Env.TWILIO_ACCOUNT_SID env)),
    (truthy (Env.TWILIO_AUTH_TOKEN env)),
    (truthy (Env.TWILIO_PHONE_NUMBER env)); split; reflexivity.
Qed.

(** X7. The report of the database-backed sender tells what was handed to
    the providers.  Both channels are set up only under a complete
    configuration, so with any of the seven variables missing nothing is
    sent whatever the providers would do; [emailSent] and [smsSent] are true
    exactly for the hand-offs that were accepted, [success] is their
    disjunction, the SMS goes to the number in its [+] form, and [error] is
    set exactly on failure. *)
Theorem prod_delivery_report (env : Env.t) (prov : Providers)
    (email phone otp purpose : string) :
  let out := Prod.sendOTPToEmailAndPhone env prov email phone otp purpose in
  out.2
  = ((if Prod.OTPResult.emailSent out.1
      then [EmailTo email otp purpose] else [])
     ++ (if Prod.OTPResult.smsSent out.1
         then [SmsTo (Prod.formattedPhone phone) otp purpose] else []))%list
  /\ Prod.OTPResult.emailSent out.1
     = Prod.isConfigured env
       && match mail prov with Accepted => true | Threw => false end
  /\ Prod.OTPResult.smsSent out.1
     = Prod.isConfigured env
       && match sms prov with Accepted => true | Threw => false end
  /\ Prod.OTPResult.success out.1
     = Prod.OTPResult.emailSent out.1 || Prod.OTPResult.smsSent out.1
  /\ (Prod.OTPResult.error out.1 = None
      <-> Prod.OTPResult.success out.1 = true).
Proof.
  destruct (isConfigured_transporters env) as [He Hs].
  unfold Prod.sendOTPToEmailAndPhone, Prod.sendOTPEmail, Prod.sendOTPSMS.
  rewrite He, Hs.
  destruct (Prod.isConfigured env), (mail prov), (sms prov); cbn;
    repeat split; intros; congruence.
Qed.

(** X8. The report of the in-memory sender.  The code is written to the
    server console on every call, also when both channels deliver.  An
    e-mail is handed over exactly when [SMTP_USER] and [SMTP_PASS] are set
    and the provider accepts it, an SMS exactly when the three Twilio
    variables are set and the provider accepts it; [success] is the
    disjunction of the two. *)
Theorem dev_delivery_report (env : Env.t) (prov : Providers)
    (email phone otp purpose : string) :
  let out := Dev.sendOTPToEmailAndPhone env prov email phone otp purpose in
  out.2
  = (ConsoleOtp otp
     :: (if Dev.OTPResult.emailSent out.1
         then [EmailTo email otp purpose] else [])
     ++ (if Dev.OTPResult.smsSent out.1
         then [SmsTo phone otp purpose] else []))%list
  /\ Dev.OTPResult.emailSent out.1
     = truthy (Env.SMTP_USER env) && truthy (Env.SMTP_PASS env)
       && match mail prov with Accepted => true | Threw => false end
  /\ Dev.OTPResult.smsSent out.1
     = truthy (Env.TWILIO_ACCOUNT_SID env)
       && truthy (Env.TWILIO_AUTH_TOKEN env)
       && truthy (Env.TWILIO_PHONE_NUMBER env)
       && match sms prov with Accepted => true | Threw => false end
  /\ Dev.OTPResult.success out.1
     = Dev.OTPResult.emailSent out.1 || Dev.OTPResult.smsSent out.1.
Proof.
  unfold Dev.sendOTPToEmailAndPhone, Dev.sendOTPEmail, Dev.sendOTPSMS,
    Dev.twilioClient.
  destruct (truthy (Env.SMTP_USER env) && truthy (Env.SMTP_PASS env)) eqn:Em;
    [apply andb_true_iff in Em as [-> ->]
    |apply andb_false_iff in Em as [-> | ->]; rewrite ?orb_true_r];
    (destruct (truthy (Env.TWILIO_ACCOUNT_SID env)
               && truthy (Env.TWILIO_AUTH_TOKEN env)
               && truthy (Env.TWILIO_PHONE_NUMBER env)) eqn:Es;
     [apply andb_true_iff in Es as [Es ->];
      apply andb_true_iff in Es as [-> ->]
     |apply andb_false_iff in Es as [Es | ->];
      [apply andb_false_iff in Es as [-> | ->]|];
      rewrite ?andb_false_r, ?orb_true_r]);
    destruct (mail prov), (sms prov); cbn; repeat split.
Qed.

Lemma append_empty (a b : string) : a +:+ b = "" -> a = "" /\ b = "".
Proof. destruct a; [cbn; auto|discriminate]. Qed.

(** X9. What the status service says against what the sender does.  The
    sender attempts an e-mail as soon as [SMTP_USER] and [SMTP_PASS] are
    set (the host has a default) and hands it over when the provider
    accepts it, while the status counts e-mail as configured only when
    [SMTP_HOST] is set as well: with the host unset, an e-mail is sent
    while the status reports it as not configured.  For SMS the two agree:
    both need the three Twilio variables.  The instructions are empty
    exactly when the status counts both services as configured. *)
Theorem dev_status_against_sender (NODE_ENV : option string) (env : Env.t)
    (prov : Providers) (email phone otp purpose : string) :
  let config := Dev.getServiceConfig NODE_ENV env in
  let attempted (r : SendResult.t * list Delivery) (refusal : string) :=
    negb (String.eqb (SendResult.message r.1) refusal) in
  let mailed := Dev.sendOTPEmail env prov email otp purpose in
  let texted := Dev.sendOTPSMS env prov phone otp purpose in
  attempted mailed "Email service not configured"
  = truthy (Env.SMTP_USER env) && truthy (Env.SMTP_PASS env)
  /\ mailed.2
     = (if truthy (Env.SMTP_USER env) && truthy (Env.SMTP_PASS env)
           && match mail prov with Accepted => true | Threw => false end
        then [EmailTo email otp purpose] else [])
  /\ Dev.ServiceConfig.emailConfigured config
     = attempted mailed "Email service not configured"
       && truthy (Env.SMTP_HOST env)
  /\ attempted texted "SMS service not configured"
     = truthy (Env.TWILIO_ACCOUNT_SID env)
       && truthy (Env.TWILIO_AUTH_TOKEN env)
       && truthy (Env.TWILIO_PHONE_NUMBER env)
  /\ Dev.ServiceConfig.smsConfigured config
     = attempted texted "SMS service not configured"
  /\ (Dev.getConfigurationInstructions NODE_ENV env = ""
      <-> Dev.ServiceConfig.emailConfigured config
          && Dev.ServiceConfig.smsConfigured config = true).
Proof.
  cbv zeta. split; [|split; [|split; [|split; [|split]]]].
  - unfold Dev.sendOTPEmail.
    destruct (truthy (Env.SMTP_USER env)), (truthy (Env.SMTP_PASS env)),
      (mail prov); reflexivity.
  - unfold Dev.sendOTPEmail.
    destruct (truthy (Env.SMTP_USER env)), (truthy (Env.SMTP_PASS env)),
      (mail prov); reflexivity.
  - unfold Dev.getServiceConfig, Dev.sendOTPEmail.
    cbn [Dev.ServiceConfig.emailConfigured].
    destruct (truthy (Env.SMTP_USER env)), (truthy (Env.SMTP_PASS env)),
      (truthy (Env.SMTP_HOST env)), (mail prov); reflexivity.
  - unfold Dev.sendOTPSMS, Dev.twilioClient.
    destruct (truthy (Env.TWILIO_ACCOUNT_SID env)),
      (truthy (Env.TWILIO_AUTH_TOKEN env)),
      (truthy (Env.TWILIO_PHONE_NUMBER env)), (sms prov); reflexivity.
  - unfold Dev.getServiceConfig, Dev.sendOTPSMS, Dev.twilioClient.
    cbn [Dev.ServiceConfig.smsConfigured].
    destruct (truthy (Env.TWILIO_ACCOUNT_SID env)),
      (truthy (Env.TWILIO_AUTH_TOKEN env)),
      (truthy (Env.TWILIO_PHONE_NUMBER env)), (sms prov); reflexivity.
  - unfold Dev.getConfigurationInstructions.
    destruct (Dev.ServiceConfig.emailConfigured _),
      (Dev.ServiceConfig.smsConfigured _); cbn [negb andb];
      split; first [reflexivity | discriminate].
Qed.

Lemma filter_required (env : Env.t) :
  length
    (List.filter (fun varName => negb (truthy (Prod.getenv env varName)))
       Prod.requiredEnvVars) = 0%nat
  <-> Prod.isConfigured env = true.
Proof.
  unfold Prod.requiredEnvVars, Prod.isConfigured. cbn [List.filter].
  change (Prod.getenv env "SMTP_HOST") with (Env.SMTP_HOST env).
  change (Prod.getenv env "SMTP_PORT") with (Env.SMTP_PORT env).
  change (Prod.getenv env "SMTP_USER") with (Env.SMTP_USER env).
  change (Prod.getenv env "SMTP_PASS") with (Env.SMTP_PASS env).
  change (Prod.getenv env "TWILIO_ACCOUNT_SID")
    with (Env.TWILIO_ACCOUNT_SID env).
  change (Prod.getenv env "TWILIO_AUTH_TOKEN")
    with (Env.TWILIO_AUTH_TOKEN env).
  change (Prod.getenv env "TWILIO_PHONE_NUMBER")
    with (Env.TWILIO_PHONE_NUMBER env).
  destruct (truthy (Env.SMTP_HOST env)), (truthy (Env.SMTP_PORT env)),
    (truthy (Env.SMTP_USER env)), (truthy (Env.SMTP_PASS env)),
    (truthy (Env.TWILIO_ACCOUNT_SID env)),
    (truthy (Env.TWILIO_AUTH_TOKEN env)),
    (truthy (Env.TWILIO_PHONE_NUMBER env)); cbn; split;
    first [reflexivity | discriminate].
Qed.

(** X10. The two start-up validators agree.  A variable is missing when it
    is unset or empty; the configuration is complete exactly when none of
    the seven is missing.  [validateProductionEnvironment] and the
    [validateEnvironment] that runs when the sender module is loaded throw
    in the same case, production with a missing variable; outside that case
    the latter returns whether the configuration is complete, which is the
    flag the step-up handler tests before it answers 503. *)
Theorem environment_validators_agree
    (NODE_ENV NEON_DATABASE_URL DATABASE_URL : option string) (env : Env.t) :
  let config :=
    Prod.getEnvironmentConfig NODE_ENV NEON_DATABASE_URL DATABASE_URL env in
  let production := NODE_ENV = Some "production" in
  (forall v, In v (Prod.EnvironmentConfig.missingEnvVars config)
     <-> In v Prod.requiredEnvVars /\ truthy (Prod.getenv env v) = false)
  /\ Prod.EnvironmentConfig.isConfigured config = Prod.isConfigured env
  /\ (Prod.validateProductionEnvironment NODE_ENV NEON_DATABASE_URL
        DATABASE_URL env <> None
      <-> production /\ Prod.isConfigured env = false)
  /\ match Prod.validateEnvironment NODE_ENV env with
     | inl _ => production /\ Prod.isConfigured env = false
     | inr flag =>
         flag = Prod.isConfigured env
         /\ ~ (production /\ Prod.isConfigured env = false)
     end.
Proof.
  cbv zeta.
  assert (Hprod : forall b : bool,
            (match NODE_ENV with
             | Some v => String.eqb v "production"
             | None => false
             end) = b -> (NODE_ENV = Some "production" <-> b = true)).
  { intros b <-. destruct NODE_ENV as [v|]; [|split; discriminate].
    rewrite String.eqb_eq. split; congruence. }
  pose proof (filter_required env) as Hreq.
  unfold Prod.getEnvironmentConfig, Prod.validateProductionEnvironment,
    Prod.validateEnvironment, Prod.getEnvironmentConfig.
  cbn [Prod.EnvironmentConfig.missingEnvVars
       Prod.EnvironmentConfig.isConfigured
       Prod.EnvironmentConfig.isProduction].
  set (missing := List.filter _ Prod.requiredEnvVars) in *.
  set (isProduction := match NODE_ENV with Some _ => _ | None => _ end) in *.
  specialize (Hprod isProduction eq_refl).
  assert (Hflag : Nat.eqb (length missing) 0 = Prod.isConfigured env).
  { destruct (Prod.isConfigured env).
    - apply Nat.eqb_eq, Hreq. reflexivity.
    - apply Nat.eqb_neq. intros H. apply Hreq in H. discriminate. }
  assert (Hpos : Nat.ltb 0 (length missing) = negb (Prod.isConfigured env)).
  { rewrite <- Hflag. destruct (length missing); reflexivity. }
  repeat split.
  - subst missing. apply List.filter_In in H. tauto.
  - subst missing. apply List.filter_In in H as [_ H].
    apply negb_true_iff in H. exact H.
  - intros [Hin Hv]. subst missing. apply List.filter_In.
    rewrite Hv. auto.
  - exact Hflag.
  - rewrite Hflag in H. destruct isProduction; [tauto|].
    cbn in H. congruence.
  - rewrite Hflag in H. destruct isProduction, (Prod.isConfigured env);
      cbn in H; congruence.
  - intros [Hp Hc]. rewrite Hflag, Hc. apply Hprod in Hp. rewrite Hp.
    discriminate.
  - rewrite Hpos. destruct (Prod.isConfigured env); cbn [negb].
    + split; [reflexivity|]. intros [_ H]. discriminate.
    + destruct isProduction; [tauto|split; [reflexivity|]].
      intros [Hp _]. apply Hprod in Hp. discriminate.
Qed.

(** ** The phone number handed to the SMS provider *)

Lemma digits_only_idem (s : string) :
  Prod.digits_only (Prod.digits_only s) = Prod.digits_only s.
Proof.
  induction s as [|c s IH]; [reflexivity|]. cbn.
  destruct (is_digit c) eqn:E; [|exact IH]. cbn. rewrite E, IH. reflexivity.
Qed.

Lemma digits_only_digits (s : string) :
  string_forallb is_digit (Prod.digits_only s) = true.
Proof.
  induction s as [|c s IH]; [reflexivity|]. cbn.
  destruct (is_digit c) eqn:E; [|exact IH]. cbn. rewrite E, IH. reflexivity.
Qed.

(** X11. The number passed to Twilio.  A stored number that starts with
    [+] is passed as it is, whatever follows the sign; any other number is
    passed as [+] followed by its digits in their order.  So the number
    passed always starts with [+], it keeps the digits of the stored
    number, and formatting twice changes nothing. *)
Theorem formattedPhone_normalises (phone : string) :
  Prod.formattedPhone phone
  = (if Js.startsWith phone "+" then phone
     else "+" +:+ Prod.digits_only phone)
  /\ (exists rest,
        Prod.formattedPhone phone = String "+"%char rest
        /\ (if Js.startsWith phone "+" then phone = String "+"%char rest
            else rest = Prod.digits_only phone
                 /\ string_forallb is_digit rest = true))
  /\ Prod.digits_only (Prod.formattedPhone phone) = Prod.digits_only phone
  /\ Prod.formattedPhone (Prod.formattedPhone phone)
     = Prod.formattedPhone phone.
Proof.
  assert (Hplain : forall s,
            Prod.formattedPhone ("+" +:+ Prod.digits_only s)
            = "+" +:+ Prod.digits_only s) by reflexivity.
  assert (Hdigits : forall s,
            Prod.digits_only ("+" +:+ Prod.digits_only s)
            = Prod.digits_only s)
    by (intros s; cbn; apply digits_only_idem).
  destruct phone as [|c rest].
  - cbn. split; [reflexivity|]. split; [exists ""; auto|auto].
  - destruct (Ascii.eqb c "+"%char) eqn:E.
    + apply Ascii.eqb_eq in E. subst c.
      assert (Hstart : Js.startsWith (String "+" rest) "+" = true)
        by (destruct rest; reflexivity).
      rewrite Hstart. cbn [Prod.formattedPhone].
      split; [reflexivity|]. split; [exists rest; auto|auto].
    + assert (Hfmt : Prod.formattedPhone (String c rest)
                     = "+" +:+ Prod.digits_only (String c rest)).
      { unfold Prod.formattedPhone.
        destruct c as [[] [] [] [] [] [] [] []]; try reflexivity.
        discriminate. }
      assert (Hstart : Js.startsWith (String c rest) "+" = false).
      { cbn [Js.startsWith]. rewrite Ascii.eqb_sym, E. reflexivity. }
      clear E.
      rewrite Hfmt, Hstart.
      split; [reflexivity|]. split; [|split; [apply Hdigits|apply Hplain]].
      exists (Prod.digits_only (String c rest)).
      split; [reflexivity|]. split; [reflexivity|].
      apply digits_only_digits.
Qed.

(** ** Listing documents *)

Lemma slice_sublist {A : Type} (l : list A) (start final : Js.Int) :
  sublist (Js.slice l start final) l.
Proof.
  unfold Js.slice. etrans; [apply sublist_take|apply sublist_drop].
Qed.

(** [slice(start, start + limit)] returns at most [limit] elements when
    [limit] is not negative, and none when either number is [NaN]. *)
Lemma slice_page_length {A : Type} (l : list A) (start limit : Js.Int) :
  match limit with
  | Js.NaN => Js.slice l start (Js.add start limit) = []
  | Js.Num z =>
      (0 <= z)%Z ->
      (Z.of_nat (length (Js.slice l start (Js.add start limit))) <= z)%Z
  end.
Proof.
  unfold Js.slice.
  destruct start as [|a], limit as [|z]; cbn [Js.add Js.relative_index].
  - reflexivity.
  - intros Hz. rewrite length_take. lia.
  - destruct (a <? 0)%Z; rewrite Nat.sub_0_l; reflexivity.
  - intros Hz. rewrite length_take, length_drop.
    destruct (Z.ltb_spec a 0), (Z.ltb_spec (a + z) 0); lia.
Qed.

Lemma filterBy_sublist (param : option string) (field : Document.t -> string)
    (docs : list Document.t) :
  sublist (Dev.filterBy param field docs) docs.
Proof.
  unfold Dev.filterBy. destruct (_ && _); [apply filter_sublist|reflexivity].
Qed.

Lemma sublist_In {A : Type} (l k : list A) (x : A) :
  sublist l k -> In x l -> In x k.
Proof.
  intros Hsub Hin. apply list_elem_of_In.
  eapply elem_of_sublist; [|exact Hsub]. apply list_elem_of_In. exact Hin.
Qed.

(** What passed a filter that is set has the value asked for. *)
Lemma filterBy_passes (param : option string)
    (field : Document.t -> string) (docs : list Document.t)
    (doc : Document.t) :
  In doc (Dev.filterBy param field docs) ->
  truthy param = true -> param <> Some "all" -> Some (field doc) = param.
Proof.
  unfold Dev.filterBy. intros Hin Hset Hall.
  destruct param as [v|]; [|discriminate]. rewrite Hset in Hin.
  cbn [default from_option id andb] in Hin.
  destruct (String.eqb_spec v "all") as [->|_]; [contradiction|].
  cbn [negb] in Hin. apply List.filter_In in Hin as [_ Heq].
  apply String.eqb_eq in Heq. congruence.
Qed.

Lemma take_min_length {A : Type} (n : nat) (l : list A) :
  take (Nat.min n (length l)) l = take n l.
Proof.
  destruct (Nat.le_gt_cases n (length l)) as [H|H].
  - rewrite Nat.min_l by exact H. reflexivity.
  - rewrite Nat.min_r by lia. rewrite !take_ge by lia. reflexivity.
Qed.

(** X12. Listing shows a caller their own documents only.  A request with
    no token, with a token that cannot be read, with an expired token or
    with a token for the empty id is answered 401 "Authentication required"
    without documents.  Every other request is answered 200 with documents
    that are all documents of the store belonging to the caller, in the
    order of the store; there are at most [limit] of them when the limit is
    not negative and none when the limit or the offset does not parse as a
    number; each of them has the type, semester and year asked for by a
    filter that is set and not ["all"], and matches the search text when
    one is given; without filters and paging parameters they are the first
    fifty documents of the caller. *)
Theorem dev_listing_shows_own_documents (toLowerCase : string -> string)
    (s : Dev.Store) (auth : AuthHeader)
    (type semester year search limit offset : option string) (now : N) :
  let reply :=
    Dev.handleGetDocuments toLowerCase s auth type semester year search limit
      offset now in
  (truthy (Dev.getUserFromToken auth now) = false
   <-> auth = NoBearer \/ auth = Undecodable
       \/ exists uid exp, auth = Bearer uid exp /\ (exp < now \/ uid = ""))
  /\
  (if truthy (Dev.getUserFromToken auth now) then
     exists docs,
       reply.1 = 200
       /\ Dev.DocumentsResponse.success reply.2 = true
       /\ Dev.DocumentsResponse.documents reply.2 = Some docs
       /\ sublist docs (Dev.documents s)
       /\ (forall doc, In doc docs ->
             Dev.getUserFromToken auth now = Some (Document.userId doc))
       /\ match Js.parseInt (default "50" limit),
                Js.parseInt (default "0" offset) with
          | Js.Num z, Js.Num _ =>
              (0 <= z)%Z -> (Z.of_nat (length docs) <= z)%Z
          | _, _ => docs = []
          end
       /\ (forall doc, In doc docs ->
             (truthy type = true -> type <> Some "all" ->
              Some (Dev.DocType_name (Document.type doc)) = type)
             /\ (truthy semester = true -> semester <> Some "all" ->
                 Some (Document.semester doc) = semester)
             /\ (truthy year = true -> year <> Some "all" ->
                 Some (Document.year doc) = year)
             /\ (truthy search = true ->
                 Dev.matchesSearch toLowerCase (default "" search) doc
                 = true))
       /\ (type = None -> semester = None -> year = None ->
           search = None -> limit = None -> offset = None ->
           docs
           = take 50
               (List.filter
                  (fun doc =>
                     String.eqb (Document.userId doc)
                       (default "" (Dev.getUserFromToken auth now)))
                  (Dev.documents s)))
   else
     reply
     = (401, Dev.DocumentsResponse.mk false None "Authentication required")).
Proof.
  cbv zeta. split.
  { destruct auth as [| |uid exp]; cbn [Dev.getUserFromToken truthy].
    - split; auto.
    - split; auto.
    - destruct (N.ltb_spec exp now) as [Hlt|Hge]; cbn [truthy].
      + split; [|reflexivity]. intros _. right. right. eauto.
      + rewrite negb_false_iff, String.eqb_eq. split.
        * intros ->. right. right. eauto.
        * intros [H|[H|(u & e & [= -> ->] & [H|H])]];
            [discriminate|discriminate|lia|exact H]. }
  unfold Dev.handleGetDocuments.
  destruct (truthy (Dev.getUserFromToken auth now)) eqn:Etoken;
    cbn [negb]; [|reflexivity].
  cbn [snd fst Dev.DocumentsResponse.documents
       Dev.DocumentsResponse.success].
  set (own := List.filter _ (Dev.documents s)).
  set (matching := if truthy search then _ else _).
  assert (Hsub : sublist matching own).
  { subst matching.
    etrans; [|apply filterBy_sublist]. etrans; [|apply filterBy_sublist].
    etrans; [|apply filterBy_sublist].
    destruct (truthy search); [apply filter_sublist|reflexivity]. }
  eexists. split; [reflexivity|]. split; [reflexivity|].
  split; [reflexivity|]. split; [|split; [|split; [|split]]].
  - etrans; [apply slice_sublist|]. etrans; [exact Hsub|].
    apply filter_sublist.
  - intros doc Hdoc.
    assert (Hown : In doc own).
    { apply list_elem_of_In. eapply elem_of_sublist; [|exact Hsub].
      eapply elem_of_sublist; [|apply slice_sublist].
      apply list_elem_of_In. exact Hdoc. }
    apply List.filter_In in Hown as [_ Heq]. apply String.eqb_eq in Heq.
    destruct (Dev.getUserFromToken auth now) as [uid|]; [|discriminate].
    cbn in Heq. congruence.
  - pose proof (slice_page_length matching
                  (Js.parseInt (default "0" offset))
                  (Js.parseInt (default "50" limit))) as Hpage.
    destruct (Js.parseInt (default "50" limit)) as [|z].
    + exact Hpage.
    + destruct (Js.parseInt (default "0" offset)) as [|a]; [|exact Hpage].
      unfold Js.slice. cbn [Js.add Js.relative_index]. reflexivity.
  - intros doc Hdoc.
    apply (sublist_In _ _ _ (slice_sublist _ _ _)) in Hdoc.
    subst matching.
    set (byType := Dev.filterBy type _ own) in *.
    set (bySemester := Dev.filterBy semester _ byType) in *.
    set (byYear := Dev.filterBy year _ bySemester) in *.
    assert (Hyear : In doc byYear).
    { destruct (truthy search); [|exact Hdoc].
      apply List.filter_In in Hdoc as [Hdoc _]. exact Hdoc. }
    assert (Hsemester : In doc bySemester)
      by (apply (sublist_In _ _ _ (filterBy_sublist _ _ _) Hyear)).
    assert (Htype : In doc byType)
      by (apply (sublist_In _ _ _ (filterBy_sublist _ _ _) Hsemester)).
    split; [apply (filterBy_passes _ _ _ _ Htype)|].
    split; [apply (filterBy_passes _ _ _ _ Hsemester)|].
    split; [apply (filterBy_passes _ _ _ _ Hyear)|].
    intros Hsearch. rewrite Hsearch in Hdoc.
    apply List.filter_In in Hdoc as [_ Hmatch]. exact Hmatch.
  - intros -> -> -> -> -> ->. subst matching.
    unfold Dev.filterBy. cbn [truthy andb default from_option id].
    replace (Js.parseInt "0") with (Js.Num 0) by (vm_compute; reflexivity).
    replace (Js.parseInt "50") with (Js.Num 50) by (vm_compute; reflexivity).
    unfold Js.slice. cbn [Js.add Js.relative_index Z.add Z.ltb Z.compare].
    change (Z.to_nat 0) with 0%nat. change (Z.to_nat 50) with 50%nat.
    rewrite Nat.min_0_l, Nat.sub_0_r, drop_0. fold own.
    apply take_min_length.
Qed.

(** ** Uploading a document *)

Lemma digit_is_digit (n : N) : is_digit (Clock.digit n) = true.
Proof.
  unfold is_digit, Clock.digit.
  pose proof (N.mod_upper_bound n 10 ltac:(lia)) as H.
  set (d := n mod 10) in *. clearbody d.
  rewrite N_ascii_embedding by lia.
  apply andb_true_iff. split; apply (proj2 (N.leb_le _ _)); lia.
Qed.

Lemma digit_is_not (n : N) (c : ascii) :
  is_digit c = false -> Ascii.eqb (Clock.digit n) c = false.
Proof.
  intros Hc. apply Ascii.eqb_neq. intros <-.
  rewrite digit_is_digit in Hc. discriminate.
Qed.

(** The upload date is the UTC date of the upload, ["YYYY-MM-DD"]. *)
Lemma uploadDate_text (now : N) :
  take_until "T" (Clock.toISOString now)
  = Clock.date_text (Clock.civil_of_days (now / Clock.MS_PER_DAY)).
Proof.
  unfold Clock.toISOString. apply take_until_append.
  - unfold Clock.date_text, Clock.pad4, Clock.pad2.
    rewrite !string_forallb_append. cbn [string_forallb].
    rewrite !digit_is_not by reflexivity. reflexivity.
  - right. eexists. rewrite append_cons, append_nil. reflexivity.
Qed.

(** What an upload does to the store, reply by reply. *)
Lemma upload_outcome (toLowerCase : string -> string) (s : Dev.Store)
    (auth : AuthHeader) (name : option string) (type : option DocType)
    (semester year : option string) (isSecure : Dev.Flag)
    (metadata : option Metadata.t) (uploadedFile : option Dev.UploadedFile.t)
    (now : N) (suffix : string) :
  let out :=
    Dev.handleUploadDocument toLowerCase s auth name type semester year
      isSecure metadata uploadedFile now suffix in
  match DocumentResponse.document out.1.2 with
  | Some doc =>
      out.1.1 = 201 /\ DocumentResponse.success out.1.2 = true
      /\ Dev.documents out.2 = (Dev.documents s ++ [doc])%list
      /\ Dev.users out.2 = Dev.users s /\ Dev.otps out.2 = Dev.otps s
      /\ Dev.downloadOTPs out.2 = Dev.downloadOTPs s
      /\ Dev.getUserFromToken auth now = Some (Document.userId doc)
      /\ Document.id doc = newId now suffix
      /\ Some (Document.name doc) = Js.trim <$> name
      /\ 3 <= Js.length (Document.name doc)
      /\ Document.uploadDate doc
         = Clock.date_text (Clock.civil_of_days (now / Clock.MS_PER_DAY))
      /\ (Document.isSecure doc = true
          <-> isSecure = Dev.Text "true" \/ isSecure = Dev.Boolean true)
      /\ forall d, In d (Dev.documents s) ->
           Document.userId d = Document.userId doc ->
           toLowerCase (Document.name d) <> toLowerCase (Document.name doc)
  | None =>
      out.2 = s /\ DocumentResponse.success out.1.2 = false
      /\ (out.1.1 = 400 \/ out.1.1 = 401 \/ out.1.1 = 409)
  end.
Proof.
  cbv zeta. unfold Dev.handleUploadDocument.
  destruct (Dev.getUserFromToken auth now) as [uid|] eqn:Etoken;
    [|cbn; auto].
  destruct (truthy (Some uid)) eqn:Huid; cbn [negb]; [|cbn; auto].
  destruct type as [type|]; [|cbn; auto].
  destruct (negb (truthy name) || negb (truthy semester)
            || negb (truthy year)) eqn:Efields; [cbn; auto|].
  destruct name as [name|]; [|discriminate].
  cbn [default from_option Datatypes.id].
  destruct (N.ltb_spec (Js.length (Js.trim name)) 3) as [|Hlen];
    [cbn; auto|].
  destruct (List.find _ (Dev.documents s)) as [dup|] eqn:Efind;
    [cbn; auto|].
  cbn [fst snd DocumentResponse.document DocumentResponse.success
       Dev.documents Dev.users Dev.otps Dev.downloadOTPs Document.userId
       Document.id Document.name Document.uploadDate Document.isSecure
       fmap option_fmap option_map].
  repeat (split; [reflexivity|]).
  split; [exact Hlen|]. split; [apply uploadDate_text|]. split.
  - destruct isSecure as [|t|[]]; split; intros H;
      try discriminate; try (destruct H as [H|H]; discriminate);
      auto.
    + apply String.eqb_eq in H. subst t. auto.
    + destruct H as [H|H]; [|discriminate]. injection H as ->. reflexivity.
  - intros d Hd Howner Hname.
    apply (List.find_none _ _ Efind) in Hd.
    rewrite Howner, Hname, !String.eqb_refl in Hd. discriminate.
Qed.

(** X13. What an upload does to the store.  A reply that carries a
    document has status 201: that document was appended to the list and
    nothing else of the store changed but the file table; it belongs to the
    caller, its id is the new id, its name is the trimmed name of the
    request and has at least three characters, its date is the UTC date of
    the upload, it is secure exactly when the field was the string ["true"]
    or the boolean [true], and no document of the caller had that name up
    to case.  Every other reply is a failure and leaves the store as it
    was. *)
Theorem dev_upload_effect (toLowerCase : string -> string) (s : Dev.Store)
    (auth : AuthHeader) (name : option string) (type : option DocType)
    (semester year : option string) (isSecure : Dev.Flag)
    (metadata : option Metadata.t) (uploadedFile : option Dev.UploadedFile.t)
    (now : N) (suffix : string) :
  let out :=
    Dev.handleUploadDocument toLowerCase s auth name type semester year
      isSecure metadata uploadedFile now suffix in
  match DocumentResponse.document out.1.2 with
  | Some doc =>
      out.1.1 = 201 /\ DocumentResponse.success out.1.2 = true
      /\ Dev.documents out.2 = (Dev.documents s ++ [doc])%list
      /\ Dev.users out.2 = Dev.users s /\ Dev.otps out.2 = Dev.otps s
      /\ Dev.downloadOTPs out.2 = Dev.downloadOTPs s
      /\ Dev.getUserFromToken auth now = Some (Document.userId doc)
      /\ Document.id doc = newId now suffix
      /\ Some (Document.name doc) = Js.trim <$> name
      /\ 3 <= Js.length (Document.name doc)
      /\ Document.uploadDate doc
         = Clock.date_text (Clock.civil_of_days (now / Clock.MS_PER_DAY))
      /\ (Document.isSecure doc = true
          <-> isSecure = Dev.Text "true" \/ isSecure = Dev.Boolean true)
      /\ forall d, In d (Dev.documents s) ->
           Document.userId d = Document.userId doc ->
           toLowerCase (Document.name d) <> toLowerCase (Document.name doc)
  | None =>
      out.2 = s /\ DocumentResponse.success out.1.2 = false
      /\ (out.1.1 = 400 \/ out.1.1 = 401 \/ out.1.1 = 409)
  end.
Proof.
  exact (upload_outcome toLowerCase s auth name type semester year isSecure
           metadata uploadedFile now suffix).
Qed.

(** ** Document names along a run *)

Ltac settle_handler :=
  repeat match goal with
    | |- context [if ?b then _ else _] => destruct b
    | |- context [match ?x with _ => _ end] => destruct x
    end;
  try reflexivity.

Lemma documents_after_register (toLowerCase : string -> string)
    (s : Dev.Store) (name email phone password : option string) (now : N)
    (suffix hashed : string) :
  Dev.documents
    (Dev.handleRegister toLowerCase s name email phone password now suffix
       hashed).2 = Dev.documents s.
Proof. unfold Dev.handleRegister. settle_handler. Qed.

Lemma documents_after_update (toLowerCase : string -> string)
    (s : Dev.Store) (auth : AuthHeader) (name email phone : option string) :
  Dev.documents (Dev.handleUpdateProfile toLowerCase s auth name email phone).2
  = Dev.documents s.
Proof. unfold Dev.handleUpdateProfile. settle_handler. Qed.

Lemma documents_after_password (bcrypt_compare : string -> string -> bool)
    (s : Dev.Store) (auth : AuthHeader) (current new : option string)
    (hashed : string) :
  Dev.documents
    (Dev.handleChangePassword bcrypt_compare s auth current new hashed).2
  = Dev.documents s.
Proof. unfold Dev.handleChangePassword. settle_handler. Qed.

Lemma documents_after_step_up (bcrypt_compare : string -> string -> bool)
    (env : Env.t) (s : Dev.Store) (password : option string)
    (auth : AuthHeader) (now r : N) (prov : Providers) :
  Dev.documents
    (Dev.handleVerifyPasswordForDownload bcrypt_compare env s password auth
       now r prov).1.2 = Dev.documents s.
Proof.
  unfold Dev.handleVerifyPasswordForDownload.
  destruct (negb (truthy password)); [reflexivity|].
  destruct auth as [| |uid exp]; try reflexivity.
  destruct (exp <? now); [reflexivity|].
  destruct (Dev.findUserById s uid); [|reflexivity].
  destruct (negb (bcrypt_compare _ _)); [reflexivity|].
  destruct (Dev.sendOTPToEmailAndPhone _ _ _ _ _ _). reflexivity.
Qed.

Lemma documents_after_download_code (s : Dev.Store) (otp : option string)
    (auth : AuthHeader) (now : N) :
  Dev.documents (Dev.handleVerifyDownloadOTP s otp auth now).2
  = Dev.documents s.
Proof. unfold Dev.handleVerifyDownloadOTP. settle_handler. Qed.

Lemma documents_after_send (env : Env.t) (s : Dev.Store) (auth : AuthHeader)
    (documentId : option string) (now r : N) (prov : Providers) :
  Dev.documents (Dev.handleSendOTP env s auth documentId now r prov).1.2
  = Dev.documents s.
Proof.
  unfold Dev.handleSendOTP.
  destruct (negb (truthy (Dev.getUserFromToken auth now))); [reflexivity|].
  destruct (negb (truthy documentId)); [reflexivity|].
  destruct (Dev.findDocument s _ _) as [document|]; [|reflexivity].
  destruct (negb (Document.isSecure document)); [reflexivity|].
  destruct (Dev.findUserById s _); [|reflexivity].
  destruct (Dev.sendOTPToEmailAndPhone _ _ _ _ _ _). reflexivity.
Qed.

Lemma documents_after_verify (s : Dev.Store) (auth : AuthHeader)
    (documentId otp : string) (now : N) :
  Dev.documents (Dev.handleVerifyOTP s auth documentId otp now).2
  = Dev.documents s.
Proof. unfold Dev.handleVerifyOTP. settle_handler. Qed.

Lemma sublist_NoDup_map {A B : Type} (f : A -> B) (l1 l2 : list A) :
  sublist l1 l2 -> List.NoDup (map f l2) -> List.NoDup (map f l1).
Proof.
  intros Hsub. induction Hsub as [|x l1 l2 Hsub IH|x l1 l2 Hsub IH];
    intros Hnd; [exact Hnd| |].
  - cbn in *. apply List.NoDup_cons_iff in Hnd as [Hnot Hnd].
    apply List.NoDup_cons; [|apply IH; exact Hnd].
    intros Hin. apply Hnot. apply List.in_map_iff in Hin as (y & Hy & Hin).
    apply List.in_map_iff. exists y. split; [exact Hy|].
    apply list_elem_of_In. eapply elem_of_sublist; [|exact Hsub].
    apply list_elem_of_In. exact Hin.
  - cbn in Hnd. apply List.NoDup_cons_iff in Hnd as [_ Hnd]. apply IH, Hnd.
Qed.

(** What a request does to the list of documents: it leaves it, takes
    documents out of it, or appends one whose name no document of the same
    owner carries up to case. *)
Lemma documents_after_step (bcrypt_compare : string -> string -> bool)
    (env : Env.t) (toLowerCase : string -> string) (s : Dev.Store)
    (ev : Dev.Event) :
  sublist (Dev.documents (Dev.step bcrypt_compare env toLowerCase s ev))
    (Dev.documents s)
  \/ exists doc,
       Dev.documents (Dev.step bcrypt_compare env toLowerCase s ev)
       = (Dev.documents s ++ [doc])%list
       /\ forall d, In d (Dev.documents s) ->
            Document.userId d = Document.userId doc ->
            toLowerCase (Document.name d) <> toLowerCase (Document.name doc).
Proof.
  destruct ev as [name email phone password now suffix hashed
                 |auth name email phone|auth current new hashed|auth
                 |password auth now r prov|otp auth now
                 |auth name type semester year isSecure metadata file now
                    suffix
                 |req]; cbn [Dev.step].
  - left. rewrite documents_after_register. reflexivity.
  - left. rewrite documents_after_update. reflexivity.
  - left. rewrite documents_after_password. reflexivity.
  - left. unfold Dev.handleDeleteAccount.
    destruct auth as [| |uid exp]; try reflexivity.
    destruct (Dev.remove_first uid (Dev.users s)) as [[user rest]|];
      [|reflexivity].
    cbn. apply filter_sublist.
  - left. rewrite documents_after_step_up. reflexivity.
  - left. rewrite documents_after_download_code. reflexivity.
  - pose proof (upload_outcome toLowerCase s auth name type semester year
                  isSecure metadata file now suffix) as H.
    cbv zeta in H.
    destruct (DocumentResponse.document _) as [doc|].
    + right. exists doc. destruct H as (_ & _ & Hdocs & H).
      split; [exact Hdocs|]. do 9 apply proj2 in H. exact H.
    + left. destruct H as [-> _]. reflexivity.
  - left. destruct req as [auth documentId now r prov
                          |auth documentId otp now|auth id now];
      cbn [Dev.serve].
    + rewrite documents_after_send. reflexivity.
    + rewrite documents_after_verify. reflexivity.
    + unfold Dev.handleDeleteDocument.
      destruct (negb (truthy (Dev.getUserFromToken auth now)));
        [reflexivity|].
      destruct (Dev.splice_first id _ (Dev.documents s)) as [[doc rest]|]
        eqn:E; [|reflexivity].
      apply splice_first_spec in E
        as (_ & _ & before & behind & -> & -> & _).
      cbn. apply sublist_app; [reflexivity|]. apply sublist_cons.
      reflexivity.
Qed.

(** X14. No account ever holds two documents whose names agree up to
    case.  If that is so in a store, it is so after every run of requests:
    uploads, deletions, account and step-up requests alike. *)
Theorem dev_document_names_stay_unique
    (bcrypt_compare : string -> string -> bool) (env : Env.t)
    (toLowerCase : string -> string) (events : list Dev.Event)
    (s : Dev.Store) :
  let key doc := (Document.userId doc, toLowerCase (Document.name doc)) in
  List.NoDup (map key (Dev.documents s)) ->
  List.NoDup
    (map key (Dev.documents (Dev.run bcrypt_compare env toLowerCase s events))).
Proof.
  intros key. revert s. induction events as [|ev events IH]; intros s Hs;
    [exact Hs|].
  cbn [Dev.run fold_left]. apply IH.
  destruct (documents_after_step bcrypt_compare env toLowerCase s ev)
    as [Hsub|(doc & -> & Hfresh)].
  - exact (sublist_NoDup_map key _ _ Hsub Hs).
  - rewrite List.map_app. apply List.NoDup_app; [exact Hs| |].
    + apply List.NoDup_cons; [intros []|apply List.NoDup_nil].
    + intros k Hk [<-|[]]. apply List.in_map_iff in Hk as (d & Hd & Hin).
      injection Hd as Howner Hname. exact (Hfresh d Hin Howner Hname).
Qed.

Lemma dev_document_names_stay_unique_witness :
  List.NoDup
    (map (fun doc => (Document.userId doc, Document.name doc))
       (Dev.documents
          (Dev.run Scenario.bcrypt_compare Scenario.configured (fun x => x)
             Scenario.store_docs
             [Dev.UploadDocument Scenario.session (Some "Transcript 2026")
                (Some transcript) (Some "Semester 5") (Some "2026")
                (Dev.Boolean true) None None Scenario.noon "zzz000aaa";
              Dev.UploadDocument Scenario.session (Some "Fee receipt")
                (Some fee_receipt) (Some "Semester 5") (Some "2026")
                Dev.Absent None None Scenario.noon "zzz000aab";
              Dev.DocumentRequest
                (Dev.DeleteDocument Scenario.session
                   "1793534000001def456uvw" Scenario.noon)]))).
Proof.
  refine (dev_document_names_stay_unique Scenario.bcrypt_compare
            Scenario.configured (fun x => x) _ Scenario.store_docs _).
  cbn. repeat constructor; cbn; intros H;
    repeat (destruct H as [H|H]; [discriminate|]); exact H.
Defined.

(** ** Storage and sizes *)

(** X15. The storage report counts the caller's documents only.  A request
    without a live token is answered 401 "Authentication required" without
    figures.  With a live token the reply is 200 and reports the number of
    documents of the caller, 2.5 MB for each of them as the space used, the
    limit of 5 GB, and as the percentage that number divided by 20.48,
    rounded to the nearest integer and capped at 100; the cap is reached
    from 2038 documents on. *)
Theorem dev_storage_report (s : Dev.Store) (auth : AuthHeader) (now : N) :
  let reply := Dev.handleGetStorageInfo s auth now in
  let own :=
    List.filter
      (fun doc =>
         String.eqb (Document.userId doc)
           (default "" (Dev.getUserFromToken auth now)))
      (Dev.documents s) in
  let count := N.of_nat (length own) in
  (truthy (Dev.getUserFromToken auth now) = false
   <-> auth = NoBearer \/ auth = Undecodable
       \/ exists uid exp, auth = Bearer uid exp /\ (exp < now \/ uid = ""))
  /\
  (if truthy (Dev.getUserFromToken auth now) then
     exists info,
       reply
       = (200,
          Dev.StorageResponse.mk true (Some info)
            "Storage info retrieved successfully")
       /\ Dev.StorageInfo.documentsCount info = count
       /\ Dev.StorageInfo.used info = count * 2621440
       /\ Dev.StorageInfo.total info = 5368709120
       /\ Dev.StorageInfo.percentage info
          = N.min ((100 * count + 1024) / 2048) 100
       /\ (Dev.StorageInfo.percentage info = 100 <-> 2038 <= count)
   else
     reply
     = (401, Dev.StorageResponse.mk false None "Authentication required")).
Proof.
  cbv zeta. split.
  { destruct auth as [| |uid exp]; cbn [Dev.getUserFromToken truthy].
    - split; auto.
    - split; auto.
    - destruct (N.ltb_spec exp now) as [Hlt|Hge]; cbn [truthy].
      + split; [|reflexivity]. intros _. right. right. eauto.
      + rewrite negb_false_iff, String.eqb_eq. split.
        * intros ->. right. right. eauto.
        * intros [H|[H|(u & e & [= -> ->] & [H|H])]];
            [discriminate|discriminate|lia|exact H]. }
  unfold Dev.handleGetStorageInfo.
  destruct (truthy (Dev.getUserFromToken auth now)); cbn [negb];
    [|reflexivity].
  eexists. split; [reflexivity|].
  cbn [Dev.StorageInfo.documentsCount Dev.StorageInfo.used
       Dev.StorageInfo.total Dev.StorageInfo.percentage].
  set (count := N.of_nat (length _)). clearbody count.
  assert (Hpct : (200 * (count * 2621440) + 5 * 1024 * 1024 * 1024)
                 / (2 * (5 * 1024 * 1024 * 1024))
                 = (100 * count + 1024) / 2048).
  { replace (200 * (count * 2621440) + 5 * 1024 * 1024 * 1024)
      with ((100 * count + 1024) * 5242880) by lia.
    replace (2 * (5 * 1024 * 1024 * 1024)) with (2048 * 5242880) by lia.
    apply N.Div0.div_mul_cancel_r. lia. }
  rewrite Hpct. repeat (split; [reflexivity|]).
  set (q := (100 * count + 1024) / 2048).
  assert (Hq : 2048 * q <= 100 * count + 1024 < 2048 * q + 2048).
  { subst q. split.
    - apply N.Div0.mul_div_le.
    - pose proof (N.mul_succ_div_gt (100 * count + 1024) 2048 ltac:(lia)).
      lia. }
  clearbody q. split; lia.
Qed.

Lemma floor_bounds (a b : N) :
  b <> 0 -> b * (a / b) <= a /\ a < b * (a / b) + b.
Proof.
  intros Hb. split; [apply N.Div0.mul_div_le|].
  pose proof (N.mul_succ_div_gt a b Hb). lia.
Qed.

Lemma append_nil_r (s : string) : s +:+ "" = s.
Proof.
  induction s as [|c s IH]; [reflexivity|].
  rewrite append_cons, IH. reflexivity.
Qed.

Lemma hundredths_of_whole (n : N) : Dev.hundredths_text (100 * n) = pretty n.
Proof.
  unfold Dev.hundredths_text.
  replace (100 * n / 100) with n
    by (symmetry; rewrite N.mul_comm; apply N.div_mul; lia).
  replace (100 * n mod 100) with 0
    by (symmetry; rewrite N.mul_comm; apply N.Div0.mod_mul).
  cbn [N.eqb]. apply append_nil_r.
Qed.

(** X16. What [getFileSizeString] prints.  The unit is the largest of B,
    KB, MB and GB that the size reaches, and the number is the size in that
    unit rounded to hundredths, halves up; so the number printed is within
    half a hundredth of the size, and a size below 1024 bytes is printed
    exactly. *)
Theorem getFileSizeString_rounds_to_hundredths (n : N) :
  exists h k,
    Dev.size_in_units 3 n 1 0 = (h, k)
    /\ Dev.getFileSizeString n
       = Dev.hundredths_text h +:+ " "
           +:+ nth k ["B"; "KB"; "MB"; "GB"] "undefined"
    /\ (k <= 3)%nat
    /\ (k = 0%nat \/ 1024 ^ N.of_nat k <= n)
    /\ (k = 3%nat \/ n < 1024 * 1024 ^ N.of_nat k)
    /\ 2 * 1024 ^ N.of_nat k * h <= 200 * n + 1024 ^ N.of_nat k
    /\ 200 * n < 2 * 1024 ^ N.of_nat k * h + 1024 ^ N.of_nat k
    /\ (n < 1024 -> Dev.getFileSizeString n = pretty n +:+ " B").
Proof.
  assert (Hround : forall den, den <> 0 ->
            2 * den * ((200 * n + den) / (2 * den)) <= 200 * n + den
            /\ 200 * n < 2 * den * ((200 * n + den) / (2 * den)) + den).
  { intros den Hden.
    destruct (floor_bounds (200 * n + den) (2 * den) ltac:(lia)) as [H1 H2].
    set (q := (200 * n + den) / (2 * den)) in *. clearbody q. lia. }
  unfold Dev.getFileSizeString. cbn [Dev.size_in_units].
  change (1024 * 1) with 1024. change (1024 * 1024) with 1048576.
  change (1024 * 1048576) with 1073741824.
  destruct (N.leb_spec 1024 n) as [H1|H1].
  - destruct (N.leb_spec 1048576 n) as [H2|H2].
    + destruct (N.leb_spec 1073741824 n) as [H3|H3].
      * eexists _, 3%nat. split; [reflexivity|]. split; [reflexivity|].
        change (1024 ^ N.of_nat 3) with 1073741824.
        destruct (Hround 1073741824 ltac:(lia)).
        repeat split; lia.
      * eexists _, 2%nat. split; [reflexivity|]. split; [reflexivity|].
        change (1024 ^ N.of_nat 2) with 1048576.
        destruct (Hround 1048576 ltac:(lia)).
        repeat split; lia.
    + eexists _, 1%nat. split; [reflexivity|]. split; [reflexivity|].
      change (1024 ^ N.of_nat 1) with 1024.
      destruct (Hround 1024 ltac:(lia)).
      repeat split; lia.
  - eexists _, 0%nat. split; [reflexivity|]. split; [reflexivity|].
    change (1024 ^ N.of_nat 0) with 1.
    destruct (Hround 1 ltac:(lia)).
    repeat split; try lia; auto.
    intros _.
    replace ((200 * n + 1) / (2 * 1)) with (100 * n).
    + rewrite hundredths_of_whole. reflexivity.
    + apply (N.div_unique _ _ _ 1); lia.
Qed.

(** ** Trimming *)

Lemma strip_prefix_spec (p l rest : list N) :
  Js.strip_prefix p l = Some rest -> l = (p ++ rest)%list.
Proof.
  revert l. induction p as [|a p IH]; intros [|b l] H; cbn in H;
    try discriminate; try (injection H as <-; reflexivity).
  destruct (N.eqb_spec a b) as [<-|]; [|discriminate].
  rewrite (IH l H). reflexivity.
Qed.

Lemma skip_space_suffix (patterns : list (list N)) (l rest : list N) :
  Js.skip_space patterns l = Some rest ->
  exists p, In p patterns /\ l = (p ++ rest)%list.
Proof.
  induction patterns as [|p patterns IH]; [discriminate|].
  cbn. destruct (Js.strip_prefix p l) as [r|] eqn:E.
  - intros H. injection H as <-. exists p. split; [left; reflexivity|].
    apply strip_prefix_spec. exact E.
  - intros H. destruct (IH H) as (q & Hq & Hl). exists q. auto.
Qed.

Lemma skip_spaces_suffix (fuel : nat) (patterns : list (list N))
    (l : list N) :
  exists skipped, l = (skipped ++ Js.skip_spaces fuel patterns l)%list.
Proof.
  revert l. induction fuel as [|fuel IH]; intros l; [exists []; reflexivity|].
  cbn. destruct (Js.skip_space patterns l) as [rest|] eqn:E;
    [|exists []; reflexivity].
  apply skip_space_suffix in E as (p & _ & ->).
  destruct (IH rest) as [skipped Hs]. exists (p ++ skipped)%list.
  rewrite <- List.app_assoc, <- Hs. reflexivity.
Qed.

Lemma string_of_bytes_app (a b : list N) :
  string_of_bytes (a ++ b) = string_of_bytes a +:+ string_of_bytes b.
Proof.
  unfold string_of_bytes. induction a as [|x a IH]; [reflexivity|].
  cbn [map app string_of_list_ascii]. rewrite append_cons, IH. reflexivity.
Qed.

(** [trimStart] returns what is left of the string after a prefix, [trimEnd]
    what is left before a suffix. *)
Lemma trimStart_suffix (s : string) :
  exists skipped, s = skipped +:+ Js.trimStart s.
Proof.
  unfold Js.trimStart. cbv zeta.
  destruct (skip_spaces_suffix (length (bytes_of_string s)) Js.WHITE_SPACE
              (bytes_of_string s)) as [skipped H].
  exists (string_of_bytes skipped).
  rewrite <- string_of_bytes_app, <- H. symmetry.
  apply string_of_bytes_of_string.
Qed.

Lemma trimEnd_prefix (s : string) :
  exists skipped, s = Js.trimEnd s +:+ skipped.
Proof.
  unfold Js.trimEnd. cbv zeta.
  destruct (skip_spaces_suffix (length (List.rev (bytes_of_string s)))
              (map (@List.rev N) Js.WHITE_SPACE)
              (List.rev (bytes_of_string s))) as [skipped H].
  exists (string_of_bytes (List.rev skipped)).
  rewrite <- string_of_bytes_app, <- List.rev_app_distr, <- H.
  rewrite List.rev_involutive. symmetry. apply string_of_bytes_of_string.
Qed.

Lemma trim_keeps_class (f : ascii -> bool) (s : string) :
  string_forallb f s = true -> string_forallb f (Js.trim s) = true.
Proof.
  intros H. unfold Js.trim.
  destruct (trimStart_suffix s) as [a Ha].
  destruct (trimEnd_prefix (Js.trimStart s)) as [b Hb].
  rewrite Ha, Hb, !string_forallb_append in H.
  apply andb_true_iff in H as [_ H]. apply andb_true_iff in H as [H _].
  exact H.
Qed.

Lemma keep_chars_class (f : ascii -> bool) (s : string) :
  string_forallb f (Dev.keep_chars f s) = true.
Proof.
  induction s as [|c s IH]; [reflexivity|]. cbn.
  destruct (f c) eqn:E; [|exact IH]. cbn. rewrite E, IH. reflexivity.
Qed.

(** X17. The name of the generated placeholder download is safe to put
    in a header.  Whatever the name of the document, it is made of letters,
    digits, hyphens, underscores, dots and spaces only (so it holds no
    quote, slash, backslash or control character), it is followed by
    [.txt], and it is not empty: a name of which nothing but white space
    is left gives [document.txt]. *)
Theorem placeholder_filename_is_safe (doc : Document.t) :
  Dev.placeholderFilename doc = Dev.safeName doc +:+ ".txt"
  /\ string_forallb Dev.is_safe_char (Dev.safeName doc) = true
  /\ Dev.safeName doc <> ""
  /\ (Js.trim (Dev.keep_chars Dev.is_safe_char (Document.name doc)) = "" ->
      Dev.placeholderFilename doc = "document.txt").
Proof.
  unfold Dev.placeholderFilename, Dev.safeName, Dev.or_else.
  split; [reflexivity|].
  destruct (String.eqb_spec
              (Js.trim (Dev.keep_chars Dev.is_safe_char (Document.name doc)))
              "") as [Hempty|Hfull].
  - split; [reflexivity|]. split; [discriminate|]. intros _. reflexivity.
  - split; [apply trim_keeps_class, keep_chars_class|].
    split; [exact Hfull|]. intros H. contradiction.
Qed.

(** ** From upload to download *)

Lemma find_after_append {A : Type} (f : A -> bool) (l : list A) (x : A) :
  (forall y, In y l -> f y = false) -> f x = true ->
  List.find f (l ++ [x]) = Some x.
Proof.
  intros Hl Hx. induction l as [|a l IH]; cbn.
  - rewrite Hx. reflexivity.
  - rewrite (Hl a (or_introl eq_refl)). apply IH.
    intros y Hy. apply Hl. right. exact Hy.
Qed.

Lemma newId_nonempty (now : N) (suffix : string) : newId now suffix <> "".
Proof.
  unfold newId. pose proof (pretty_nonempty now) as H.
  destruct (pretty now); [contradiction|discriminate].
Qed.

(** X18. A secure document can be fetched through the whole flow.  After
    an upload marked secure by a caller with an account, under an id no
    other document carries: a code request for the document is answered
    200; the code it generated is accepted until five minutes later and
    the reply carries the file URL with a token; the file endpoint streams
    the document on that token, and refuses it without one. *)
Theorem dev_secure_upload_then_download
    (env : Env.t) (toLowerCase : string -> string) (s : Dev.Store)
    (uid suffix : string) (user : User.t) (exp now0 now1 now2 r : N)
    (name : option string) (type : option DocType)
    (semester year : option string) (metadata : option Metadata.t)
    (file : option Dev.UploadedFile.t) (prov : Providers) (doc : Document.t) :
  uid <> "" -> now0 <= exp -> now1 <= exp -> now2 <= exp ->
  Dev.findUserById s uid = Some user ->
  string_forallb is_base36 suffix = true ->
  (forall d, In d (Dev.documents s) -> Document.id d <> newId now0 suffix) ->
  now2 <= now1 + FIVE_MINUTES ->
  let upload :=
    Dev.handleUploadDocument toLowerCase s (Bearer uid exp) name type
      semester year (Dev.Boolean true) metadata file now0 suffix in
  DocumentResponse.document upload.1.2 = Some doc ->
  let id := Document.id doc in
  let sent :=
    Dev.handleSendOTP env upload.2 (Bearer uid exp) (Some id) now1 r prov in
  let verified :=
    Dev.handleVerifyOTP sent.1.2 (Bearer uid exp) id (generateOTP r) now2 in
  sent.1.1.1 = 200
  /\ verified.1.1 = 200
  /\ SecurityResponse.downloadUrl verified.1.2
     = Some (default "undefined" (Document.fileUrl doc) +:+ "?token="
               +:+ Dev.downloadToken id now2)
  /\ Dev.handleGetFile verified.2 id (Some (Dev.downloadToken id now2))
     = Dev.Streamed doc
  /\ Dev.handleGetFile verified.2 id None
     = Dev.Refused 403 "Access token required for secure downloads".
Proof.
  intros Huid H0 H1 H2 Huser Hsuffix Hfresh Hlive upload Hdoc id sent
    verified.
  pose proof (upload_outcome toLowerCase s (Bearer uid exp) name type
                semester year (Dev.Boolean true) metadata file now0 suffix)
    as Hup.
  cbv zeta in Hup. fold upload in Hup. rewrite Hdoc in Hup.
  destruct Hup as (_ & _ & Hdocs & Husers & Hotps & _ & Howner & Hid & _ & _
                   & _ & Hsecure & _).
  assert (Hsec : Document.isSecure doc = true) by (apply Hsecure; auto).
  cbn [Dev.getUserFromToken] in Howner. rewrite (token_live _ _ H0) in Howner.
  injection Howner as Howner.
  assert (Hidne : id <> "") by (subst id; rewrite Hid; apply newId_nonempty).
  assert (Hwf : well_formed_id id)
    by (subst id; rewrite Hid; apply newId_well_formed; exact Hsuffix).
  assert (Hfind1 : forall st, Dev.documents st = Dev.documents upload.2 ->
            Dev.findDocument st id uid = Some doc).
  { intros st Hst. unfold Dev.findDocument. rewrite Hst, Hdocs.
    apply find_after_append.
    - intros d Hd. apply andb_false_iff. left. apply String.eqb_neq.
      subst id. rewrite Hid. apply Hfresh. exact Hd.
    - rewrite <- Howner, !String.eqb_refl. reflexivity. }
  assert (Hfind2 : forall st, Dev.documents st = Dev.documents upload.2 ->
            List.find (fun d => String.eqb (Document.id d) id)
              (Dev.documents st) = Some doc).
  { intros st Hst. rewrite Hst, Hdocs. apply find_after_append.
    - intros d Hd. apply String.eqb_neq. subst id. rewrite Hid.
      apply Hfresh. exact Hd.
    - apply String.eqb_refl. }
  assert (Huser1 : Dev.findUserById upload.2 uid = Some user).
  { unfold Dev.findUserById in *. rewrite Husers. exact Huser. }
  assert (Hsent : sent
                  = (200,
                     SecurityResponse.mk true None (Some true) None
                       (SecurityResponse.message sent.1.1.2),
                     Dev.set_otps upload.2
                       (<[id := Dev.DocOTP.mk (generateOTP r)
                                  (now1 + FIVE_MINUTES) (User.email user)]>
                          (Dev.otps upload.2)),
                     sent.2)).
  { subst sent. unfold Dev.handleSendOTP. cbn [Dev.getUserFromToken].
    rewrite (token_live _ _ H1), (truthy_Some uid Huid),
      (truthy_Some id Hidne).
    cbn [negb default from_option Datatypes.id].
    rewrite (Hfind1 _ eq_refl), Hsec, Huser1. cbn [negb].
    destruct (Dev.sendOTPToEmailAndPhone _ _ _ _ _ _) as [res out].
    reflexivity. }
  set (s2 := sent.1.2) in *.
  assert (Hs2 : s2 = Dev.set_otps upload.2
                       (<[id := Dev.DocOTP.mk (generateOTP r)
                                  (now1 + FIVE_MINUTES) (User.email user)]>
                          (Dev.otps upload.2)))
    by (subst s2; rewrite Hsent; reflexivity).
  assert (Hverified : verified
                      = (200,
                         SecurityResponse.mk true
                           (Some (default "undefined" (Document.fileUrl doc)
                                    +:+ "?token="
                                    +:+ Dev.downloadToken id now2))
                           None
                           (Some (Clock.toISOString (now2 + 10 * 60 * 1000)))
                           "OTP verified successfully",
                         Dev.set_otps s2 (delete id (Dev.otps s2)))).
  { subst verified. unfold Dev.handleVerifyOTP. cbn [Dev.getUserFromToken].
    rewrite (token_live _ _ H2), (truthy_Some uid Huid).
    cbn [negb default from_option Datatypes.id].
    rewrite (Hfind1 s2) by (rewrite Hs2; reflexivity).
    replace (Dev.otps s2 !! id)
      with (Some (Dev.DocOTP.mk (generateOTP r) (now1 + FIVE_MINUTES)
                    (User.email user)))
      by (rewrite Hs2; cbn [Dev.otps Dev.set_otps]; symmetry;
          apply lookup_insert_eq).
    cbn [Dev.DocOTP.expiresAt Dev.DocOTP.code].
    rewrite (token_live _ _ Hlive), String.eqb_refl. reflexivity. }
  split; [rewrite Hsent; reflexivity|].
  rewrite Hverified. cbn [fst snd SecurityResponse.downloadUrl].
  split; [reflexivity|]. split; [reflexivity|].
  unfold Dev.handleGetFile.
  rewrite (Hfind2 (Dev.set_otps s2 (delete id (Dev.otps s2))))
    by (rewrite Hs2; reflexivity).
  rewrite Hsec, (truthy_Some _ (downloadToken_nonempty id now2)).
  cbn [negb default from_option Datatypes.id truthy].
  unfold Dev.accessTokenOk. rewrite (minted_token_field id now2 Hwf).
  rewrite String.eqb_refl. split; reflexivity.
Qed.

Lemma dev_secure_upload_then_download_witness :
  let upload :=
    Dev.handleUploadDocument Scenario.toLowerCase Scenario.store0
      Scenario.session (Some "Lab report") (Some transcript)
      (Some "Semester 5") (Some "2026") (Dev.Boolean true) None None
      Scenario.noon "k3x9q0a1z" in
  (Dev.handleSendOTP Scenario.configured upload.2 Scenario.session
     (Some "1793534696789k3x9q0a1z") (Scenario.noon + 1000) 0
     Scenario.both_accept).1.1.1 = 200.
Proof.
  refine (proj1 (dev_secure_upload_then_download Scenario.configured
                   Scenario.toLowerCase Scenario.store0 "u1" "k3x9q0a1z"
                   Scenario.alice (Scenario.noon + 86400000) Scenario.noon
                   (Scenario.noon + 1000) (Scenario.noon + 2000) 0
                   (Some "Lab report") (Some transcript) (Some "Semester 5")
                   (Some "2026") None None Scenario.both_accept
                   (Document.mk "1793534696789k3x9q0a1z" "Lab report"
                      transcript "Semester 5" "2026" "2026-11-01" "0 B" true
                      "u1" (Some "/api/files/1793534696789k3x9q0a1z") None)
                   _ _ _ _ _ _ _ _ _)).
  - discriminate.
  - vm_compute. discriminate.
  - vm_compute. discriminate.
  - vm_compute. discriminate.
  - reflexivity.
  - reflexivity.
  - intros d [].
  - vm_compute. discriminate.
  - reflexivity.
Defined.

(** ** The validators *)

(** What a quantified class matches: a run of characters of the class,
    within the bounds of the quantifier, followed by what the rest of the
    pattern matches. *)
Lemma repeat_spec (k : list N -> bool) (class : N -> bool) (s : list N) :
  forall (least : nat) (most : option nat),
    Js.RegExp.repeat k class least most s = true
    <-> exists run rest,
          s = (run ++ rest)%list /\ forallb class run = true
          /\ (least <= length run)%nat
          /\ match most with
             | Some m => (length run <= m)%nat
             | None => True
             end
          /\ k rest = true.
Proof.
  induction s as [|c s IH]; intros least most.
  - cbn [Js.RegExp.repeat]. rewrite orb_false_r. split.
    + destruct least; [|discriminate]. intros Hk. exists [], [].
      cbn. repeat split; try lia; [destruct most; [lia|exact I]|exact Hk].
    + intros (run & rest & Heq & _ & Hleast & _ & Hk).
      symmetry in Heq. apply List.app_eq_nil in Heq as [-> ->].
      cbn in Hleast. destruct least; [exact Hk|lia].
  - cbn [Js.RegExp.repeat]. rewrite orb_true_iff, !andb_true_iff, IH.
    split.
    + intros [Hnone|[[Hc Hmost] (run & rest & -> & Hrun & Hleast & Hm & Hk)]].
      * destruct least; [|discriminate]. exists [], (c :: s).
        cbn. repeat split; try lia; [destruct most; [lia|exact I]|exact Hnone].
      * exists (c :: run), rest. cbn [app forallb length].
        rewrite Hc, Hrun. repeat split; try lia; [|exact Hk].
        destruct most as [[|m]|]; cbn in *; [discriminate|lia|exact I].
    + intros (run & rest & Heq & Hrun & Hleast & Hm & Hk).
      destruct run as [|c' run].
      * left. cbn in Heq, Hleast. subst rest.
        destruct least; [exact Hk|lia].
      * right. cbn in Heq. injection Heq as <- ->.
        cbn in Hrun. apply andb_true_iff in Hrun as [Hc Hrun].
        cbn [length] in Hleast, Hm. split.
        -- split; [exact Hc|]. destruct most as [[|m]|]; [lia|reflexivity..].
        -- exists run, rest. repeat split; try assumption; try lia.
           destruct most as [m|]; cbn; [lia|exact I].
Qed.

Lemma forallb_one (c : N) (run : list N) :
  forallb (N.eqb c) run = true -> (1 <= length run)%nat ->
  (length run <= 1)%nat -> run = [c].
Proof.
  destruct run as [|x [|y run]]; cbn; try lia.
  rewrite andb_true_r. intros H _ _. apply N.eqb_eq in H. congruence.
Qed.

Lemma exec_end (s : list N) : Js.RegExp.exec [] s = true <-> s = [].
Proof. destruct s; cbn; split; congruence. Qed.

(** X19. The addresses that [isValidEmail] accepts: a non-empty local
    part, one [@], and a host that has a dot with something on both sides
    of it, none of the three parts holding white space or a second [@].
    The parts around the dot may hold further dots. *)
Theorem isValidEmail_accepts (email : string) :
  Dev.isValidEmail email = true
  <-> exists local host tld,
        Js.codePoints (bytes_of_string email)
        = (local ++ [64] ++ host ++ [46] ++ tld)%list
        /\ local <> [] /\ host <> [] /\ tld <> []
        /\ forallb Dev.is_plain local = true
        /\ forallb Dev.is_plain host = true
        /\ forallb Dev.is_plain tld = true.
Proof.
  unfold Dev.isValidEmail, Js.RegExp.test. cbn [Js.RegExp.exec].
  cbn [Js.RegExp.class Js.RegExp.least Js.RegExp.most Js.RegExp.plus
       Js.RegExp.one].
  set (cps := Js.codePoints (bytes_of_string email)). clearbody cps.
  rewrite repeat_spec. split.
  - intros (local & r1 & -> & Hlocal & Hl1 & _ & H).
    apply repeat_spec in H as (at_ & r2 & -> & Hat & Ha1 & Ha2 & H).
    apply (forallb_one 64) in Hat; [subst at_|assumption..].
    apply repeat_spec in H as (host & r3 & -> & Hhost & Hh1 & _ & H).
    apply repeat_spec in H as (dot & r4 & -> & Hdot & Hd1 & Hd2 & H).
    apply (forallb_one 46) in Hdot; [subst dot|assumption..].
    apply repeat_spec in H as (tld & r5 & -> & Htld & Ht1 & _ & H).
    apply exec_end in H. subst r5. rewrite List.app_nil_r.
    exists local, host, tld.
    repeat split; try assumption; intros ->; cbn in *; lia.
  - intros (local & host & tld & -> & Hl & Hh & Ht & Hlocal & Hhost & Htld).
    exists local, ([64] ++ host ++ [46] ++ tld)%list.
    split; [reflexivity|]. split; [exact Hlocal|].
    split; [destruct local; [contradiction|cbn; lia]|]. split; [exact I|].
    apply repeat_spec. exists [64], (host ++ [46] ++ tld)%list.
    repeat split; try reflexivity; try (cbn; lia).
    apply repeat_spec. exists host, ([46] ++ tld)%list.
    split; [reflexivity|]. split; [exact Hhost|].
    split; [destruct host; [contradiction|cbn; lia]|]. split; [exact I|].
    apply repeat_spec. exists [46], tld.
    repeat split; try reflexivity; try (cbn; lia).
    apply repeat_spec. exists tld, [].
    split; [symmetry; apply List.app_nil_r|]. split; [exact Htld|].
    split; [destruct tld; [contradiction|cbn; lia]|]. split; [exact I|].
    reflexivity.
Qed.

(** X20. The numbers that [isValidPhone] accepts: an optional [+] followed
    by ten or more characters that are digits, white space, hyphens or
    parentheses.  No digit is required, and a [+] anywhere but at the
    start is refused. *)
Theorem isValidPhone_accepts (phone : string) :
  Dev.isValidPhone phone = true
  <-> exists body,
        (Js.codePoints (bytes_of_string phone) = body
         \/ Js.codePoints (bytes_of_string phone) = 43 :: body)
        /\ forallb Dev.is_dial body = true
        /\ (10 <= length body)%nat.
Proof.
  unfold Dev.isValidPhone, Js.RegExp.test. cbn [Js.RegExp.exec].
  cbn [Js.RegExp.class Js.RegExp.least Js.RegExp.most Js.RegExp.optional
       Js.RegExp.at_least].
  set (cps := Js.codePoints (bytes_of_string phone)). clearbody cps.
  rewrite repeat_spec. split.
  - intros (sign & r1 & -> & Hsign & _ & Hs & H).
    apply repeat_spec in H as (body & r2 & -> & Hbody & Hlen & _ & H).
    apply exec_end in H. subst r2. rewrite List.app_nil_r.
    exists body. split; [|auto].
    destruct sign as [|c [|c' sign]]; cbn in Hs; [left; reflexivity| |lia].
    right. cbn [forallb] in Hsign. rewrite andb_true_r in Hsign.
    apply N.eqb_eq in Hsign. subst c. reflexivity.
  - intros (body & Hcps & Hbody & Hlen).
    assert (Hrest : Js.RegExp.repeat (Js.RegExp.exec []) Dev.is_dial 10 None
                      body = true).
    { apply repeat_spec. exists body, [].
      split; [symmetry; apply List.app_nil_r|]. auto. }
    destruct Hcps as [->| ->].
    + exists [], body. cbn. repeat split; try lia. exact Hrest.
    + exists [43], body. cbn. repeat split; try lia. exact Hrest.
Qed.

(** ** Accounts *)

Lemma truthy_spec (x : option string) :
  truthy x = true <-> exists s, x = Some s /\ s <> "".
Proof.
  destruct x as [s|]; cbn.
  - rewrite negb_true_iff, String.eqb_neq. split; [eauto|].
    intros (s' & H & Hs). congruence.
  - split; [discriminate|]. intros (s' & H & _). discriminate.
Qed.

(** What a registration does to the store, reply by reply. *)
Lemma register_outcome (toLowerCase : string -> string) (s : Dev.Store)
    (name email phone password : option string) (now : N)
    (suffix hashed : string) :
  let out :=
    Dev.handleRegister toLowerCase s name email phone password now suffix
      hashed in
  match Dev.SessionResponse.user out.1.2 with
  | Some public =>
      exists n e p pw,
        name = Some n /\ email = Some e /\ phone = Some p
        /\ password = Some pw /\ pw <> ""
        /\ (2 <= Js.length (Js.trim n))
        /\ Dev.isValidEmail e = true /\ Dev.isValidPhone p = true
        /\ Dev.isValidPassword pw = true
        /\ (forall u, In u (Dev.users s) ->
              toLowerCase (User.email u) <> toLowerCase e
              /\ User.phone u <> Dev.keep_chars is_digit p)
        /\ let newUser :=
             User.mk (newId now suffix) (Js.trim n)
               (Js.trim (toLowerCase e)) (Js.trim p) hashed
               (Clock.toISOString now) in
           out
           = (201,
              Dev.SessionResponse.mk true (Some (Dev.withoutPassword newUser))
                (Some (Bearer (newId now suffix) (now + Dev.ONE_DAY)))
                "Account created successfully",
              Dev.set_users s (Dev.users s ++ [newUser])%list)
  | None =>
      out.2 = s /\ Dev.SessionResponse.success out.1.2 = false
      /\ (out.1.1 = 400 \/ out.1.1 = 409)
  end.
Proof.
  cbv zeta. unfold Dev.handleRegister.
  destruct (truthy name) eqn:En; cbn [negb orb]; [|cbn; auto].
  destruct (truthy email) eqn:Ee; cbn [negb orb]; [|cbn; auto].
  destruct (truthy phone) eqn:Ep; cbn [negb orb]; [|cbn; auto].
  destruct (truthy password) eqn:Ew; cbn [negb orb]; [|cbn; auto].
  apply truthy_spec in En as (n & -> & Hn), Ee as (e & -> & He),
    Ep as (p & -> & Hp), Ew as (pw & -> & Hpw).
  cbn [default from_option Datatypes.id].
  destruct (N.ltb_spec (Js.length (Js.trim n)) 2) as [|Hlen]; [cbn; auto|].
  destruct (Dev.isValidEmail e) eqn:Hemail; cbn [negb]; [|cbn; auto].
  destruct (Dev.isValidPhone p) eqn:Hphone; cbn [negb]; [|cbn; auto].
  destruct (Dev.isValidPassword pw) eqn:Hpass; cbn [negb]; [|cbn; auto].
  destruct (List.find _ (Dev.users s)) as [existing|] eqn:Efind.
  - destruct (String.eqb _ _); cbn; auto.
  - cbn [fst snd Dev.SessionResponse.user].
    exists n, e, p, pw. repeat (split; [first [reflexivity|assumption]|]).
    split; [|reflexivity].
    intros u Hu. apply (List.find_none _ _ Efind) in Hu.
    apply orb_false_iff in Hu as [H1 H2].
    apply String.eqb_neq in H1, H2. auto.
Qed.

Lemma findUserByEmail_new (toLowerCase : string -> string) (s : Dev.Store)
    (newUser : User.t) (e : string) :
  (forall u, In u (Dev.users s) ->
     toLowerCase (User.email u) <> toLowerCase e) ->
  toLowerCase (User.email newUser) = toLowerCase e ->
  Dev.findUserByEmail toLowerCase
    (Dev.set_users s (Dev.users s ++ [newUser])%list) e = Some newUser.
Proof.
  intros Hold Hnew. unfold Dev.findUserByEmail. cbn [Dev.users Dev.set_users].
  induction (Dev.users s) as [|u users IH]; cbn.
  - rewrite Hnew, String.eqb_refl. reflexivity.
  - destruct (String.eqb_spec (toLowerCase (User.email u)) (toLowerCase e))
      as [Heq|_].
    + exfalso. apply (Hold u); [left; reflexivity|exact Heq].
    + apply IH. intros v Hv. apply Hold. right. exact Hv.
Qed.

(** X21. Registering and logging in.  A registration that succeeds is
    answered 201, appends one account (trimmed name and phone, lowercased
    e-mail, the hash as password, a new id) and changes nothing else; it
    happens only for a valid e-mail, phone and password and when no account
    has that e-mail up to case.  Logging in afterwards with the registered
    e-mail and password is answered 200 with that account and a token for
    it that expires a day after the login, provided the hash matches the
    password and lowercasing is idempotent on the address. *)
Theorem dev_register_then_login
    (bcrypt_compare : string -> string -> bool)
    (toLowerCase : string -> string) (s : Dev.Store)
    (name phone : option string) (e pw suffix hashed : string)
    (now later : N) :
  let out :=
    Dev.handleRegister toLowerCase s name (Some e) phone (Some pw) now suffix
      hashed in
  Dev.SessionResponse.success out.1.2 = true ->
  bcrypt_compare pw hashed = true ->
  toLowerCase (Js.trim (toLowerCase e)) = toLowerCase e ->
  exists newUser,
    out.2 = Dev.set_users s (Dev.users s ++ [newUser])%list
    /\ out.1.1 = 201
    /\ User.id newUser = newId now suffix
    /\ User.email newUser = Js.trim (toLowerCase e)
    /\ User.password newUser = hashed
    /\ Dev.isValidEmail e = true
    /\ (forall u, In u (Dev.users s) ->
          toLowerCase (User.email u) <> toLowerCase e)
    /\ Dev.handleLogin bcrypt_compare toLowerCase out.2 (Some e) (Some pw)
         later
       = (200,
          Dev.SessionResponse.mk true (Some (Dev.withoutPassword newUser))
            (Some (Bearer (newId now suffix) (later + Dev.ONE_DAY)))
            "Login successful").
Proof.
  intros out Hok Hhash Hlower.
  pose proof (register_outcome toLowerCase s name (Some e) phone (Some pw)
                now suffix hashed) as H.
  cbv zeta in H. fold out in H.
  destruct (Dev.SessionResponse.user out.1.2) as [public|].
  2: { destruct H as (_ & Hfail & _). congruence. }
  destruct H as (n & e' & p & pw' & -> & He & -> & Hpw & Hpwne & Hlen & Hemail
                 & Hphone & Hpass & Hfresh & Hout).
  injection He as <-. injection Hpw as <-. cbv zeta in Hout.
  set (newUser := User.mk _ _ _ _ _ _) in Hout.
  exists newUser. rewrite Hout. cbn [fst snd].
  repeat (split; [first [reflexivity|assumption]|]).
  split; [intros u Hu; apply (Hfresh u Hu)|].
  assert (He : e <> "").
  { intros ->. vm_compute in Hemail. discriminate. }
  unfold Dev.handleLogin.
  rewrite (truthy_Some e He), (truthy_Some pw Hpwne).
  cbn [negb orb default from_option Datatypes.id]. rewrite Hemail.
  cbn [negb].
  rewrite (findUserByEmail_new toLowerCase s newUser e);
    [|intros u Hu; apply (Hfresh u Hu)|exact Hlower].
  cbn [User.password newUser]. subst newUser. cbn [User.password].
  rewrite Hhash. reflexivity.
Qed.

Lemma find_first_match {A : Type} (f : A -> bool) (l : list A) (x : A) :
  In x l -> f x = true -> exists y, List.find f l = Some y.
Proof.
  intros Hin Hx. destruct (List.find f l) as [y|] eqn:E; [eauto|].
  rewrite (List.find_none _ _ E x Hin) in Hx. discriminate.
Qed.

(** X22. How long a login lasts.  A login that succeeds returns the
    account that matched the e-mail and whose hash matched the password,
    and a token for its id that expires twenty-four hours later.  The token
    check accepts that token up to and including the instant of expiry and
    answers "Token expired" from the next millisecond on. *)
Theorem dev_login_token_lifetime
    (bcrypt_compare : string -> string -> bool)
    (toLowerCase : string -> string) (s : Dev.Store)
    (email password : option string) (now : N) :
  let reply := Dev.handleLogin bcrypt_compare toLowerCase s email password now in
  Dev.SessionResponse.success reply.2 = true ->
  exists user,
    In user (Dev.users s)
    /\ reply
       = (200,
          Dev.SessionResponse.mk true (Some (Dev.withoutPassword user))
            (Some (Bearer (User.id user) (now + Dev.ONE_DAY)))
            "Login successful")
    /\ toLowerCase (User.email user) = toLowerCase (default "" email)
    /\ bcrypt_compare (default "" password) (User.password user) = true
    /\ forall later,
         (later <= now + Dev.ONE_DAY ->
          (Dev.handleVerifyToken s (Bearer (User.id user) (now + Dev.ONE_DAY))
             later).1 = 200)
         /\ (now + Dev.ONE_DAY < later ->
             Dev.handleVerifyToken s
               (Bearer (User.id user) (now + Dev.ONE_DAY)) later
             = (401,
                Dev.SessionResponse.mk false None None "Token expired")).
Proof.
  cbv zeta. unfold Dev.handleLogin.
  destruct (negb (truthy email) || negb (truthy password)); [discriminate|].
  destruct (negb (Dev.isValidEmail _)); [discriminate|].
  destruct (Dev.findUserByEmail toLowerCase s _) as [user|] eqn:Efind;
    [|discriminate].
  destruct (bcrypt_compare _ _) eqn:Ehash; cbn [negb]; [|discriminate].
  intros _. exists user.
  apply List.find_some in Efind as [Hin Hmatch].
  apply String.eqb_eq in Hmatch.
  repeat (split; [first [reflexivity|assumption]|]).
  intros later. unfold Dev.handleVerifyToken. split.
  - intros Hlive. rewrite (token_live _ _ Hlive).
    destruct (find_first_match (fun u => String.eqb (User.id u) (User.id user))
                (Dev.users s) user Hin (String.eqb_refl _)) as [found Hfound].
    unfold Dev.findUserById. rewrite Hfound. reflexivity.
  - intros Hlate. apply N.ltb_lt in Hlate. rewrite Hlate. reflexivity.
Qed.

(** ** Deleting an account *)

Lemma remove_first_spec (id : string) (l rest : list User.t)
    (user : User.t) :
  Dev.remove_first id l = Some (user, rest) ->
  User.id user = id
  /\ exists before behind,
       l = (before ++ user :: behind)%list
       /\ rest = (before ++ behind)%list
       /\ forall u, In u before -> User.id u <> id.
Proof.
  revert rest. induction l as [|u l IH]; intros rest H; [discriminate|].
  cbn in H. destruct (String.eqb_spec (User.id u) id) as [Heq|Hne].
  - injection H as <- <-. split; [exact Heq|].
    exists [], l. repeat split. intros v [].
  - destruct (Dev.remove_first id l) as [[x rest']|]; [|discriminate].
    injection H as <- <-.
    destruct (IH rest' eq_refl) as (Hid & before & behind & -> & -> & Hb).
    split; [exact Hid|]. exists (u :: before), behind.
    repeat split. intros v [<-|Hv]; [exact Hne|apply Hb; exact Hv].
Qed.

Lemma remove_first_finds (id : string) (l : list User.t) (user : User.t) :
  List.find (fun u => String.eqb (User.id u) id) l = Some user ->
  exists rest, Dev.remove_first id l = Some (user, rest).
Proof.
  induction l as [|u l IH]; [discriminate|]. cbn.
  destruct (String.eqb (User.id u) id).
  - intros H. injection H as <-. eauto.
  - intros H. destruct (IH H) as [rest ->]. eauto.
Qed.

Lemma find_by_id_none (l : list User.t) (id : string) :
  (forall u, In u l -> User.id u <> id) ->
  List.find (fun u => String.eqb (User.id u) id) l = None.
Proof.
  intros H. induction l as [|u l IH]; [reflexivity|]. cbn.
  destruct (String.eqb_spec (User.id u) id) as [Heq|_].
  - exfalso. apply (H u); [left; reflexivity|exact Heq].
  - apply IH. intros v Hv. apply H. right. exact Hv.
Qed.

Lemma find_skips (before behind : list User.t) (user : User.t)
    (id : string) :
  User.id user <> id ->
  List.find (fun u => String.eqb (User.id u) id) (before ++ user :: behind)
  = List.find (fun u => String.eqb (User.id u) id) (before ++ behind).
Proof.
  intros Hne. induction before as [|u before IH]; cbn.
  - apply String.eqb_neq in Hne. rewrite Hne. reflexivity.
  - destruct (String.eqb (User.id u) id); [reflexivity|exact IH].
Qed.

(** X23. Deleting an account.  The handler finds the account by the id in
    the token and does not look at the expiry of the token: with any expiry,
    the request of an existing account is answered 200.  With account ids
    that are distinct, afterwards no account has the id, the token is
    refused by the token check, every other account is found as before, the
    documents of the account are gone and those of others are kept in
    their order.  The pending codes are not touched. *)
Theorem dev_delete_account (s : Dev.Store) (uid : string) (user : User.t)
    (exp : N) :
  Dev.findUserById s uid = Some user ->
  List.NoDup (map User.id (Dev.users s)) ->
  let out := Dev.handleDeleteAccount s (Bearer uid exp) in
  out.1 = (200, AuthResponse.mk true "Account deleted successfully")
  /\ Dev.findUserById out.2 uid = None
  /\ (forall other, other <> uid ->
        Dev.findUserById out.2 other = Dev.findUserById s other)
  /\ (forall exp' now, (Dev.handleVerifyToken out.2 (Bearer uid exp') now).1
                       <> 200)
  /\ Dev.documents out.2
     = List.filter (fun doc => negb (String.eqb (Document.userId doc) uid))
         (Dev.documents s)
  /\ Dev.downloadOTPs out.2 = Dev.downloadOTPs s
  /\ Dev.otps out.2 = Dev.otps s.
Proof.
  intros Hfind Hkey out. subst out. unfold Dev.handleDeleteAccount.
  destruct (find_by_id User.id _ _ _ Hfind) as [Hid _].
  destruct (remove_first_finds uid _ user Hfind) as [rest Hremove].
  rewrite Hremove.
  apply remove_first_spec in Hremove
    as (_ & before & behind & Husers & -> & Hbefore).
  cbn [fst snd].
  set (s' := Dev.deleteUserDocuments _ _).
  assert (Husers' : Dev.users s' = (before ++ behind)%list) by reflexivity.
  assert (Hgone : Dev.findUserById s' uid = None).
  { unfold Dev.findUserById. rewrite Husers'. apply find_by_id_none.
    intros u Hu Hsame. rewrite Husers, List.map_app in Hkey. cbn [map] in Hkey.
    apply List.NoDup_remove_2 in Hkey. apply Hkey.
    rewrite <- List.map_app, Hid, <- Hsame. apply List.in_map. exact Hu. }
  split; [reflexivity|]. split; [exact Hgone|]. split; [|split].
  - intros other Hother. unfold Dev.findUserById. rewrite Husers', Husers.
    symmetry. apply find_skips. congruence.
  - intros exp' now. unfold Dev.handleVerifyToken.
    destruct (exp' <? now); [discriminate|]. rewrite Hgone. discriminate.
  - subst s'. cbn. rewrite Hid. repeat split.
Qed.

(** ** Changing an account *)

Lemma update_first_spec (id : string) (f : User.t -> User.t)
    (l : list User.t) (user : User.t) :
  List.find (fun u => String.eqb (User.id u) id) l = Some user ->
  exists before behind,
    l = (before ++ user :: behind)%list
    /\ Dev.update_first id f l = (before ++ f user :: behind)%list
    /\ forall u, In u before -> User.id u <> id.
Proof.
  induction l as [|u l IH]; [discriminate|]. cbn.
  destruct (String.eqb_spec (User.id u) id) as [Heq|Hne].
  - intros H. injection H as <-. exists [], l. repeat split. intros v [].
  - intros H. destruct (IH H) as (before & behind & -> & -> & Hb).
    exists (u :: before), behind. repeat split.
    intros v [<-|Hv]; [exact Hne|apply Hb; exact Hv].
Qed.

Lemma find_at (before behind : list User.t) (user : User.t) (id : string) :
  (forall u, In u before -> User.id u <> id) -> User.id user = id ->
  List.find (fun u => String.eqb (User.id u) id) (before ++ user :: behind)
  = Some user.
Proof.
  intros Hb Hid. induction before as [|u before IH]; cbn.
  - rewrite Hid, String.eqb_refl. reflexivity.
  - destruct (String.eqb_spec (User.id u) id) as [Heq|_].
    + exfalso. apply (Hb u); [left; reflexivity|exact Heq].
    + apply IH. intros v Hv. apply Hb. right. exact Hv.
Qed.

Lemma find_other (before behind : list User.t) (user user' : User.t)
    (id : string) :
  User.id user <> id -> User.id user' <> id ->
  List.find (fun u => String.eqb (User.id u) id) (before ++ user' :: behind)
  = List.find (fun u => String.eqb (User.id u) id) (before ++ user :: behind).
Proof.
  intros H1 H2. rewrite !find_skips by assumption. reflexivity.
Qed.

(** What replacing the account with id [uid] by one of the same id does to
    the lookups. *)
Lemma update_first_lookup (s : Dev.Store) (uid : string)
    (user updated : User.t) :
  Dev.findUserById s uid = Some user -> User.id updated = User.id user ->
  let s' :=
    Dev.set_users s (Dev.update_first uid (fun _ => updated) (Dev.users s)) in
  Dev.findUserById s' uid = Some updated
  /\ (forall other, other <> uid ->
        Dev.findUserById s' other = Dev.findUserById s other)
  /\ map User.id (Dev.users s') = map User.id (Dev.users s)
  /\ Dev.documents s' = Dev.documents s
  /\ Dev.downloadOTPs s' = Dev.downloadOTPs s /\ Dev.otps s' = Dev.otps s.
Proof.
  intros Hfind Hsame s'. destruct (find_by_id User.id _ _ _ Hfind) as [Hid _].
  destruct (update_first_spec uid (fun _ => updated) _ user Hfind)
    as (before & behind & Husers & Hupdate & Hb).
  subst s'. unfold Dev.findUserById. cbn [Dev.users Dev.set_users
    Dev.documents Dev.downloadOTPs Dev.otps].
  rewrite Hupdate, Husers. repeat split.
  - apply find_at; [exact Hb|congruence].
  - intros other Hother. apply find_other; congruence.
  - rewrite !List.map_app. cbn [map]. rewrite Hsame. reflexivity.
Qed.

(** X24. Changing the password.  The handler does not look at the expiry
    of the token.  For a request of an existing account that carries both
    passwords: when the new password has six characters or more and the
    current one matches the stored hash, the reply is 200 and the account
    carries the new hash while its other fields, every other account, the
    documents and the pending codes are as before; otherwise the reply is a
    failure and the store is as it was. *)
Theorem dev_change_password (bcrypt_compare : string -> string -> bool)
    (s : Dev.Store) (uid current new hashed : string) (user : User.t)
    (exp : N) :
  Dev.findUserById s uid = Some user -> current <> "" -> new <> "" ->
  let out :=
    Dev.handleChangePassword bcrypt_compare s (Bearer uid exp) (Some current)
      (Some new) hashed in
  if Dev.isValidPassword new && bcrypt_compare current (User.password user)
  then
    out.1 = (200, AuthResponse.mk true "Password changed successfully")
    /\ Dev.findUserById out.2 uid
       = Some (User.mk (User.id user) (User.name user) (User.email user)
                 (User.phone user) hashed (User.createdAt user))
    /\ (forall other, other <> uid ->
          Dev.findUserById out.2 other = Dev.findUserById s other)
    /\ map User.id (Dev.users out.2) = map User.id (Dev.users s)
    /\ Dev.documents out.2 = Dev.documents s
    /\ Dev.downloadOTPs out.2 = Dev.downloadOTPs s
    /\ Dev.otps out.2 = Dev.otps s
  else
    out.2 = s /\ AuthResponse.success out.1.2 = false
    /\ (out.1.1 = 400 \/ out.1.1 = 401).
Proof.
  intros Hfind Hcur Hnew out. subst out. unfold Dev.handleChangePassword.
  rewrite Hfind, (truthy_Some _ Hcur), (truthy_Some _ Hnew).
  cbn [negb orb default from_option Datatypes.id].
  destruct (Dev.isValidPassword new); cbn [negb andb]; [|cbn; auto].
  destruct (bcrypt_compare current (User.password user)); cbn [negb];
    [|cbn; auto].
  cbn [fst snd]. split; [reflexivity|].
  destruct (update_first_spec uid
              (fun u => User.mk (User.id u) (User.name u) (User.email u)
                          (User.phone u) hashed (User.createdAt u))
              _ user Hfind) as (before & behind & Husers & Hupdate & Hb).
  destruct (find_by_id User.id _ _ _ Hfind) as [Hid _].
  unfold Dev.findUserById. cbn [Dev.users Dev.set_users Dev.documents
    Dev.downloadOTPs Dev.otps].
  rewrite Hupdate, Husers. repeat split.
  - apply find_at; [exact Hb|exact Hid].
  - intros other Hother. apply find_other; cbn; congruence.
  - rewrite !List.map_app. reflexivity.
Qed.

(** X25. Updating a profile.  The handler does not look at the expiry of
    the token.  A reply that carries an account has status 200: the account
    of the caller was replaced in place by one with the same id, password
    hash and creation date, whose name, e-mail and phone are the trimmed
    (and, for the e-mail, lowercased) fields of the request where one was
    given and the old ones otherwise; a given e-mail or phone is valid and
    is carried by no other account (the e-mail compared up to case, the
    phone as it was sent); every other account is as before.  Every other
    reply is a failure and leaves the store as it was. *)
Theorem dev_update_profile (toLowerCase : string -> string) (s : Dev.Store)
    (uid : string) (exp : N) (name email phone : option string) :
  let out :=
    Dev.handleUpdateProfile toLowerCase s (Bearer uid exp) name email phone in
  match Dev.SessionResponse.user out.1.2 with
  | Some public =>
      exists user updated,
        Dev.findUserById s uid = Some user
        /\ out.1.1 = 200 /\ public = Dev.withoutPassword updated
        /\ User.id updated = User.id user
        /\ User.password updated = User.password user
        /\ User.createdAt updated = User.createdAt user
        /\ User.name updated
           = (if truthy name then Js.trim (default "" name)
              else User.name user)
        /\ User.email updated
           = (if truthy email then Js.trim (toLowerCase (default "" email))
              else User.email user)
        /\ User.phone updated
           = (if truthy phone then Js.trim (default "" phone)
              else User.phone user)
        /\ (truthy email = true ->
            Dev.isValidEmail (default "" email) = true
            /\ forall u, In u (Dev.users s) ->
                 toLowerCase (User.email u)
                 = toLowerCase (default "" email) ->
                 User.id u = User.id user)
        /\ (truthy phone = true ->
            Dev.isValidPhone (default "" phone) = true
            /\ forall u, In u (Dev.users s) ->
                 User.phone u = default "" phone -> User.id u = User.id user)
        /\ Dev.findUserById out.2 uid = Some updated
        /\ (forall other, other <> uid ->
              Dev.findUserById out.2 other = Dev.findUserById s other)
        /\ map User.id (Dev.users out.2) = map User.id (Dev.users s)
        /\ Dev.documents out.2 = Dev.documents s
  | None => out.2 = s /\ Dev.SessionResponse.success out.1.2 = false
  end.
Proof.
  cbv zeta. unfold Dev.handleUpdateProfile.
  destruct (Dev.findUserById s uid) as [user|] eqn:Hfind; [|cbn; auto].
  destruct (truthy email && negb (Dev.isValidEmail _)) eqn:E1; [cbn; auto|].
  destruct (truthy phone && negb (Dev.isValidPhone _)) eqn:E2; [cbn; auto|].
  destruct (truthy email && existsb _ (Dev.users s)) eqn:E3; [cbn; auto|].
  destruct (truthy phone && existsb _ (Dev.users s)) eqn:E4; [cbn; auto|].
  cbn [fst snd Dev.SessionResponse.user].
  set (updated := User.mk _ _ _ _ _ _).
  destruct (update_first_lookup s uid user updated Hfind eq_refl)
    as (H1 & H2 & H3 & H4 & _).
  exists user, updated.
  repeat (split; [reflexivity|]).
  split; [|split; [|auto]].
  - intros Ht. rewrite Ht in E1, E3. cbn [andb] in E1, E3.
    apply negb_false_iff in E1. split; [exact E1|].
    intros u Hu Hsame.
    destruct (String.eqb_spec (User.id u) (User.id user)) as [|Hne];
      [assumption|exfalso].
    assert (existsb
              (fun u0 =>
                 String.eqb (toLowerCase (User.email u0))
                   (toLowerCase (default "" email))
                 && negb (String.eqb (User.id u0) (User.id user)))
              (Dev.users s) = true); [|congruence].
    apply List.existsb_exists. exists u. split; [exact Hu|].
    rewrite Hsame, String.eqb_refl. apply String.eqb_neq in Hne.
    rewrite Hne. reflexivity.
  - intros Ht. rewrite Ht in E2, E4. cbn [andb] in E2, E4.
    apply negb_false_iff in E2. split; [exact E2|].
    intros u Hu Hsame.
    destruct (String.eqb_spec (User.id u) (User.id user)) as [|Hne];
      [assumption|exfalso].
    assert (existsb
              (fun u0 =>
                 String.eqb (User.phone u0) (default "" phone)
                 && negb (String.eqb (User.id u0) (User.id user)))
              (Dev.users s) = true); [|congruence].
    apply List.existsb_exists. exists u. split; [exact Hu|].
    rewrite Hsame, String.eqb_refl. apply String.eqb_neq in Hne.
    rewrite Hne. reflexivity.
Qed.

Lemma find_none_of {A : Type} (f : A -> bool) (l : list A) :
  (forall x, In x l -> f x = false) -> List.find f l = None.
Proof.
  intros H. induction l as [|a l IH]; [reflexivity|]. cbn.
  rewrite (H a (or_introl eq_refl)). apply IH.
  intros x Hx. apply H. right. exact Hx.
Qed.

(** X26. The phone check of the registration compares the stored numbers
    with the digits of the submitted one, while a registration stores the
    number as submitted, trimmed.  So after a registration whose trimmed
    number is not made of digits only (it has a [+], a space, a hyphen),
    a second registration with the very same number, a valid name and
    password and an e-mail that no account has, is accepted too: both
    accounts then carry the same phone number. *)
Theorem dev_register_accepts_repeated_phone
    (toLowerCase : string -> string) (s : Dev.Store)
    (name1 email1 password1 : option string)
    (p n2 e2 pw2 suffix1 suffix2 hashed1 hashed2 : string) (now1 now2 : N) :
  let first :=
    Dev.handleRegister toLowerCase s name1 email1 (Some p) password1 now1
      suffix1 hashed1 in
  Dev.SessionResponse.success first.1.2 = true ->
  Js.trim p <> Dev.keep_chars is_digit p ->
  n2 <> "" -> 2 <= Js.length (Js.trim n2) ->
  Dev.isValidEmail e2 = true -> Dev.isValidPassword pw2 = true ->
  Dev.findUserByEmail toLowerCase first.2 e2 = None ->
  let second :=
    Dev.handleRegister toLowerCase first.2 (Some n2) (Some e2) (Some p)
      (Some pw2) now2 suffix2 hashed2 in
  second.1.1 = 201
  /\ exists user1 user2,
       Dev.users second.2 = (Dev.users s ++ [user1; user2])%list
       /\ User.phone user1 = Js.trim p /\ User.phone user2 = Js.trim p.
Proof.
  intros first Hok Hformat Hn2 Hlen2 He2 Hpw2 Hfree second.
  pose proof (register_outcome toLowerCase s name1 email1 (Some p) password1
                now1 suffix1 hashed1) as H.
  cbv zeta in H. fold first in H.
  destruct (Dev.SessionResponse.user first.1.2) as [public|].
  2: { destruct H as (_ & Hfail & _). congruence. }
  destruct H as (n & e & p' & pw & -> & -> & Hp & -> & Hpwne & Hlen & Hemail
                 & Hphone & Hpass & Hfresh & Hout).
  injection Hp as <-. cbv zeta in Hout.
  set (user1 := User.mk _ _ _ _ _ _) in Hout.
  assert (Hs1 : first.2 = Dev.set_users s (Dev.users s ++ [user1])%list)
    by (rewrite Hout; reflexivity).
  assert (He2ne : e2 <> "").
  { intros ->. vm_compute in He2. discriminate. }
  assert (Hpne : p <> "").
  { intros ->. vm_compute in Hphone. discriminate. }
  assert (Hpw2ne : pw2 <> "").
  { intros ->. vm_compute in Hpw2. discriminate. }
  subst second. unfold Dev.handleRegister.
  rewrite (truthy_Some _ Hn2), (truthy_Some _ He2ne), (truthy_Some _ Hpne),
    (truthy_Some _ Hpw2ne).
  cbn [negb orb default from_option Datatypes.id].
  apply N.ltb_ge in Hlen2. rewrite Hlen2, He2, Hphone, Hpw2. cbn [negb].
  replace (List.find _ (Dev.users first.2)) with (@None User.t).
  - cbn [fst snd]. split; [reflexivity|].
    eexists user1, _. rewrite Hs1. cbn [Dev.users Dev.set_users].
    rewrite <- List.app_assoc. split; [reflexivity|]. split; reflexivity.
  - symmetry. apply find_none_of. intros u Hu.
    apply orb_false_iff. split.
    + unfold Dev.findUserByEmail in Hfree.
      apply (List.find_none _ _ Hfree u Hu).
    + apply String.eqb_neq. rewrite Hs1 in Hu. cbn in Hu.
      apply List.in_app_or in Hu as [Hu|[<-|[]]].
      * apply (Hfresh u Hu).
      * exact Hformat.
Qed.

(** ** The code of the in-memory step-up *)

Lemma dev_issue (bcrypt_compare : string -> string -> bool) (env : Env.t)
    (s : Dev.Store) (pw uid : string) (user : User.t) (exp now r : N)
    (prov : Providers) :
  pw <> "" -> now <= exp -> Dev.findUserById s uid = Some user ->
  bcrypt_compare pw (User.password user) = true ->
  let out :=
    Dev.handleVerifyPasswordForDownload bcrypt_compare env s (Some pw)
      (Bearer uid exp) now r prov in
  out.1.1.1 = 200 /\ AuthResponse.success out.1.1.2 = true
  /\ out.1.2
     = Dev.set_downloadOTPs s
         (<[User.id user := Dev.StoredOTP.mk (generateOTP r)
                              (now + FIVE_MINUTES)]> (Dev.downloadOTPs s)).
Proof.
  intros Hpw Hexp Hfind Hok. cbv zeta.
  unfold Dev.handleVerifyPasswordForDownload. enter_handler.
  destruct (Dev.sendOTPToEmailAndPhone _ _ _ _ _ _) as [res sent].
  repeat split.
Qed.

(** X27. The life of a code in the in-memory step-up.  After a step-up
    request with the right password, and while the code has not expired:
    every wrong guess is answered 401 "Invalid OTP" and leaves the store as
    it was, however many there are; the right code is then answered 200;
    and the same code sent once more is answered 400, no code being
    stored any longer. *)
Theorem dev_download_code_lifecycle
    (bcrypt_compare : string -> string -> bool) (env : Env.t) (s : Dev.Store)
    (pw uid : string) (user : User.t) (exp now r later : N)
    (prov : Providers) (guesses : list (string * N * N)) :
  pw <> "" -> now <= exp -> later <= exp ->
  Dev.findUserById s uid = Some user ->
  bcrypt_compare pw (User.password user) = true ->
  later <= now + FIVE_MINUTES ->
  Forall
    (fun guess : string * N * N =>
       guess.1.1 <> "" /\ guess.1.1 <> generateOTP r
       /\ guess.2 <= guess.1.2 /\ guess.2 <= now + FIVE_MINUTES)
    guesses ->
  let issued :=
    (Dev.handleVerifyPasswordForDownload bcrypt_compare env s (Some pw)
       (Bearer uid exp) now r prov).1.2 in
  let guessed := Dev.replayVerifyDownloadOTP issued uid guesses in
  let accepted :=
    Dev.handleVerifyDownloadOTP guessed.2 (Some (generateOTP r))
      (Bearer uid exp) later in
  Forall (fun reply => reply = (401, AuthResponse.mk false "Invalid OTP"))
    guessed.1
  /\ length guessed.1 = length guesses
  /\ guessed.2 = issued
  /\ accepted.1 = (200, AuthResponse.mk true "OTP verified successfully")
  /\ (Dev.handleVerifyDownloadOTP accepted.2 (Some (generateOTP r))
        (Bearer uid exp) later).1
     = (400,
        AuthResponse.mk false
          "No OTP found. Please verify your password first.").
Proof.
  intros Hpw Hexp Hexp' Hfind Hok Hlive Hguesses issued guessed accepted.
  destruct (dev_issue bcrypt_compare env s pw uid user exp now r prov Hpw Hexp
              Hfind Hok) as (_ & _ & Hissued).
  cbv zeta in Hissued. fold issued in Hissued.
  assert (Hfind' : Dev.findUserById issued uid = Some user)
    by (rewrite Hissued; exact Hfind).
  assert (Hstored : Dev.downloadOTPs issued !! User.id user
                    = Some (Dev.StoredOTP.mk (generateOTP r)
                              (now + FIVE_MINUTES))).
  { rewrite Hissued. cbn [Dev.downloadOTPs Dev.set_downloadOTPs].
    apply lookup_insert_eq. }
  assert (Hreplay : Forall
                      (fun reply =>
                         reply = (401, AuthResponse.mk false "Invalid OTP"))
                      guessed.1
                    /\ length guessed.1 = length guesses
                    /\ guessed.2 = issued).
  { subst guessed. clear accepted. induction Hguesses as [|[[code e] n] rest
      (Hc & Hwrong & Hn & Hbefore) _ IH]; [repeat constructor|].
    cbn [Dev.replayVerifyDownloadOTP]. cbn [fst snd] in Hc, Hwrong, Hn, Hbefore.
    assert (Hone : Dev.handleVerifyDownloadOTP issued (Some code)
                     (Bearer uid e) n
                   = (401, AuthResponse.mk false "Invalid OTP", issued)).
    { unfold Dev.handleVerifyDownloadOTP.
      rewrite (truthy_Some _ Hc), (token_live _ _ Hn), Hfind', Hstored.
      cbn [negb default from_option Datatypes.id Dev.StoredOTP.expiresAt
           Dev.StoredOTP.code].
      rewrite (token_live _ _ Hbefore).
      replace (String.eqb (generateOTP r) code) with false; [reflexivity|].
      symmetry. apply String.eqb_neq. congruence. }
    rewrite Hone.
    destruct (Dev.replayVerifyDownloadOTP issued uid rest) as [replies st].
    cbn [fst snd] in IH |- *. destruct IH as (IH1 & IH2 & IH3).
    repeat split;
      [constructor; [reflexivity|exact IH1]
      |cbn [length]; f_equal; exact IH2|exact IH3]. }
  destruct Hreplay as (Hr1 & Hr2 & Hr3).
  repeat (split; [assumption|]).
  assert (Haccepted : accepted
                      = (200, AuthResponse.mk true "OTP verified successfully",
                         Dev.set_downloadOTPs issued
                           (delete (User.id user) (Dev.downloadOTPs issued)))).
  { subst accepted. rewrite Hr3.
    apply (dev_verify_success issued uid (generateOTP r) user
             (Dev.StoredOTP.mk (generateOTP r) (now + FIVE_MINUTES)) exp later);
      try assumption; [apply generateOTP_nonempty|reflexivity]. }
  rewrite Haccepted. cbn [fst snd]. split; [reflexivity|].
  unfold Dev.handleVerifyDownloadOTP.
  rewrite (truthy_Some _ (generateOTP_nonempty r)), (token_live _ _ Hexp').
  cbn [negb default from_option Datatypes.id].
  replace (Dev.findUserById (Dev.set_downloadOTPs issued _) uid)
    with (Some user) by (symmetry; exact Hfind').
  cbn [Dev.downloadOTPs Dev.set_downloadOTPs].
  rewrite lookup_delete_eq. reflexivity.
Qed.

Lemma dev_register_then_login_witness :
  exists newUser : User.t, User.email newUser = "carol@x.com".
Proof.
  destruct (dev_register_then_login Scenario.bcrypt_compare
              Scenario.toLowerCase Scenario.store0 (Some "Carol")
              (Some "+1 555-123-4567") "Carol@X.com" "correct horse"
              "k3x9q0a1z" "$2b$10$alice" Scenario.noon (Scenario.noon + 1000)
              eq_refl eq_refl eq_refl)
    as (newUser & _ & _ & _ & Hemail & _).
  exists newUser. exact Hemail.
Defined.

Lemma dev_login_token_lifetime_witness :
  exists user : User.t, In user (Dev.users Scenario.store0).
Proof.
  destruct (dev_login_token_lifetime Scenario.bcrypt_compare
              Scenario.toLowerCase Scenario.store0 (Some "A@x.com")
              (Some "correct horse") Scenario.noon eq_refl)
    as (user & Hin & _).
  exists user. exact Hin.
Defined.

Lemma dev_delete_account_witness :
  (Dev.handleDeleteAccount Scenario.store_two (Bearer "u1" 0)).1
  = (200, AuthResponse.mk true "Account deleted successfully").
Proof.
  refine (proj1 (dev_delete_account Scenario.store_two "u1" Scenario.alice 0
                   _ _)).
  - reflexivity.
  - repeat (constructor; [cbn; intuition discriminate|]). constructor.
Defined.

Lemma dev_change_password_witness :
  (Dev.handleChangePassword Scenario.bcrypt_compare Scenario.store0
     (Bearer "u1" 0) (Some "correct horse") (Some "new secret")
     "$2b$10$new").1
  = (200, AuthResponse.mk true "Password changed successfully").
Proof.
  refine (proj1 (dev_change_password Scenario.bcrypt_compare Scenario.store0
                   "u1" "correct horse" "new secret" "$2b$10$new"
                   Scenario.alice 0 _ _ _)).
  - reflexivity.
  - discriminate.
  - discriminate.
Defined.

Lemma dev_register_accepts_repeated_phone_witness :
  let first :=
    Dev.handleRegister Scenario.toLowerCase Scenario.store0 (Some "Carol")
      (Some "carol@x.com") (Some "+1 555-123-4567") (Some "secret1")
      Scenario.noon "k3x9q0a1z" "$2b$10$carol" in
  (Dev.handleRegister Scenario.toLowerCase first.2 (Some "Dave")
     (Some "dave@x.com") (Some "+1 555-123-4567") (Some "secret2")
     (Scenario.noon + 1000) "p0o9i8u7y" "$2b$10$dave").1.1 = 201.
Proof.
  refine (proj1 (dev_register_accepts_repeated_phone Scenario.toLowerCase
                   Scenario.store0 (Some "Carol") (Some "carol@x.com")
                   (Some "secret1") "+1 555-123-4567" "Dave" "dave@x.com"
                   "secret2" "k3x9q0a1z" "p0o9i8u7y" "$2b$10$carol"
                   "$2b$10$dave" Scenario.noon (Scenario.noon + 1000)
                   _ _ _ _ _ _ _)).
  - reflexivity.
  - vm_compute. discriminate.
  - discriminate.
  - vm_compute. discriminate.
  - reflexivity.
  - reflexivity.
  - reflexivity.
Defined.

Lemma dev_download_code_lifecycle_witness :
  let issued :=
    (Dev.handleVerifyPasswordForDownload Scenario.bcrypt_compare
       Scenario.configured Scenario.store0 (Some "correct horse")
       Scenario.session Scenario.noon 0 Scenario.both_accept).1.2 in
  (Dev.replayVerifyDownloadOTP issued "u1"
     [("000000", Scenario.noon + 86400000, Scenario.noon + 500)]).2
  = issued.
Proof.
  refine (proj1 (proj2 (proj2
            (dev_download_code_lifecycle Scenario.bcrypt_compare
               Scenario.configured Scenario.store0 "correct horse" "u1"
               Scenario.alice (Scenario.noon + 86400000) Scenario.noon 0
               (Scenario.noon + 1000) Scenario.both_accept
               [("000000", Scenario.noon + 86400000, Scenario.noon + 500)]
               _ _ _ _ _ _ _)))).
  - discriminate.
  - vm_compute. discriminate.
  - vm_compute. discriminate.
  - reflexivity.
  - reflexivity.
  - vm_compute. discriminate.
  - constructor; [|constructor].
    repeat split; vm_compute; discriminate.
Defined.

(** ** Samples for the file endpoint and for deleted documents *)

Lemma dev_get_file_checks_token_witness :
  Dev.handleGetFile Scenario.store_docs "1793534000000abc123xyz"
    (Some (Dev.downloadToken "1793534000001def456uvw" Scenario.noon))
  = Dev.Refused 403 "Invalid access token".
Proof.
  refine (proj1 (proj2 (dev_get_file_checks_token Scenario.store_docs
                          Scenario.transcript_doc "1793534000001def456uvw"
                          Scenario.noon _ _ _ _ _))).
  - vm_compute. reflexivity.
  - discriminate.
  - reflexivity.
  - reflexivity.
  - vm_compute. reflexivity.
Defined.

Lemma dev_deleted_document_stays_unverifiable_witness :
  SecurityResponse.success
    (Dev.handleVerifyOTP
       (fold_left (Dev.serve Scenario.configured)
          [Dev.SendOTP Scenario.session (Some "1793534000000abc123xyz")
             (Scenario.noon + 1000) 0 Scenario.both_accept]
          (Dev.handleDeleteDocument Scenario.store_docs Scenario.session
             "1793534000000abc123xyz" Scenario.noon).2)
       Scenario.session "1793534000000abc123xyz" "100000"
       (Scenario.noon + 2000)).1.2 = false.
Proof.
  refine (dev_deleted_document_stays_unverifiable Scenario.configured
            Scenario.store_docs Scenario.session "1793534000000abc123xyz"
            "u1" Scenario.transcript_doc Scenario.noon
            [Dev.SendOTP Scenario.session (Some "1793534000000abc123xyz")
               (Scenario.noon + 1000) 0 Scenario.both_accept]
            _ _ _ _ Scenario.session "100000" (Scenario.noon + 2000)).
  - repeat (constructor; [cbn; intuition discriminate|]). constructor.
  - reflexivity.
  - discriminate.
  - reflexivity.
Defined.
